(** * rVPNSE unified build system: a shallow embedding of [tools/build.py]

    The builder drives an external build tool, inspects and mutates the file
    system, and assembles archives.  The embedding makes those effects explicit:

    - a path is the list of its components ([pathlib.Path]);
    - the file system is a finite map from paths to node kinds;
    - every effectful primitive ([shutil], [pathlib], [subprocess.run]) is an
      action of a small state-and-exception monad that updates the file system
      and appends an event to a trace;
    - everything the script reads from its host (environment variables, home
      directory, [platform.system()], [shutil.which], what an external process
      does) is a field of a [Host] record.

    Logging and printing are diagnostics only and are left out.  File-system
    primitives perform their documented effect; errors of the operating system
    itself (permissions, full disks) are outside the model, while exceptions
    the script raises or that follow from its own data ([RuntimeError],
    [KeyError], [FileExistsError] of [mkdir]) are modelled. *)

From stdpp Require Import gmap strings list fin_maps pretty.
From Stdlib Require Import Ascii String ZArith.

Local Open Scope string_scope.
Local Open Scope Z_scope.
Local Open Scope list_scope.

(** ** Data model *)

Inductive BuildMode := DEBUG | RELEASE.

(** [BuildMode.value] *)
Definition mode_value (m : BuildMode) : string :=
  match m with DEBUG => "debug" | RELEASE => "release" end.

Inductive Platform := LINUX | MACOS | WINDOWS | ANDROID | IOS.

Global Instance Platform_eq_dec : EqDecision Platform.
Proof. solve_decision. Defined.

Global Instance BuildMode_eq_dec : EqDecision BuildMode.
Proof. solve_decision. Defined.

Record Target := mkTarget {
  name : string;
  rust_target : string;
  platform : Platform;
  arch : string;
  android_arch : option string;
  min_api : option Z
}.

Global Instance Target_eq_dec : EqDecision Target.
Proof. solve_decision. Defined.

(** The positional constructor calls of the source, with the two defaulted
    fields. *)
Definition Target4 (n r : string) (p : Platform) (a : string) : Target :=
  mkTarget n r p a None None.
Definition Target6 (n r : string) (p : Platform) (a aa : string) (api : Z) : Target :=
  mkTarget n r p a (Some aa) (Some api).

(** [TARGETS]: a dict literal; insertion order is the order of the literal,
    and the keys are pairwise distinct, so an association list is the dict. *)
Definition TARGETS : list (string * Target) :=
  [ ("linux-x64", Target4 "linux-x64" "x86_64-unknown-linux-gnu" LINUX "x64");
    ("macos-x64", Target4 "macos-x64" "x86_64-apple-darwin" MACOS "x64");
    ("macos-arm64", Target4 "macos-arm64" "aarch64-apple-darwin" MACOS "arm64");
    ("windows-x64", Target4 "windows-x64" "x86_64-pc-windows-msvc" WINDOWS "x64");
    ("android-arm64",
      Target6 "android-arm64" "aarch64-linux-android" ANDROID "arm64" "arm64-v8a" 21);
    ("android-arm",
      Target6 "android-arm" "armv7-linux-androideabi" ANDROID "arm" "armeabi-v7a" 19);
    ("android-x64",
      Target6 "android-x64" "x86_64-linux-android" ANDROID "x64" "x86_64" 21);
    ("android-x86",
      Target6 "android-x86" "i686-linux-android" ANDROID "x86" "x86" 19);
    ("ios-arm64", Target4 "ios-arm64" "aarch64-apple-ios" IOS "arm64");
    ("ios-x64-sim", Target4 "ios-x64-sim" "x86_64-apple-ios" IOS "x64");
    ("ios-arm64-sim", Target4 "ios-arm64-sim" "aarch64-apple-ios-sim" IOS "arm64") ].

(** [TARGETS[key]] / [key in TARGETS] *)
Fixpoint dict_get {V} (d : list (string * V)) (key : string) : option V :=
  match d with
  | [] => None
  | (k, v) :: d' => if decide (k = key) then Some v else dict_get d' key
  end.

Definition TARGETS_keys : list string := TARGETS.*1.
Definition TARGETS_values : list Target := TARGETS.*2.

(** ** Strings *)

(** [str.upper] on the ASCII range (every string the script upper-cases is a
    registry triple, which is ASCII). *)
Definition upper_ascii (c : ascii) : ascii :=
  let n := nat_of_ascii c in
  if ((97 <=? n)%nat && (n <=? 122)%nat)%bool then ascii_of_nat (n - 32) else c.

Fixpoint str_map (f : ascii -> ascii) (s : string) : string :=
  match s with
  | EmptyString => EmptyString
  | String c s' => String (f c) (str_map f s')
  end.

Definition upper (s : string) : string := str_map upper_ascii s.

(** [s.replace(old, new)] for one-character [old] and [new]. *)
Definition replace1 (old new : ascii) (s : string) : string :=
  str_map (fun c => if Ascii.eqb c old then new else c) s.

(** [target.rust_target.upper().replace("-", "_")], line 171. *)
Definition mangle (triple : string) : string :=
  replace1 "-" "_" (upper triple).

Definition target_upper (t : Target) : string := mangle (rust_target t).

(** The wording of the specification, for comparison: upper-case, and every
    maximal run of non-alphanumeric characters becomes one separator. *)
Definition is_alnum (c : ascii) : bool :=
  let n := nat_of_ascii c in
  (((48 <=? n) && (n <=? 57)) || ((65 <=? n) && (n <=? 90))
   || ((97 <=? n) && (n <=? 122)))%nat%bool.

Fixpoint squeeze_runs (in_run : bool) (s : string) : string :=
  match s with
  | EmptyString => EmptyString
  | String c s' =>
      if is_alnum c then String c (squeeze_runs false s')
      else if in_run then squeeze_runs true s'
      else String "_" (squeeze_runs true s')
  end.

Definition mangle_spec (triple : string) : string :=
  squeeze_runs false (upper triple).

(** ** [_get_library_name] *)

Definition _get_library_name (t : Target) : string :=
  if decide (platform t = WINDOWS) then "rvpnse.dll"
  else if decide (platform t = MACOS \/ platform t = IOS) then "librvpnse.dylib"
  else "librvpnse.so".

(** ** Paths ([pathlib.Path]) *)

Abbreviation Path := (list string).

(** [p / c] for a single component [c] (no separator, neither [..] nor
    absolute), as are the literals of the script and the names, triples and
    ABIs of the registry. *)
Definition joinpath (p : Path) (c : string) : Path := p ++ [c].
Notation "p </> c" := (joinpath p c) (at level 40, left associativity).

Fixpoint split_on (sep : ascii) (s : string) : list string :=
  match s with
  | EmptyString => [EmptyString]
  | String c s' =>
      if Ascii.eqb c sep then EmptyString :: split_on sep s'
      else match split_on sep s' with
           | [] => [String c EmptyString]
           | x :: xs => String c x :: xs
           end
  end.

Definition starts_with_slash (s : string) : bool :=
  match s with String c _ => Ascii.eqb c "/" | EmptyString => false end.

(** [Path(s)]: empty and ["."] components vanish; an absolute path starts
    with the root component ["/"]. *)
Definition Path_of_str (s : string) : Path :=
  (if starts_with_slash s then ["/"] else [])
  ++ filter (fun c => c <> "" /\ c <> ".") (split_on "/" s).

(** [str(p)] *)
Definition str_of_path (p : Path) : string :=
  match p with
  | [] => "."
  | r :: rest => if decide (r = "/") then "/" +:+ String.concat "/" rest
                 else String.concat "/" p
  end.

(** [p.parent] *)
Definition parent (p : Path) : Path := removelast p.

(** [p.name] *)
Definition basename (p : Path) : string := List.last p "".

Fixpoint rfind_from (c : ascii) (s : string) (i : nat) : option nat :=
  match s with
  | EmptyString => None
  | String d s' =>
      match rfind_from c s' (S i) with
      | Some j => Some j
      | None => if Ascii.eqb d c then Some i else None
      end
  end.

(** [name] without [PurePath.suffix]: the suffix starts at the last dot when
    that dot is neither the first nor the last character. *)
Definition strip_suffix (nm : string) : string :=
  match rfind_from "." nm 0 with
  | Some i => if ((0 <? i)%nat && (i <? String.length nm - 1)%nat)%bool
              then substring 0 i nm else nm
  | None => nm
  end.

(** [p.with_suffix("")] *)
Definition with_suffix_empty (p : Path) : Path :=
  match p with
  | [] => []
  | _ => removelast p ++ [strip_suffix (basename p)]
  end.

(** ** The world: file system and trace of effects *)

Inductive Node := File | Dir.

Global Instance Node_eq_dec : EqDecision Node.
Proof. solve_decision. Defined.

Abbreviation FileSys := (gmap Path Node).
Abbreviation Env := (gmap string string).

Inductive ArchiveFormat := zip | gztar.

Inductive Event :=
  | EvRun (cmd : list string) (env : Env) (code : option Z)
  | EvRmtree (p : Path)
  | EvMkdir (p : Path)
  | EvCopy (src dst : Path)
  | EvWrite (p : Path)
  | EvChmod (p : Path)
  | EvArchive (fmt : ArchiveFormat) (archive root_dir : Path).

Record World := mkWorld { fs : FileSys; trace : list Event }.

Definition emit (e : Event) (f : FileSys) (w : World) : World :=
  mkWorld f (trace w ++ [e]).

Inductive Exn :=
  | RuntimeError (msg : string)
  | KeyError (key : string)
  | FileExistsError (p : Path)
  | FileNotFoundError (p : Path)
  | TypeError (msg : string).

Inductive Res (A : Type) := Ok (a : A) | Raise (e : Exn).
Arguments Ok {A} a.
Arguments Raise {A} e.

(** State passing with exceptions; the world survives an exception. *)
Definition M (A : Type) : Type := World -> Res A * World.

Definition ret {A} (a : A) : M A := fun w => (Ok a, w).

Definition bind {A B} (m : M A) (k : A -> M B) : M B := fun w =>
  match m w with
  | (Ok a, w') => k a w'
  | (Raise e, w') => (Raise e, w')
  end.

Notation "'let*' x ':=' m 'in' k" := (bind m (fun x => k))
  (at level 10, x pattern, m at level 100, k at level 200).
Notation "m1 '>>' m2" := (bind m1 (fun _ => m2))
  (at level 100, m2 at level 200, right associativity).

Definition raise {A} (e : Exn) : M A := fun w => (Raise e, w).

(** What the script observes of its host. [run_process cmd cwd env f] is what
    [subprocess.run] does on file system [f]: the return code ([None] when the
    process cannot be started and [subprocess.run] raises) and the file system
    it leaves. *)
Record Host := mkHost {
  environ : Env;
  home : Path;
  system : string;
  machine : string;
  which : string -> option string;
  run_process : list string -> Path -> Env -> FileSys -> option Z * FileSys;
  script_file : Path
}.

(** Truthiness of a [str] *)
Definition str_truthy (s : string) : bool := negb (String.eqb s "").

Definition exists_ (f : FileSys) (p : Path) : bool := bool_decide (is_Some (f !! p)).
Definition is_dir (f : FileSys) (p : Path) : bool := bool_decide (f !! p = Some Dir).

(** [p.exists()] *)
Definition path_exists (p : Path) : M bool := fun w => (Ok (exists_ (fs w) p), w).

(** [shutil.rmtree(p)] for a directory [p]: [p] and everything below it
    disappears.  On a regular file [shutil.rmtree] raises instead; the
    properties that need the call to return assume that [p] is not one. *)
Definition rmtree_fs (p : Path) (f : FileSys) : FileSys :=
  filter (fun kv => ~ (p `prefix_of` kv.1)) f.
Definition rmtree (p : Path) : M unit := fun w =>
  (Ok (), emit (EvRmtree p) (rmtree_fs p (fs w)) w).

(** The non-empty prefixes of [p], shortest first, [p] last. *)
Definition ancestors_and_self (p : Path) : list Path :=
  (fun n => take (S n) p) <$> seq 0 (List.length p).

Definition mkdirs_fs (p : Path) (f : FileSys) : FileSys :=
  f ∪ list_to_map ((fun q => (q, Dir)) <$> ancestors_and_self p).

(** [p.mkdir(parents=.., exist_ok=..)] *)
Definition mkdir (p : Path) (parents exist_ok : bool) : M unit := fun w =>
  match fs w !! p with
  | Some k =>
      if (exist_ok && bool_decide (k = Dir))%bool then (Ok (), w)
      else (Raise (FileExistsError p), w)
  | None =>
      if (bool_decide (parent p = []) || exists_ (fs w) (parent p))%bool
      then (Ok (), emit (EvMkdir p) (<[p := Dir]> (fs w)) w)
      else if parents then (Ok (), emit (EvMkdir p) (mkdirs_fs p (fs w)) w)
      else (Raise (FileNotFoundError (parent p)), w)
  end.

(** [shutil.copy2(src, dst)]: into [dst] when it is a directory, onto it
    otherwise. *)
Definition copy2 (src dst : Path) : M unit := fun w =>
  let dst' := if is_dir (fs w) dst then dst </> basename src else dst in
  (Ok (), emit (EvCopy src dst) (<[dst' := File]> (fs w)) w).

(** [p.write_text(..)]; the text is an opaque payload. *)
Definition write_text (p : Path) : M unit := fun w =>
  (Ok (), emit (EvWrite p) (<[p := File]> (fs w)) w).

(** [p.chmod(0o755)] *)
Definition chmod (p : Path) : M unit := fun w =>
  (Ok (), emit (EvChmod p) (fs w) w).

Definition archive_ext (fmt : ArchiveFormat) : string :=
  match fmt with zip => ".zip" | gztar => ".tar.gz" end.

(** The file [shutil.make_archive(str(base), fmt, root_dir)] creates:
    [str(base)] with the extension of the format appended. *)
Definition archive_file (base : Path) (fmt : ArchiveFormat) : Path :=
  match base with
  | [] => []
  | _ => removelast base ++ [basename base +:+ archive_ext fmt]
  end.

Definition make_archive (base : Path) (fmt : ArchiveFormat) (root_dir : Path) : M unit :=
  fun w =>
    let a := archive_file base fmt in
    (Ok (), emit (EvArchive fmt a root_dir) (<[a := File]> (fs w)) w).

(** [for x in l: body(x)] *)
Fixpoint for_each {A} (l : list A) (body : A -> M unit) : M unit :=
  match l with
  | [] => ret ()
  | x :: l' => body x >> for_each l' body
  end.

(** A [for] loop that updates local variables [S]. *)
Fixpoint for_fold {A S} (l : list A) (s : S) (body : A -> S -> M S) : M S :=
  match l with
  | [] => ret s
  | x :: l' => let* s' := body x s in for_fold l' s' body
  end.

Definition lower_ascii (c : ascii) : ascii :=
  let n := nat_of_ascii c in
  if ((65 <=? n)%nat && (n <=? 90)%nat)%bool then ascii_of_nat (n + 32) else c.

Definition lower (s : string) : string := str_map lower_ascii s.

(** [f"{x}"] for an [Optional[int]] *)
Definition fmt_opt_int (o : option Z) : string :=
  match o with Some n => pretty n | None => "None" end.

(** ** The builder *)

Record rVPNSEBuilder := mkBuilder {
  project_root : Path;
  mode : BuildMode;
  build_dir : Path;
  output_dir : Path;
  android_ndk_root : option Path
}.

Section Builder.

Variable h : Host.

(** *** Toolchain locator *)

Definition possible_paths : list Path :=
  [ home h </> "Android" </> "Sdk" </> "ndk" </> "25.2.9519653";
    home h </> "Library" </> "Android" </> "sdk" </> "ndk" </> "25.2.9519653";
    Path_of_str "/usr/local/android-ndk-r25c";
    Path_of_str "/opt/android-ndk-r25c" ].

Definition ndk_structure (path : Path) : Path :=
  path </> "toolchains" </> "llvm" </> "prebuilt".

(** The loop over [possible_paths], lines 97-100. *)
Fixpoint _find_android_ndk_scan (paths : list Path) : M (option Path) :=
  match paths with
  | [] => ret None
  | path :: rest =>
      let* e1 := path_exists path in
      let* e2 := path_exists (ndk_structure path) in
      if (e1 && e2)%bool then ret (Some path) else _find_android_ndk_scan rest
  end.

Definition _find_android_ndk : M (option Path) :=
  let ndk_root := environ h !! "ANDROID_NDK_ROOT" in
  let common := _find_android_ndk_scan possible_paths in
  match ndk_root with
  | Some s =>
      if str_truthy s then
        let ndk_path := Path_of_str s in
        let* e := path_exists ndk_path in
        if e then ret (Some ndk_path) else common
      else common
  | None => common
  end.

Definition __init__ (project_root : Path) (mode : BuildMode) : M rVPNSEBuilder :=
  let* ndk := _find_android_ndk in
  let* e := path_exists (project_root </> "Cargo.toml") in
  if negb e
  then raise (RuntimeError ("Cargo.toml not found in " +:+ str_of_path project_root))
  else ret (mkBuilder project_root mode (project_root </> "target")
               (project_root </> "dist") ndk).

(** *** Running a command *)

(** [env or os.environ.copy()]: an absent or empty mapping falls back to the
    process environment; [cwd] is never passed, so it is the project root. *)
Definition _run_command (b : rVPNSEBuilder) (cmd : list string)
    (env : option Env) : M bool := fun w =>
  let env' := match env with
              | Some e => if bool_decide (e = ∅) then environ h else e
              | None => environ h
              end in
  let '(code, f') := run_process h cmd (project_root b) env' (fs w) in
  (Ok (bool_decide (code = Some 0)), emit (EvRun cmd env' code) f' w).

Definition _setup_rust_environment (b : rVPNSEBuilder) : M bool :=
  match which h "cargo" with
  | None => ret false
  | Some c =>
      if negb (str_truthy c) then ret false
      else
        let all_targets := rust_target <$> TARGETS_values in
        for_each all_targets (fun rust_target =>
          let* _ := _run_command b ["rustup"; "target"; "add"; rust_target] None in
          ret ()) >>
        ret true
  end.

(** *** Environment synthesizer *)

Definition _setup_android_environment (b : rVPNSEBuilder) (target : Target) : M Env :=
  match android_ndk_root b with
  | None => raise (RuntimeError "Android NDK not found")
  | Some ndk =>
      let system := lower (system h) in
      let toolchain_dir :=
        if decide (system = "darwin")
        then ndk </> "toolchains" </> "llvm" </> "prebuilt" </> "darwin-x86_64"
        else ndk </> "toolchains" </> "llvm" </> "prebuilt" </> "linux-x86_64" in
      let* e := path_exists toolchain_dir in
      if negb e
      then raise (RuntimeError
                    ("Android toolchain not found: " +:+ str_of_path toolchain_dir))
      else
        let api := fmt_opt_int (min_api target) in
        let clang_targets :=
          [ ("aarch64-linux-android", "aarch64-linux-android" +:+ api);
            ("armv7-linux-androideabi", "armv7a-linux-androideabi" +:+ api);
            ("x86_64-linux-android", "x86_64-linux-android" +:+ api);
            ("i686-linux-android", "i686-linux-android" +:+ api) ] in
        match dict_get clang_targets (rust_target target) with
        | None => raise (KeyError (rust_target target))
        | Some clang_target =>
            let target_upper := mangle (rust_target target) in
            let bin := toolchain_dir </> "bin" in
            ret
              (<["CARGO_TARGET_" +:+ target_upper +:+ "_LINKER" :=
                   str_of_path (bin </> (clang_target +:+ "-clang"))]>
              (<["AR_" +:+ target_upper := str_of_path (bin </> "llvm-ar")]>
              (<["CXX_" +:+ target_upper :=
                   str_of_path (bin </> (clang_target +:+ "-clang++"))]>
              (<["CC_" +:+ target_upper :=
                   str_of_path (bin </> (clang_target +:+ "-clang"))]>
              (<["ANDROID_NDK_HOME" := str_of_path ndk]>
              (<["ANDROID_NDK_ROOT" := str_of_path ndk]> (environ h)))))))
        end
  end.

(** *** Build executor *)

Definition cargo_cmd (b : rVPNSEBuilder) (target : Target) : list string :=
  ["cargo"; "build"; "--target"; rust_target target]
  ++ (if decide (mode b = RELEASE) then ["--release"] else []).

Definition _build_target (b : rVPNSEBuilder) (target : Target) : M bool :=
  let target_dir := build_dir b </> rust_target target in
  let* e := path_exists target_dir in
  (if e then rmtree target_dir else ret ()) >>
  let execute (env : Env) : M bool :=
    let cmd := cargo_cmd b target in
    let* success := _run_command b cmd (Some env) in
    if success then
      let mode_dir := mode_value (mode b) in
      let lib_path :=
        build_dir b </> rust_target target </> mode_dir </> _get_library_name target in
      let* e := path_exists lib_path in
      if e then ret true else ret false
    else ret false in
  if decide (platform target = ANDROID) then
    match android_ndk_root b with
    | None => ret false
    | Some _ => let* env := _setup_android_environment b target in execute env
    end
  else execute (environ h).

(** *** Packager *)

Definition nonempty {A} (l : list A) : bool :=
  match l with [] => false | _ => true end.

Definition _package_target (b : rVPNSEBuilder) (target : Target) : M (option Path) :=
  let mode_dir := mode_value (mode b) in
  let lib_path :=
    build_dir b </> rust_target target </> mode_dir </> _get_library_name target in
  let* e := path_exists lib_path in
  if negb e then ret None
  else
    let package_dir := output_dir b </> ("rvpnse-" +:+ name target) in
    mkdir package_dir true true >>
    copy2 lib_path package_dir >>
    let header_file := project_root b </> "include" </> "rvpnse.h" in
    let* eh := path_exists header_file in
    (if eh then copy2 header_file package_dir else ret ()) >>
    let readme_file := project_root b </> "README.md" in
    let* er := path_exists readme_file in
    (if er then copy2 readme_file package_dir else ret ()) >>
    let* archive_path :=
      (if decide (platform target = WINDOWS) then
         let archive_path := output_dir b </> ("rvpnse-" +:+ name target +:+ ".zip") in
         make_archive (with_suffix_empty archive_path) zip package_dir >>
         ret archive_path
       else
         let archive_path :=
           output_dir b </> ("rvpnse-" +:+ name target +:+ ".tar.gz") in
         make_archive (with_suffix_empty (with_suffix_empty archive_path))
           gztar package_dir >>
         ret archive_path) in
    rmtree package_dir >>
    ret (Some archive_path).

Definition _package_android_bundle (b : rVPNSEBuilder) (android_targets : list Target)
    : M (option Path) :=
  let bundle_dir := output_dir b </> "rvpnse-android" in
  let jni_libs_dir := bundle_dir </> "jniLibs" in
  mkdir jni_libs_dir true true >>
  let mode_dir := mode_value (mode b) in
  for_each android_targets (fun target =>
    let lib_path := build_dir b </> rust_target target </> mode_dir </> "librvpnse.so" in
    let* e := path_exists lib_path in
    if e then
      match android_arch target with
      | None => raise (TypeError "unsupported operand type(s) for /")
      | Some a =>
          let arch_dir := jni_libs_dir </> a in
          mkdir arch_dir false true >>
          copy2 lib_path (arch_dir </> "librvpnse.so")
      end
    else ret ()) >>
  let header_file := project_root b </> "include" </> "rvpnse.h" in
  let* eh := path_exists header_file in
  (if eh then copy2 header_file bundle_dir else ret ()) >>
  let readme_file := project_root b </> "README.md" in
  let* er := path_exists readme_file in
  (if er then copy2 readme_file bundle_dir else ret ()) >>
  let install_script := bundle_dir </> "install.sh" in
  write_text install_script >>
  chmod install_script >>
  let archive_path := output_dir b </> "rvpnse-android.tar.gz" in
  make_archive (with_suffix_empty (with_suffix_empty archive_path)) gztar bundle_dir >>
  rmtree bundle_dir >>
  ret (Some archive_path).

(** [["lipo", "-create", "-output", str(out)] + paths] *)
Definition lipo_cmd (out : Path) (group : list (Target * Path)) : list string :=
  ["lipo"; "-create"; "-output"; str_of_path out] ++ (str_of_path <$> group.*2).

Definition _package_ios_bundle (b : rVPNSEBuilder) (ios_targets : list Target)
    : M (option Path) :=
  let bundle_dir := output_dir b </> "rvpnse-ios" in
  mkdir bundle_dir true true >>
  let mode_dir := mode_value (mode b) in
  let* groups :=
    for_fold ios_targets ([], []) (fun target '(device_targets, simulator_targets) =>
      let lib_path :=
        build_dir b </> rust_target target </> mode_dir </> "librvpnse.dylib" in
      let* e := path_exists lib_path in
      if e then
        if decide (rust_target target = "aarch64-apple-ios")
        then ret (device_targets ++ [(target, lib_path)], simulator_targets)
        else ret (device_targets, simulator_targets ++ [(target, lib_path)])
      else ret (device_targets, simulator_targets)) in
  let '(device_targets, simulator_targets) := groups in
  if (negb (nonempty device_targets) && negb (nonempty simulator_targets))%bool
  then ret None
  else
    (* lines 410-536, reached when no merge failed *)
    let finish : M (option Path) :=
      for_each ["rVPNSE-Device.framework"; "rVPNSE-Simulator.framework"]
        (fun framework_name =>
          let framework_path := bundle_dir </> framework_name in
          let* e := path_exists framework_path in
          if e then
            write_text (framework_path </> "Info.plist") >>
            let headers_dir := framework_path </> "Headers" in
            mkdir headers_dir false true >>
            let header_file := project_root b </> "include" </> "rvpnse.h" in
            let* eh := path_exists header_file in
            if eh then
              copy2 header_file headers_dir >>
              write_text (headers_dir </> "module.modulemap")
            else ret ()
          else ret ()) >>
      let readme_file := project_root b </> "README.md" in
      let* er := path_exists readme_file in
      (if er then copy2 readme_file bundle_dir else ret ()) >>
      let install_script := bundle_dir </> "install.sh" in
      write_text install_script >>
      chmod install_script >>
      let archive_path := output_dir b </> "rvpnse-ios.tar.gz" in
      make_archive (with_suffix_empty (with_suffix_empty archive_path)) gztar bundle_dir >>
      rmtree bundle_dir >>
      ret (Some archive_path) in
    (* lines 395-408 *)
    let simulator : M (option Path) :=
      if nonempty simulator_targets then
        let sim_framework_dir := bundle_dir </> "rVPNSE-Simulator.framework" in
        mkdir sim_framework_dir true true >>
        match simulator_targets with
        | [(_, path)] => copy2 path (sim_framework_dir </> "rVPNSE") >> finish
        | _ =>
            let* ok :=
              _run_command b (lipo_cmd (sim_framework_dir </> "rVPNSE") simulator_targets)
                None in
            if negb ok then ret None else finish
        end
      else finish in
    (* lines 380-393 *)
    if nonempty device_targets then
      let device_framework_dir := bundle_dir </> "rVPNSE-Device.framework" in
      mkdir device_framework_dir true true >>
      match device_targets with
      | [(_, path)] => copy2 path (device_framework_dir </> "rVPNSE") >> simulator
      | _ =>
          let* ok :=
            _run_command b (lipo_cmd (device_framework_dir </> "rVPNSE") device_targets)
              None in
          if negb ok then ret None else simulator
      end
    else simulator.

(** *** Orchestrator *)

(** The local variables of the loop of [build]: [results], [android_targets],
    [ios_targets]. *)
Record LoopState := mkLoop {
  results : gmap string bool;
  android_targets : list Target;
  ios_targets : list Target
}.

(** The body of the loop of [build], lines 564-575. *)
Definition build_body (b : rVPNSEBuilder) (target_name : string) (st : LoopState)
    : M LoopState :=
  match dict_get TARGETS target_name with
  | None => raise (KeyError target_name)
  | Some target =>
      let* success := _build_target b target in
      let results := <[target_name := success]> (results st) in
      if success then
        if decide (platform target = ANDROID)
        then ret (mkLoop results (android_targets st ++ [target]) (ios_targets st))
        else if decide (platform target = IOS)
        then ret (mkLoop results (android_targets st) (ios_targets st ++ [target]))
        else
          let* _ := _package_target b target in
          ret (mkLoop results (android_targets st) (ios_targets st))
      else ret (mkLoop results (android_targets st) (ios_targets st))
  end.

Definition build (b : rVPNSEBuilder) (target_names : list string)
    : M (gmap string bool) :=
  let* ok := _setup_rust_environment b in
  if negb ok then ret ∅
  else
    let* e := path_exists (output_dir b) in
    (if e then rmtree (output_dir b) else ret ()) >>
    mkdir (output_dir b) true false >>
    let invalid_targets :=
      filter (fun name => dict_get TARGETS name = None) target_names in
    if nonempty invalid_targets then ret ∅
    else
      let* st := for_fold target_names (mkLoop ∅ [] []) (build_body b) in
      (if nonempty (android_targets st)
       then let* _ := _package_android_bundle b (android_targets st) in ret ()
       else ret ()) >>
      (if nonempty (ios_targets st)
       then let* _ := _package_ios_bundle b (ios_targets st) in ret ()
       else ret ()) >>
      ret (results st).

Definition clean (b : rVPNSEBuilder) : M unit :=
  let* e := path_exists (build_dir b) in
  (if e then rmtree (build_dir b) else ret ()) >>
  let* e' := path_exists (output_dir b) in
  (if e' then rmtree (output_dir b) else ret ()).

(** [list_targets] only prints. *)
Definition list_targets (b : rVPNSEBuilder) : M unit := ret ().

(** *** Entry point *)

(** The parsed command line ([argparse] restricts [--mode] to the two modes). *)
Record Args := mkArgs {
  arg_mode : BuildMode;
  arg_targets : option (list string);
  arg_list : bool;
  arg_clean : bool;
  arg_all_desktop : bool;
  arg_all_android : bool;
  arg_all_ios : bool;
  arg_all : bool;
  arg_verbose : bool
}.

Definition names_where (P : Platform -> bool) : list string :=
  (filter (fun kv => P (platform kv.2)) TARGETS).*1.

Definition default_targets : list string :=
  let current_system := lower (system h) in
  if decide (current_system = "darwin") then
    if decide (machine h = "arm64") then ["macos-arm64"] else ["macos-x64"]
  else if decide (current_system = "linux") then ["linux-x64"]
  else if decide (current_system = "windows") then ["windows-x64"]
  else [].

Definition targets_to_build (args : Args) : list string :=
  if arg_all args then TARGETS_keys
  else if arg_all_desktop args then
    names_where (fun p => negb (bool_decide (p = ANDROID \/ p = IOS)))
  else if arg_all_android args then names_where (fun p => bool_decide (p = ANDROID))
  else if arg_all_ios args then names_where (fun p => bool_decide (p = IOS))
  else match arg_targets args with
       | Some (n :: l) => n :: l
       | _ => default_targets
       end.

(** [main]: [None] is the bare [return]. *)
Definition main (args : Args) : M (option Z) :=
  let project_root := parent (parent (script_file h)) in
  let* builder := __init__ project_root (arg_mode args) in
  if arg_list args then list_targets builder >> ret None
  else if arg_clean args then clean builder >> ret None
  else
    let targets_to_build := targets_to_build args in
    if negb (nonempty targets_to_build) then ret (Some 1)
    else
      let* results := build builder targets_to_build in
      let success_count := size (filter (fun kv => kv.2 = true) results) in
      ret (Some (if decide (success_count = size results) then 0 else 1)).

(** [sys.exit(main())]: [None] exits with status 0, an integer with that
    status, an uncaught exception with status 1. *)
Definition exit_status (r : Res (option Z)) : Z :=
  match r with
  | Ok None => 0
  | Ok (Some n) => n
  | Raise _ => 1
  end.

Definition script (args : Args) (w : World) : Z * World :=
  let '(r, w') := main args w in (exit_status r, w').

End Builder.

(** ** Vocabulary of the properties *)

(** One character of [mangle]. *)
Definition mangle_ascii (c : ascii) : ascii :=
  let u := upper_ascii c in if Ascii.eqb u "-" then "_"%char else u.

(** The expected artifact of a target, lines 212-213. *)
Definition lib_path (b : rVPNSEBuilder) (t : Target) : Path :=
  build_dir b </> rust_target t </> mode_value (mode b) </> _get_library_name t.

(** The last thing that happened between [w] and [w'] is a run of the build
    tool for [t] that exited with status zero. *)
Definition tool_exited_zero (b : rVPNSEBuilder) (t : Target) (w w' : World) : Prop :=
  exists pre env, trace w' = trace w ++ pre ++ [EvRun (cargo_cmd b t) env (Some 0)].

Definition with_ndk (b : rVPNSEBuilder) (ndk : option Path) : rVPNSEBuilder :=
  mkBuilder (project_root b) (mode b) (build_dir b) (output_dir b) ndk.

(** The world after the stale output directory of the triple is removed,
    lines 190-192. *)
Definition cleaned (b : rVPNSEBuilder) (t : Target) (w : World) : World :=
  if exists_ (fs w) (build_dir b </> rust_target t)
  then emit (EvRmtree (build_dir b </> rust_target t))
         (rmtree_fs (build_dir b </> rust_target t) (fs w)) w
  else w.

(** The conventional install locations, in the order they are tried,
    lines 82-87. *)
Definition conventional_locations (h : Host) : list Path :=
  [ home h ++ ["Android"; "Sdk"; "ndk"; "25.2.9519653"];
    home h ++ ["Library"; "Android"; "sdk"; "ndk"; "25.2.9519653"];
    ["/"; "usr"; "local"; "android-ndk-r25c"];
    ["/"; "opt"; "android-ndk-r25c"] ].

(** A conventional location is accepted when it exists and contains
    [toolchains/llvm/prebuilt], line 98. *)
Definition accepted (f : FileSys) (path : Path) : bool :=
  (exists_ f path && exists_ f (path ++ ["toolchains"; "llvm"; "prebuilt"]))%bool.

(** [p] is the first accepted path of [l]. *)
Definition first_accepted (f : FileSys) (l : list Path) (p : Path) : Prop :=
  exists l1 l2, l = l1 ++ p :: l2 /\ accepted f p = true /\
                Forall (fun q => accepted f q = false) l1.

(** Runs of the build tool proper ([cargo build ...]); [rustup] and [lipo]
    are not builds. *)
Definition is_build (e : Event) : bool :=
  match e with
  | EvRun ("cargo" :: "build" :: _) _ _ => true
  | _ => false
  end.

Definition builds (d : list Event) : list Event := List.filter is_build d.

(** The archive files produced, in order. *)
Definition archives (d : list Event) : list Path :=
  omap (fun e => match e with EvArchive _ a _ => Some a | _ => None end) d.

(** [shutil.which("cargo")] is truthy, line 135. *)
Definition cargo_found (h : Host) : bool :=
  match which h "cargo" with Some c => str_truthy c | None => false end.

Definition unknown_name (names : list string) : Prop :=
  exists n, n ∈ names /\ dict_get TARGETS n = None.

(** Nothing exists strictly below [p]. *)
Definition empty_dir (f : FileSys) (p : Path) : Prop :=
  f !! p = Some Dir /\ forall q, p `prefix_of` q -> q <> p -> f !! q = None.

(** A file system is a tree when every path that exists has all its
    ancestors; external processes are expected to keep it one. *)
Definition tree (f : FileSys) : Prop :=
  forall p q, p <> [] -> p `prefix_of` q -> is_Some (f !! q) -> is_Some (f !! p).

Definition keeps_tree (h : Host) : Prop :=
  forall cmd cwd env f, tree f -> tree (run_process h cmd cwd env f).2.

(** Events of [rustup target add]. *)
Definition is_rustup (e : Event) : Prop :=
  exists rt env code, e = EvRun ["rustup"; "target"; "add"; rt] env code.

Definition is_archive (e : Event) : bool :=
  match e with EvArchive _ _ _ => true | _ => false end.

(** Neither a build nor an archive. *)
Definition quiet_ev (e : Event) : Prop := (is_build e || is_archive e)%bool = false.

(** The archives of the three packaging policies. *)
Definition desktop_archive (b : rVPNSEBuilder) (t : Target) : Path :=
  output_dir b </> ("rvpnse-" +:+ name t +:+
                    (if decide (platform t = WINDOWS) then ".zip" else ".tar.gz")).
Definition android_archive (b : rVPNSEBuilder) : Path :=
  output_dir b </> "rvpnse-android.tar.gz".
Definition ios_archive (b : rVPNSEBuilder) : Path :=
  output_dir b </> "rvpnse-ios.tar.gz".

Definition not_android_archive (b : rVPNSEBuilder) (e : Event) : Prop :=
  match e with EvArchive _ a _ => a <> android_archive b | _ => True end.

(** Every run of [m] appends events that all satisfy [phi]. *)
Definition emits {A} (phi : Event -> Prop) (m : M A) : Prop :=
  forall w r w', m w = (r, w') ->
    exists d, trace w' = trace w ++ d /\ Forall phi d.

Definition is_ok {A} (r : Res A) : Prop := exists a, r = Ok a.

(** Every run of [m] builds nothing and produces the archives [l], in
    order, all of them unless it raises. *)
Definition archiving {A} (m : M A) (l : list Path) : Prop :=
  forall w r w', m w = (r, w') ->
    exists d, trace w' = trace w ++ d /\ builds d = [] /\
              archives d `prefix_of` l /\ (is_ok r -> archives d = l).

(** The archive [_package_target] writes, lines 261-266. *)
Definition package_archive (b : rVPNSEBuilder) (t : Target) : Path :=
  if decide (platform t = WINDOWS)
  then archive_file
         (with_suffix_empty (output_dir b </> ("rvpnse-" +:+ name t +:+ ".zip"))) zip
  else archive_file
         (with_suffix_empty
            (with_suffix_empty (output_dir b </> ("rvpnse-" +:+ name t +:+ ".tar.gz"))))
         gztar.

Definition is_android (t : Target) : bool := bool_decide (platform t = ANDROID).
Definition is_ios (t : Target) : bool := bool_decide (platform t = IOS).
Definition is_desktop (t : Target) : bool := negb (is_android t || is_ios t).

(** After the loop: no build, and never the Android archive. *)
Definition post_ev (b : rVPNSEBuilder) (e : Event) : Prop :=
  is_build e = false /\ not_android_archive b e.

(** A successful Android entry of the result mapping has its target in the
    accumulated list. *)
Definition accumulated (st : LoopState) : Prop :=
  forall n t, results st !! n = Some true -> dict_get TARGETS n = Some t ->
              platform t = ANDROID -> android_targets st <> [].

(** The steps of [build], named: lines 546-549, 577-579 and 581-583. *)
Definition clean_step (b : rVPNSEBuilder) : M unit :=
  let* e := path_exists (output_dir b) in
  (if e then rmtree (output_dir b) else ret ()) >>
  mkdir (output_dir b) true false.

Definition android_step (b : rVPNSEBuilder) (st : LoopState) : M unit :=
  if nonempty (android_targets st)
  then let* _ := _package_android_bundle b (android_targets st) in ret ()
  else ret ().

Definition ios_step (h : Host) (b : rVPNSEBuilder) (st : LoopState) : M unit :=
  if nonempty (ios_targets st)
  then let* _ := _package_ios_bundle h b (ios_targets st) in ret ()
  else ret ().

(** *** The pieces of [_package_ios_bundle], named *)

Abbreviation Group := (list (Target * Path)).

Definition ios_bundle_dir (b : rVPNSEBuilder) : Path := output_dir b </> "rvpnse-ios".

(** The library an iOS target is packaged from, line 366. *)
Definition ios_lib (b : rVPNSEBuilder) (t : Target) : Path :=
  build_dir b </> rust_target t </> mode_value (mode b) </> "librvpnse.dylib".

(** The grouping loop, lines 365-374. *)
Definition ios_group (b : rVPNSEBuilder) (ios_targets : list Target)
    (acc : Group * Group) : M (Group * Group) :=
  let mode_dir := mode_value (mode b) in
  for_fold ios_targets acc (fun target '(device_targets, simulator_targets) =>
    let lib_path :=
      build_dir b </> rust_target target </> mode_dir </> "librvpnse.dylib" in
    let* e := path_exists lib_path in
    if e then
      if decide (rust_target target = "aarch64-apple-ios")
      then ret (device_targets ++ [(target, lib_path)], simulator_targets)
      else ret (device_targets, simulator_targets ++ [(target, lib_path)])
    else ret (device_targets, simulator_targets)).

(** Metadata, documentation, installer, archive and clean-up, lines
    410-536. *)
Definition ios_finish (b : rVPNSEBuilder) : M (option Path) :=
  let bundle_dir := output_dir b </> "rvpnse-ios" in
  for_each ["rVPNSE-Device.framework"; "rVPNSE-Simulator.framework"]
    (fun framework_name =>
      let framework_path := bundle_dir </> framework_name in
      let* e := path_exists framework_path in
      if e then
        write_text (framework_path </> "Info.plist") >>
        let headers_dir := framework_path </> "Headers" in
        mkdir headers_dir false true >>
        let header_file := project_root b </> "include" </> "rvpnse.h" in
        let* eh := path_exists header_file in
        if eh then
          copy2 header_file headers_dir >>
          write_text (headers_dir </> "module.modulemap")
        else ret ()
      else ret ()) >>
  let readme_file := project_root b </> "README.md" in
  let* er := path_exists readme_file in
  (if er then copy2 readme_file bundle_dir else ret ()) >>
  let install_script := bundle_dir </> "install.sh" in
  write_text install_script >>
  chmod install_script >>
  let archive_path := output_dir b </> "rvpnse-ios.tar.gz" in
  make_archive (with_suffix_empty (with_suffix_empty archive_path)) gztar bundle_dir >>
  rmtree bundle_dir >>
  ret (Some archive_path).

(** One framework (lines 381-393 for the device group, 396-408 for the
    simulator group), then the rest of the function. *)
Definition ios_framework (h : Host) (b : rVPNSEBuilder) (fw : string) (group : Group)
    (next : M (option Path)) : M (option Path) :=
  if nonempty group then
    let framework_dir := output_dir b </> "rvpnse-ios" </> fw in
    mkdir framework_dir true true >>
    match group with
    | [(_, path)] => copy2 path (framework_dir </> "rVPNSE") >> next
    | _ =>
        let* ok :=
          _run_command h b (lipo_cmd (framework_dir </> "rVPNSE") group) None in
        if negb ok then ret None else next
    end
  else next.

(** *** Groups and merge steps *)

Definition device_triple : string := "aarch64-apple-ios".

(** The listed targets whose library is present, by kind. *)
Definition device_group (f : FileSys) (b : rVPNSEBuilder) (ts : list Target)
    : list Target :=
  filter (fun t => exists_ f (ios_lib b t) = true /\ rust_target t = device_triple) ts.
Definition simulator_group (f : FileSys) (b : rVPNSEBuilder) (ts : list Target)
    : list Target :=
  filter (fun t => exists_ f (ios_lib b t) = true /\ rust_target t <> device_triple) ts.

Definition with_lib (b : rVPNSEBuilder) (g : list Target) : Group :=
  (fun t => (t, ios_lib b t)) <$> g.

Definition framework_binary (b : rVPNSEBuilder) (fw : string) : Path :=
  output_dir b </> "rvpnse-ios" </> fw </> "rVPNSE".

(** How the binary of framework [fw] is made from group [g]: nothing for
    an empty group, a plain copy for one library, otherwise one run of
    [lipo -create -output <binary> <library> ...] over the libraries of the
    group, in order, in the process environment; [ok] tells whether
    bundling goes on. *)
Definition merge_step (h : Host) (b : rVPNSEBuilder) (fw : string) (g : list Target)
    (evs : list Event) (ok : bool) : Prop :=
  match g with
  | [] => evs = [] /\ ok = true
  | [t] => evs = [EvCopy (ios_lib b t) (framework_binary b fw)] /\ ok = true
  | _ => exists code,
           evs = [EvRun (["lipo"; "-create"; "-output";
                          str_of_path (framework_binary b fw)]
                         ++ (str_of_path <$> (ios_lib b <$> g)))
                    (environ h) code] /\
           ok = bool_decide (code = Some 0)
  end.

(** Events that write a framework binary: a process run (here only
    [lipo]) or a copy onto a file called [rVPNSE]. *)
Definition is_binary_write (e : Event) : bool :=
  match e with
  | EvRun _ _ _ => true
  | EvCopy _ dst => bool_decide (basename dst = "rVPNSE")
  | _ => false
  end.

Definition binary_writes (d : list Event) : list Event :=
  List.filter is_binary_write d.

(** Events of no interest to packaging claims. *)
Definition plain_ev (e : Event) : Prop :=
  (is_build e || is_archive e || is_binary_write e)%bool = false.

(** The directory layout [__init__] sets up, lines 72-73. *)
Definition layout (b : rVPNSEBuilder) : Prop :=
  build_dir b = project_root b </> "target" /\
  output_dir b = project_root b </> "dist".

(** The values [m] returns all satisfy [P]. *)
Definition returns {A} (m : M A) (P : A -> Prop) : Prop :=
  forall w a w', m w = (Ok a, w') -> P a.

(** Whenever [m] returns an archive path, nothing is left at or below
    [p]. *)
Definition leaves_no (p : Path) (m : M (option Path)) : Prop :=
  forall w a w', m w = (Ok (Some a), w') ->
    forall q, p `prefix_of` q -> fs w' !! q = None.


(** The Android bundles written in a stretch of the trace. *)
Definition android_bundles (b : rVPNSEBuilder) (d : list Event) : list Path :=
  filter (fun a => a = android_archive b) (archives d).

(** *** Vocabulary of the further properties *)

(** The command lines run, in order. *)
Definition commands (d : list Event) : list (list string) :=
  omap (fun e => match e with EvRun cmd _ _ => Some cmd | _ => None end) d.

Definition rustup_cmd (rust_target : string) : list string :=
  ["rustup"; "target"; "add"; rust_target].

(** The project root [main] derives from [__file__], line 645. *)
Definition main_root (h : Host) : Path := parent (parent (script_file h)).

(** The host toolchain directory, lines 153-157. *)
Definition toolchain_dir (h : Host) (ndk : Path) : Path :=
  if decide (lower (system h) = "darwin")
  then ndk </> "toolchains" </> "llvm" </> "prebuilt" </> "darwin-x86_64"
  else ndk </> "toolchains" </> "llvm" </> "prebuilt" </> "linux-x86_64".

(** The table of lines 163-168. *)
Definition clang_targets (t : Target) : list (string * string) :=
  let api := fmt_opt_int (min_api t) in
  [ ("aarch64-linux-android", "aarch64-linux-android" +:+ api);
    ("armv7-linux-androideabi", "armv7a-linux-androideabi" +:+ api);
    ("x86_64-linux-android", "x86_64-linux-android" +:+ api);
    ("i686-linux-android", "i686-linux-android" +:+ api) ].

(** The variables [_setup_android_environment] sets for a target. *)
Definition android_keys (t : Target) : list string :=
  [ "ANDROID_NDK_ROOT"; "ANDROID_NDK_HOME";
    "CC_" +:+ mangle (rust_target t); "CXX_" +:+ mangle (rust_target t);
    "AR_" +:+ mangle (rust_target t);
    "CARGO_TARGET_" +:+ mangle (rust_target t) +:+ "_LINKER" ].

(** No selection flag and no [--targets]. *)
Definition no_selection (args : Args) : Prop :=
  arg_all args = false /\ arg_all_desktop args = false /\
  arg_all_android args = false /\ arg_all_ios args = false /\
  (arg_targets args = None \/ arg_targets args = Some []).

Definition group_flag (args : Args) : bool :=
  (arg_all args || arg_all_desktop args || arg_all_android args
   || arg_all_ios args)%bool.

(** The environment [subprocess.run] gets, line 112. *)
Definition tool_env (h : Host) (env : Env) : Env :=
  if bool_decide (env = ∅) then environ h else env.

(** Lines 203-222: the build tool is run on [w0] with [env], and the
    library is looked for in what it leaves. *)
Definition run_build (h : Host) (b : rVPNSEBuilder) (t : Target) (env : Env)
    (w0 : World) : Res bool * World :=
  let out := run_process h (cargo_cmd b t) (project_root b) (tool_env h env) (fs w0) in
  (Ok (bool_decide (out.1 = Some 0) && exists_ out.2 (lib_path b t))%bool,
   emit (EvRun (cargo_cmd b t) (tool_env h env) out.1) out.2 w0).

(** The build tool is run for [t]: every target but an Android one when no
    NDK was found. *)
Definition attempted (b : rVPNSEBuilder) (t : Target) : Prop :=
  ~ (platform t = ANDROID /\ android_ndk_root b = None).

Global Instance attempted_dec b t : Decision (attempted b t).
Proof. unfold attempted. apply _. Defined.

Definition valid_names (names : list string) : Prop :=
  forall n, n ∈ names -> is_Some (dict_get TARGETS n).

(** [q] is at or below [o], or one of its ancestors. *)
Definition near (o q : Path) : Prop := o `prefix_of` q \/ q `prefix_of` o.

(** [m] changes the file system only at paths in [S]. *)
Definition confined {A} (S : Path -> Prop) (m : M A) : Prop :=
  forall w r w', m w = (r, w') -> forall q, ~ S q -> fs w' !! q = fs w !! q.

(** The copies made, source and destination as given to [shutil.copy2]. *)
Definition copies (d : list Event) : list (Path * Path) :=
  omap (fun e => match e with EvCopy s t => Some (s, t) | _ => None end) d.

(** Lines 279, 280, 288 and 290-292: the bundle directory, where the
    Android bundle takes a library from and where it puts it. *)
Definition android_bundle_dir (b : rVPNSEBuilder) : Path :=
  output_dir b </> "rvpnse-android".
Definition jni_libs_dir (b : rVPNSEBuilder) : Path :=
  android_bundle_dir b </> "jniLibs".
Definition android_lib (b : rVPNSEBuilder) (t : Target) : Path :=
  build_dir b </> rust_target t </> mode_value (mode b) </> "librvpnse.so".
Definition jni_lib (b : rVPNSEBuilder) (t : Target) : Path :=
  jni_libs_dir b </> default "" (android_arch t) </> "librvpnse.so".

(** Lines 298-304: the header and the README, each copied into [dir] if it
    exists. *)
Definition doc_copies (b : rVPNSEBuilder) (f : FileSys) (dir : Path)
    : list (Path * Path) :=
  (if exists_ f (project_root b </> "include" </> "rvpnse.h")
   then [(project_root b </> "include" </> "rvpnse.h", dir)] else [])
  ++ (if exists_ f (project_root b </> "README.md")
      then [(project_root b </> "README.md", dir)] else []).

(** [p] is not a regular file: [shutil.rmtree(p)] under the guard
    [p.exists()] then has a directory to remove. *)
Definition not_file (f : FileSys) (p : Path) : Prop := f !! p <> Some File.

(** [p] is not a directory: if it exists it can be copied as a file, and
    it can be written as one. *)
Definition not_dir (f : FileSys) (p : Path) : Prop := f !! p <> Some Dir.

(** The header and the README are files if they exist. *)
Definition docs_regular (b : rVPNSEBuilder) (f : FileSys) : Prop :=
  not_dir f (project_root b </> "include" </> "rvpnse.h") /\
  not_dir f (project_root b </> "README.md").

(** A tree in which neither the output directory nor the output directory
    of the triple of [t] is a regular file, and the header and the README
    are files if they exist. *)
Definition sane (b : rVPNSEBuilder) (t : Target) (f : FileSys) : Prop :=
  tree f /\ not_file f (output_dir b) /\ not_file f (build_dir b </> rust_target t)
  /\ docs_regular b f.

(** The output directory can be removed and created anew: it is not a
    regular file and its parent is a directory; and external processes
    leave it so. *)
Definition output_ready (b : rVPNSEBuilder) (f : FileSys) : Prop :=
  not_file f (output_dir b) /\ f !! parent (output_dir b) = Some Dir.

Definition keeps_output_ready (h : Host) (b : rVPNSEBuilder) : Prop :=
  forall cmd cwd env f,
    output_ready b f -> output_ready b (run_process h cmd cwd env f).2.

(** *** The loop of [build], turn by turn *)

(** One turn of the loop: the requested name, its target, and whether it
    built. *)
Record Turn := mkTurn { turn_name : string; turn_target : Target; turn_ok : bool }.

(** The loop from [w] to [w'], as a sequence of turns: the target of the
    turn is built; a desktop target that built is packaged on its own at
    once, before the next turn starts; nothing else happens. *)
Fixpoint loop_run (h : Host) (b : rVPNSEBuilder) (turns : list Turn) (w w' : World)
    : Prop :=
  match turns with
  | [] => w' = w
  | tn :: rest =>
      exists wb wp,
        _build_target h b (turn_target tn) w = (Ok (turn_ok tn), wb) /\
        (if (turn_ok tn && is_desktop (turn_target tn))%bool
         then exists a, _package_target b (turn_target tn) wb = (Ok a, wp)
         else wp = wb) /\
        loop_run h b rest wp w'
  end.

(** The targets of kind [P] that built, in turn order, once per turn. *)
Definition built (P : Target -> bool) (turns : list Turn) : list Target :=
  turn_target
  <$> filter (fun tn => (turn_ok tn && P (turn_target tn))%bool = true) turns.

(** The result mapping after the turns, started from [m]: a later turn of
    the same name overrides an earlier one. *)
Definition turn_results (m : gmap string bool) (turns : list Turn) : gmap string bool :=
  foldl (fun m tn => <[turn_name tn := turn_ok tn]> m) m turns.

(** ** Concrete hosts, for running the model *)

Module Stub.

Definition triple_lib (triple : string) : string :=
  match list_find (fun t => rust_target t = triple) TARGETS_values with
  | Some (_, t) => _get_library_name t
  | None => "librvpnse.so"
  end.

Definition cargo_output (cwd : Path) (triple : string) (rest : list string) : Path :=
  cwd </> "target" </> triple
      </> (if bool_decide ("--release" ∈ rest) then "release" else "debug")
      </> triple_lib triple.

(** A build tool that always succeeds and writes the expected file; [lipo]
    exits with [lipo_code] and, when that is zero, writes its output. *)
Definition run_ok (lipo_code : Z) (cmd : list string) (cwd : Path) (env : Env)
    (f : FileSys) : option Z * FileSys :=
  match cmd with
  | "cargo" :: "build" :: "--target" :: triple :: rest =>
      (Some 0, <[cargo_output cwd triple rest := File]> f)
  | "lipo" :: "-create" :: "-output" :: out :: _ =>
      (Some lipo_code,
       if decide (lipo_code = 0) then <[Path_of_str out := File]> f else f)
  | _ => (Some 0, f)
  end.

(** A build tool that exits 0 and writes nothing. *)
Definition run_silent (cmd : list string) (cwd : Path) (env : Env) (f : FileSys)
    : option Z * FileSys := (Some 0, f).

Definition host (run : list string -> Path -> Env -> FileSys -> option Z * FileSys)
    : Host :=
  mkHost ∅ ["/"; "home"; "dev"] "Linux" "x86_64"
    (fun tool => if decide (tool = "cargo") then Some "/usr/bin/cargo" else None)
    run ["/"; "proj"; "tools"; "build.py"].

Definition proj : Path := ["/"; "proj"].

(** A checked-out project with an archive left by an earlier run. *)
Definition disk : FileSys :=
  <[proj </> "dist" </> "rvpnse-old.tar.gz" := File]>
  (<[proj </> "dist" := Dir]>
  (<[proj </> "Cargo.toml" := File]>
  (<[proj := Dir]> (<[["/"] := Dir]> ∅)))).

Definition world : World := mkWorld disk [].

Definition builder (m : BuildMode) : rVPNSEBuilder :=
  mkBuilder proj m (proj </> "target") (proj </> "dist") None.

Definition args (targets : list string) : Args :=
  mkArgs RELEASE (Some targets) false false false false false false false.

(** A host whose environment names the NDK, and a disk that has it both
    there and at the first conventional location. *)
Definition host_ndk (ndk_root : option string) : Host :=
  let env : Env := match ndk_root with
                   | Some s => {[ "ANDROID_NDK_ROOT" := s ]}
                   | None => ∅
                   end in
  mkHost env ["/"; "home"; "dev"] "Linux" "x86_64"
    (fun tool => if decide (tool = "cargo") then Some "/usr/bin/cargo" else None)
    (run_ok 0) ["/"; "proj"; "tools"; "build.py"].

Definition sdk_ndk : Path :=
  ["/"; "home"; "dev"; "Android"; "Sdk"; "ndk"; "25.2.9519653"].

Definition disk_ndk : FileSys :=
  <[sdk_ndk </> "toolchains" </> "llvm" </> "prebuilt" := Dir]>
  (<[sdk_ndk := Dir]>
  (<[["/"; "opt"; "android-ndk-r25c"] := Dir]>
  (<[["/"; "opt"; "ndk"] := Dir]> disk))).

(** A host without [cargo]. *)
Definition host_no_cargo : Host :=
  mkHost ∅ ["/"; "home"; "dev"] "Linux" "x86_64" (fun _ => None)
    (run_ok 0) ["/"; "proj"; "tools"; "build.py"].

(** A disk with the NDK toolchain for this host, and a builder that found
    it. *)
Definition disk_toolchain : FileSys :=
  <[sdk_ndk </> "toolchains" </> "llvm" </> "prebuilt" </> "linux-x86_64" := Dir]>
    disk_ndk.

Definition builder_ndk : rVPNSEBuilder :=
  mkBuilder proj RELEASE (proj </> "target") (proj </> "dist") (Some sdk_ndk).

(** Three iOS libraries, built. *)
Definition ios_arm64 : Target := Target4 "ios-arm64" "aarch64-apple-ios" IOS "arm64".
Definition ios_x64_sim : Target := Target4 "ios-x64-sim" "x86_64-apple-ios" IOS "x64".
Definition ios_arm64_sim : Target :=
  Target4 "ios-arm64-sim" "aarch64-apple-ios-sim" IOS "arm64".

Definition disk_ios : FileSys :=
  <[proj </> "target" </> "aarch64-apple-ios" </> "release" </> "librvpnse.dylib"
    := File]>
  (<[proj </> "target" </> "x86_64-apple-ios" </> "release" </> "librvpnse.dylib"
     := File]>
  (<[proj </> "target" </> "aarch64-apple-ios-sim" </> "release" </> "librvpnse.dylib"
     := File]> disk)).

Definition android_x64 : Target :=
  Target6 "android-x64" "x86_64-linux-android" ANDROID "x64" "x86_64" 21.

(** A host this script knows no default target for. *)
Definition host_bsd : Host :=
  mkHost ∅ ["/"; "home"; "dev"] "FreeBSD" "amd64"
    (fun tool => if decide (tool = "cargo") then Some "/usr/bin/cargo" else None)
    (run_ok 0) ["/"; "proj"; "tools"; "build.py"].

Definition no_args : Args :=
  mkArgs RELEASE None false false false false false false false.

Definition linux_x64 : Target :=
  Target4 "linux-x64" "x86_64-unknown-linux-gnu" LINUX "x64".
Definition windows_x64 : Target :=
  Target4 "windows-x64" "x86_64-pc-windows-msvc" WINDOWS "x64".

(** A disk that still holds the Linux library of an earlier build. *)
Definition disk_stale : FileSys :=
  <[proj </> "target" </> "x86_64-unknown-linux-gnu" </> "release" </> "librvpnse.so"
    := File]>
  (mkdirs_fs (proj </> "target" </> "x86_64-unknown-linux-gnu" </> "release") disk).

Definition android_arm64 : Target :=
  Target6 "android-arm64" "aarch64-linux-android" ANDROID "arm64" "arm64-v8a" 21.

(** A disk with the x86-64 Android library built and the header checked
    in; the arm64 library is missing. *)
Definition disk_android : FileSys :=
  <[proj </> "target" </> "x86_64-linux-android" </> "release" </> "librvpnse.so"
    := File]>
  (<[proj </> "include" </> "rvpnse.h" := File]> disk).

(** A build tool that, run in the project root, writes the expected file
    into its directory, creating the directories on the way; every other
    command exits 0 and writes nothing. *)
Definition run_cargo (cmd : list string) (cwd : Path) (env : Env) (f : FileSys)
    : option Z * FileSys :=
  if bool_decide (take 3 cmd = ["cargo"; "build"; "--target"] /\ cwd = proj) then
    let out := cargo_output cwd (default "" (cmd !! 3%nat)) (drop 4 cmd) in
    (Some 0, <[out := File]> (mkdirs_fs (parent out) f))
  else (Some 0, f).

(** A partial install at the first conventional location (the directory
    without its toolchain) and a complete one at the third. *)
Definition disk_partial : FileSys :=
  <[["/"; "usr"; "local"; "android-ndk-r25c"; "toolchains"; "llvm"; "prebuilt"] := Dir]>
  (<[["/"; "usr"; "local"; "android-ndk-r25c"] := Dir]>
  (<[sdk_ndk := Dir]> disk)).

End Stub.

(** * Properties *)

(** ** Name mangling *)

Lemma mangle_str_map s : mangle s = str_map mangle_ascii s.
Proof.
  unfold mangle, replace1, upper.
  induction s as [|c s IH]; simpl; [reflexivity|].
  f_equal. exact IH.
Qed.

Lemma mangle_ascii_idem c : mangle_ascii (mangle_ascii c) = mangle_ascii c.
Proof. destruct c as [[] [] [] [] [] [] [] []]; reflexivity. Qed.

Lemma mangle_idempotent s : mangle (mangle s) = mangle s.
Proof.
  rewrite !mangle_str_map.
  induction s as [|c s IH]; simpl; [reflexivity|].
  rewrite mangle_ascii_idem. f_equal. exact IH.
Qed.

Lemma registry_mangle_injective :
  Forall (fun t1 => Forall (fun t2 =>
      mangle (rust_target t1) = mangle (rust_target t2) ->
      rust_target t1 = rust_target t2) TARGETS_values) TARGETS_values.
Proof. apply (bool_decide_unpack _). vm_compute. exact I. Qed.

Lemma registry_mangle_spec :
  Forall (fun t => mangle (rust_target t) = mangle_spec (rust_target t)) TARGETS_values.
Proof. apply (bool_decide_unpack _). vm_compute. exact I. Qed.

(** C3: the mangling of line 171 is idempotent on every string, and no two
    distinct triples of the registry have the same mangled name; on the
    registry it is the mangling the specification words (upper-case, runs of
    non-alphanumeric characters replaced by one separator). *)
Theorem mangle_idempotent_injective_on_registry :
  (forall s, mangle (mangle s) = mangle s) /\
  (forall t1 t2, t1 ∈ TARGETS_values -> t2 ∈ TARGETS_values ->
     mangle (rust_target t1) = mangle (rust_target t2) ->
     rust_target t1 = rust_target t2) /\
  (forall t, t ∈ TARGETS_values ->
     mangle (rust_target t) = mangle_spec (rust_target t)).
Proof.
  split; [exact mangle_idempotent|]. split.
  - intros t1 t2 H1 H2.
    pose proof registry_mangle_injective as H.
    rewrite Forall_forall in H. specialize (H t1 H1).
    rewrite Forall_forall in H. exact (H t2 H2).
  - intros t Ht. pose proof registry_mangle_spec as H.
    rewrite Forall_forall in H. exact (H t Ht).
Qed.

Lemma mangle_idempotent_injective_on_registry_witness :
  let t1 := Target6 "android-x64" "x86_64-linux-android" ANDROID "x64" "x86_64" 21 in
  mangle (mangle "x86_64-linux-android") = "X86_64_LINUX_ANDROID" /\
  rust_target t1 = rust_target t1 /\
  mangle_spec (rust_target t1) = "X86_64_LINUX_ANDROID".
Proof.
  intros t1.
  destruct mangle_idempotent_injective_on_registry as (Hi & Hinj & Hspec).
  assert (Hin : t1 ∈ TARGETS_values).
  { apply (bool_decide_unpack _). vm_compute. exact I. }
  split; [rewrite Hi; reflexivity|].
  split; [apply (Hinj t1 t1 Hin Hin); reflexivity|].
  rewrite <- (Hspec t1 Hin). reflexivity.
Defined.

(** Off the registry the source and the wording differ: the source maps
    each hyphen to its own separator. *)
Example mangle_not_run_squeezing :
  mangle "a--b" = "A__B" /\ mangle_spec "a--b" = "A_B".
Proof. split; reflexivity. Qed.

(** ** Library names *)

(** C8: the expected artifact file name is a function of the OS family alone,
    with one shape for Windows, one for Linux and Android, one for macOS and
    iOS; the registry uses exactly those three names. *)
Theorem library_name_by_os_family :
  (forall t : Target,
     _get_library_name t =
     match platform t with
     | WINDOWS => "rvpnse.dll"
     | LINUX | ANDROID => "librvpnse.so"
     | MACOS | IOS => "librvpnse.dylib"
     end) /\
  remove_dups (_get_library_name <$> TARGETS_values)
  = ["rvpnse.dll"; "librvpnse.so"; "librvpnse.dylib"].
Proof.
  split; [|vm_compute; reflexivity].
  intros [n r [] a aa api]; reflexivity.
Qed.

(** ** Reasoning about actions *)

Lemma bind_inv {A B} (m : M A) (k : A -> M B) w r w' :
  bind m k w = (r, w') ->
  (exists a w1, m w = (Ok a, w1) /\ k a w1 = (r, w')) \/
  (exists e, m w = (Raise e, w') /\ r = Raise e).
Proof.
  unfold bind. destruct (m w) as [[a|e] w1]; intros H.
  - left. eauto.
  - right. inversion H; subst. eauto.
Qed.

Lemma bind_ok {A B} (m : M A) (k : A -> M B) w a w1 :
  m w = (Ok a, w1) -> bind m k w = k a w1.
Proof. unfold bind. intros ->. reflexivity. Qed.

Lemma bind_raise {A B} (m : M A) (k : A -> M B) w e w1 :
  m w = (Raise e, w1) -> bind m k w = (Raise e, w1).
Proof. unfold bind. intros ->. reflexivity. Qed.

Lemma trace_emit e f w : trace (emit e f w) = trace w ++ [e].
Proof. reflexivity. Qed.

Lemma fs_emit e f w : fs (emit e f w) = f.
Proof. reflexivity. Qed.

Lemma app_snoc_inv {A} (l1 l2 : list A) x y :
  l1 ++ [x] = l2 ++ [y] -> l1 = l2 /\ x = y.
Proof. intros H. apply app_inj_tail in H. exact H. Qed.

(** ** The build executor *)

Section BuildTarget.

Variable h : Host.
Variable b : rVPNSEBuilder.
Variable t : Target.

Lemma cleaned_trace w :
  trace (cleaned b t w) = trace w \/
  trace (cleaned b t w) = trace w ++ [EvRmtree (build_dir b </> rust_target t)].
Proof. unfold cleaned. destruct (exists_ _ _); [right|left]; reflexivity. Qed.

Lemma setup_android_environment_world w r w' :
  _setup_android_environment h b t w = (r, w') -> w' = w.
Proof.
  unfold _setup_android_environment, bind, path_exists, raise, ret.
  destruct (android_ndk_root b); [|intros [= _ <-]; reflexivity].
  destruct (negb _); [intros [= _ <-]; reflexivity|].
  destruct (dict_get _ _); intros [= _ <-]; reflexivity.
Qed.

(** The three ways [_build_target] ends. *)
Lemma build_target_cases w r w' :
  _build_target h b t w = (r, w') ->
  (w' = cleaned b t w /\ (r = Ok false \/ exists e, r = Raise e)) \/
  (exists env code f,
     w' = emit (EvRun (cargo_cmd b t) env code) f (cleaned b t w) /\
     r = Ok (bool_decide (code = Some 0) && exists_ f (lib_path b t))%bool).
Proof.
  unfold _build_target.
  assert (Hexec : forall env w0 r0 w0',
    (let* success := _run_command h b (cargo_cmd b t) (Some env) in
     if success then
       let* e := path_exists (lib_path b t) in
       if e then ret true else ret false
     else ret false) w0 = (r0, w0') ->
    exists env' code f,
      w0' = emit (EvRun (cargo_cmd b t) env' code) f w0 /\
      r0 = Ok (bool_decide (code = Some 0) && exists_ f (lib_path b t))%bool).
  { intros env w0 r0 w0'. unfold bind, _run_command, path_exists, ret.
    destruct (run_process _ _ _ _ _) as [code f].
    destruct (bool_decide (code = Some 0)) eqn:Hc; cbn [fs emit].
    - destruct (exists_ f (lib_path b t)) eqn:E; intros [= <- <-];
        eexists _, code, f; rewrite Hc, E; split; reflexivity.
    - intros [= <- <-]. eexists _, code, f. rewrite Hc. split; reflexivity. }
  intros H.
  apply bind_inv in H as [(x & w1 & He & H)|(ex & He & _)];
    [|discriminate He].
  injection He as <- <-.
  apply bind_inv in H as [([] & w1 & Hc & H)|(ex & Hc & _)].
  2: { destruct (exists_ _ _); discriminate Hc. }
  assert (w1 = cleaned b t w) as ->.
  { unfold cleaned. destruct (exists_ _ _); injection Hc as <-; reflexivity. }
  clear Hc.
  destruct (decide (platform t = ANDROID)).
  - destruct (android_ndk_root b) eqn:Hndk.
    + apply bind_inv in H as [(env & w1 & Hs & H)|(ex & Hs & ->)].
      * apply setup_android_environment_world in Hs as ->.
        right. exact (Hexec _ _ _ _ H).
      * apply setup_android_environment_world in Hs as ->.
        left. split; [reflexivity|]. right. eauto.
    + injection H as <- <-. left. split; [reflexivity|]. left. reflexivity.
  - right. exact (Hexec _ _ _ _ H).
Qed.

End BuildTarget.

(** C2: [_build_target] reports success exactly when the build tool was run
    and exited with status zero and the expected artifact exists at the
    per-triple, per-mode path afterwards; a zero exit with the artifact
    missing is reported as failure. *)
Theorem build_target_success_iff h b t w r w' :
  _build_target h b t w = (r, w') ->
  (r = Ok true <->
   tool_exited_zero b t w w' /\ exists_ (fs w') (lib_path b t) = true) /\
  (tool_exited_zero b t w w' -> exists_ (fs w') (lib_path b t) = false ->
   r = Ok false).
Proof.
  intros H. apply build_target_cases in H.
  destruct H as [[-> Hr]|(env & code & f & -> & ->)].
  - assert (Hno : ~ tool_exited_zero b t w (cleaned b t w)).
    { intros (pre & env & Ht).
      destruct (cleaned_trace b t w) as [Hc|Hc]; rewrite Hc in Ht.
      - rewrite <- (app_nil_r (trace w)) in Ht at 1.
        apply app_inv_head in Ht. destruct pre; discriminate Ht.
      - apply app_inv_head in Ht.
        apply (app_snoc_inv []) in Ht as [_ Ht]. discriminate Ht. }
    split; [split|].
    + intros ->. destruct Hr as [Hr|[e Hr]]; discriminate Hr.
    + intros [Ht _]. contradiction.
    + intros Ht. contradiction.
  - rewrite fs_emit.
    assert (Hz : tool_exited_zero b t w
                   (emit (EvRun (cargo_cmd b t) env code) f (cleaned b t w))
                 <-> code = Some 0).
    { unfold tool_exited_zero. rewrite trace_emit. split.
      - intros (pre & env' & Ht).
        rewrite app_assoc in Ht. apply app_snoc_inv in Ht as [_ Ht].
        injection Ht as _ ->. reflexivity.
      - intros ->. destruct (cleaned_trace b t w) as [Hc|Hc]; rewrite Hc.
        + exists [], env. reflexivity.
        + exists [EvRmtree (build_dir b </> rust_target t)], env.
          rewrite <- app_assoc. reflexivity. }
    rewrite Hz. split; [split|].
    + intros [= Hb]. apply andb_true_iff in Hb as [Hc He].
      apply bool_decide_eq_true in Hc. split; assumption.
    + intros [-> ->]. rewrite bool_decide_eq_true_2 by reflexivity. reflexivity.
    + intros -> ->. rewrite andb_false_r. reflexivity.
Qed.

Lemma build_target_success_iff_witness :
  let t := Target4 "linux-x64" "x86_64-unknown-linux-gnu" LINUX "x64" in
  let b := Stub.builder RELEASE in
  (let rw := _build_target (Stub.host (Stub.run_ok 0)) b t Stub.world in
   tool_exited_zero b t Stub.world rw.2 /\
   exists_ (fs rw.2) (lib_path b t) = true) /\
  (_build_target (Stub.host Stub.run_silent) b t Stub.world).1 = Ok false.
Proof.
  intros t b. split.
  - intros rw.
    destruct (build_target_success_iff (Stub.host (Stub.run_ok 0)) b t
                Stub.world rw.1 rw.2) as [[Hto _] _].
    { apply surjective_pairing. }
    apply Hto. vm_compute. reflexivity.
  - destruct (build_target_success_iff (Stub.host Stub.run_silent) b t Stub.world
                (_build_target (Stub.host Stub.run_silent) b t Stub.world).1
                (_build_target (Stub.host Stub.run_silent) b t Stub.world).2)
      as [_ Hfail].
    { apply surjective_pairing. }
    apply Hfail.
    + exists [], ∅. vm_compute. reflexivity.
    + vm_compute. reflexivity.
Defined.

(** ** The toolchain locator *)

Lemma ndk_structure_eq p : ndk_structure p = p ++ ["toolchains"; "llvm"; "prebuilt"].
Proof. unfold ndk_structure, joinpath. rewrite <- !app_assoc. reflexivity. Qed.

Lemma possible_paths_eq h : possible_paths h = conventional_locations h.
Proof.
  unfold possible_paths, conventional_locations, joinpath.
  rewrite <- !app_assoc. reflexivity.
Qed.

Lemma find_android_ndk_scan_find paths w :
  _find_android_ndk_scan paths w = (Ok (List.find (accepted (fs w)) paths), w).
Proof.
  induction paths as [|p paths IH]; [reflexivity|].
  cbn [_find_android_ndk_scan List.find]. unfold bind, path_exists, accepted in *.
  rewrite ndk_structure_eq.
  destruct (exists_ (fs w) p
            && exists_ (fs w) (p ++ ["toolchains"; "llvm"; "prebuilt"]))%bool;
    [reflexivity|exact IH].
Qed.

Lemma find_first {A} (P : A -> bool) l x :
  List.find P l = Some x <->
  exists l1 l2, l = l1 ++ x :: l2 /\ P x = true /\ Forall (fun q => P q = false) l1.
Proof.
  induction l as [|y l IH]; cbn [List.find].
  - split; [discriminate|]. intros ([|? ?] & l2 & H & _); discriminate H.
  - destruct (P y) eqn:Hy.
    + split.
      * intros [= ->]. exists [], l. auto.
      * intros ([|z l1] & l2 & H & Hx & Hl1).
        -- injection H as -> _. reflexivity.
        -- injection H as -> _. inversion Hl1; congruence.
    + rewrite IH. split.
      * intros (l1 & l2 & -> & Hx & Hl1). exists (y :: l1), l2. auto.
      * intros ([|z l1] & l2 & H & Hx & Hl1).
        -- injection H as -> _. congruence.
        -- injection H as -> ->. inversion Hl1. eauto.
Qed.

Lemma find_none_iff {A} (P : A -> bool) l :
  List.find P l = None <-> Forall (fun q => P q = false) l.
Proof.
  induction l as [|y l IH]; cbn [List.find].
  - split; auto.
  - destruct (P y) eqn:Hy.
    + split; [discriminate|]. inversion 1; congruence.
    + rewrite IH. split; [auto|]. inversion 1; assumption.
Qed.

(** C6: [_find_android_ndk] never raises and leaves the world alone.  A
    non-empty [ANDROID_NDK_ROOT] that exists on disk wins, with no look at
    what it contains; otherwise the result is the first of the four
    conventional locations, in their order, that exists and contains
    [toolchains/llvm/prebuilt], and [None] when there is none.  With no NDK
    an Android target of the registry fails without running anything (its
    stale output, not a regular file, is removed first), and every other
    target of the registry builds as it would with any NDK. *)
Theorem find_android_ndk_first_match h w :
  exists r,
    _find_android_ndk h w = (Ok r, w) /\
    (forall s, environ h !! "ANDROID_NDK_ROOT" = Some s -> s <> "" ->
       exists_ (fs w) (Path_of_str s) = true -> r = Some (Path_of_str s)) /\
    ((forall s, environ h !! "ANDROID_NDK_ROOT" = Some s -> s <> "" ->
        exists_ (fs w) (Path_of_str s) = false) ->
     (forall p, r = Some p <-> first_accepted (fs w) (conventional_locations h) p) /\
     (r = None <->
      Forall (fun q => accepted (fs w) q = false) (conventional_locations h))) /\
    (forall b t w1 r1 w1',
       t ∈ TARGETS_values ->
       android_ndk_root b = None -> _build_target h b t w1 = (r1, w1') ->
       (platform t = ANDROID -> not_file (fs w1) (build_dir b </> rust_target t) ->
        r1 = Ok false /\ w1' = cleaned b t w1) /\
       (platform t <> ANDROID ->
        forall ndk, _build_target h (with_ndk b ndk) t w1 = (r1, w1'))).
Proof.
  pose proof (find_android_ndk_scan_find (possible_paths h) w) as Hscan.
  rewrite possible_paths_eq in Hscan.
  assert (Hconv :
    (forall p, List.find (accepted (fs w)) (conventional_locations h) = Some p <->
               first_accepted (fs w) (conventional_locations h) p) /\
    (List.find (accepted (fs w)) (conventional_locations h) = None <->
     Forall (fun q => accepted (fs w) q = false) (conventional_locations h))).
  { split; [intros p; apply find_first|apply find_none_iff]. }
  assert (Habs : forall b t w1 r1 w1',
       t ∈ TARGETS_values ->
       android_ndk_root b = None -> _build_target h b t w1 = (r1, w1') ->
       (platform t = ANDROID -> not_file (fs w1) (build_dir b </> rust_target t) ->
        r1 = Ok false /\ w1' = cleaned b t w1) /\
       (platform t <> ANDROID ->
        forall ndk, _build_target h (with_ndk b ndk) t w1 = (r1, w1'))).
  { intros b t w1 r1 w1' _ Hndk H. split.
    - intros Ha _. revert H. unfold _build_target, bind, path_exists, cleaned.
      destruct (decide (platform t = ANDROID)); [|contradiction].
      rewrite Hndk. cbn [fs].
      destruct (exists_ (fs w1) _); intros [= <- <-]; split; reflexivity.
    - intros Ha ndk. rewrite <- H. unfold _build_target.
      destruct (decide (platform t = ANDROID)); [contradiction|reflexivity]. }
  unfold _find_android_ndk. rewrite possible_paths_eq.
  destruct (environ h !! "ANDROID_NDK_ROOT") as [s|] eqn:Henv.
  - destruct (str_truthy s) eqn:Hs.
    + unfold bind, path_exists. destruct (exists_ (fs w) (Path_of_str s)) eqn:He.
      * exists (Some (Path_of_str s)). split; [reflexivity|].
        split; [intros s' [= <-] _ _; reflexivity|].
        split; [|exact Habs].
        intros Hno. specialize (Hno s eq_refl).
        assert (s <> "") as Hne.
        { intros ->. discriminate Hs. }
        specialize (Hno Hne). congruence.
      * eexists. split; [exact Hscan|]. split.
        { intros s' [= <-] _ He'. congruence. }
        split; [intros _; exact Hconv|exact Habs].
    + eexists. split; [exact Hscan|]. split.
      { intros s' [= <-] Hne. exfalso. apply Hne.
        unfold str_truthy in Hs. apply negb_false_iff in Hs.
        apply String.eqb_eq in Hs. exact Hs. }
      split; [intros _; exact Hconv|exact Habs].
  - eexists. split; [exact Hscan|]. split; [intros s' [=]|].
    split; [intros _; exact Hconv|exact Habs].
Qed.

Lemma find_android_ndk_first_match_witness :
  (_find_android_ndk (Stub.host_ndk (Some "/opt/ndk")) (mkWorld Stub.disk_ndk [])).1
  = Ok (Some ["/"; "opt"; "ndk"]) /\
  (_find_android_ndk (Stub.host_ndk None) (mkWorld Stub.disk_ndk [])).1
  = Ok (Some ["/"; "home"; "dev"; "Android"; "Sdk"; "ndk"; "25.2.9519653"]) /\
  (_find_android_ndk (Stub.host_ndk (Some "/nowhere")) (mkWorld Stub.disk_partial [])).1
  = Ok (Some ["/"; "usr"; "local"; "android-ndk-r25c"]) /\
  (_find_android_ndk (Stub.host_ndk None) Stub.world).1 = Ok None /\
  (_build_target (Stub.host_ndk None) (Stub.builder RELEASE)
     (Target6 "android-x64" "x86_64-linux-android" ANDROID "x64" "x86_64" 21)
     Stub.world).1 = Ok false.
Proof.
  split; [|split; [|split; [|split]]].
  - destruct (find_android_ndk_first_match (Stub.host_ndk (Some "/opt/ndk"))
                (mkWorld Stub.disk_ndk [])) as (r & -> & Hov & _).
    cbn [fst]. f_equal. apply (Hov "/opt/ndk"); [reflexivity|discriminate|].
    vm_compute. reflexivity.
  - destruct (find_android_ndk_first_match (Stub.host_ndk None)
                (mkWorld Stub.disk_ndk [])) as (r & -> & _ & Hconv & _).
    cbn [fst]. f_equal. apply Hconv.
    + intros s Hs. vm_compute in Hs. discriminate Hs.
    + exists [], (List.tl (conventional_locations (Stub.host_ndk None))).
      split; [reflexivity|]. split; [vm_compute; reflexivity|constructor].
  - destruct (find_android_ndk_first_match (Stub.host_ndk (Some "/nowhere"))
                (mkWorld Stub.disk_partial [])) as (r & -> & _ & Hconv & _).
    cbn [fst]. f_equal. apply Hconv.
    + intros s Hs _. vm_compute in Hs. injection Hs as <-. vm_compute. reflexivity.
    + exists (List.firstn 2 (conventional_locations (Stub.host_ndk (Some "/nowhere")))),
             [ ["/"; "opt"; "android-ndk-r25c"] ].
      split; [reflexivity|]. split; [vm_compute; reflexivity|].
      repeat constructor; vm_compute; reflexivity.
  - destruct (find_android_ndk_first_match (Stub.host_ndk None) Stub.world)
      as (r & -> & _ & Hconv & _).
    cbn [fst]. f_equal. apply Hconv.
    + intros s Hs. vm_compute in Hs. discriminate Hs.
    + repeat constructor.
  - destruct (find_android_ndk_first_match (Stub.host_ndk None) Stub.world)
      as (r & _ & _ & _ & Habs).
    assert (Hin : Target6 "android-x64" "x86_64-linux-android" ANDROID "x64" "x86_64" 21
                  ∈ TARGETS_values)
      by (apply (bool_decide_unpack _); vm_compute; exact I).
    destruct (_build_target _ _ _ _) as [r1 w1'] eqn:E.
    destruct (Habs (Stub.builder RELEASE) _ _ _ _ Hin eq_refl E) as [Ha _].
    cbn [fst]. apply Ha; [reflexivity|]. vm_compute. discriminate.
Defined.

(** ** Traces *)

Lemma builds_app d1 d2 : builds (d1 ++ d2) = builds d1 ++ builds d2.
Proof. apply List.filter_app. Qed.

Lemma archives_app d1 d2 : archives (d1 ++ d2) = archives d1 ++ archives d2.
Proof. apply omap_app. Qed.

(** ** File-system primitives *)

Lemma rmtree_fs_lookup p f q :
  rmtree_fs p f !! q = if decide (p `prefix_of` q) then None else f !! q.
Proof.
  unfold rmtree_fs. destruct (decide (p `prefix_of` q)) as [Hp|Hp].
  - apply map_lookup_filter_None. right. intros x _ Hn. apply Hn. exact Hp.
  - destruct (f !! q) as [x|] eqn:Hq.
    + apply map_lookup_filter_Some. split; [exact Hq|exact Hp].
    + apply map_lookup_filter_None. left. exact Hq.
Qed.

Lemma ancestors_and_self_prefix p q :
  q ∈ ancestors_and_self p -> q `prefix_of` p /\ q <> [].
Proof.
  unfold ancestors_and_self. intros Hq.
  apply list_elem_of_fmap in Hq as (n & -> & Hn).
  apply elem_of_seq in Hn. split.
  - apply prefix_take.
  - destruct p; [cbn in Hn; lia|discriminate].
Qed.

Lemma ancestors_and_self_last p : p <> [] -> p ∈ ancestors_and_self p.
Proof.
  intros Hp. unfold ancestors_and_self.
  apply list_elem_of_fmap. exists (List.length p - 1)%nat.
  assert (List.length p <> 0%nat) by (destruct p; [congruence|discriminate]).
  split.
  - replace (S (List.length p - 1)) with (List.length p) by lia.
    symmetry. apply firstn_all.
  - apply elem_of_seq. lia.
Qed.

Lemma list_to_map_dirs (l : list Path) q :
  (list_to_map ((fun q => (q, Dir)) <$> l) : FileSys) !! q
  = if decide (q ∈ l) then Some Dir else None.
Proof.
  induction l as [|x l IH]; cbn [fmap list_fmap list_to_map foldr].
  - rewrite lookup_empty. destruct (decide (q ∈ [])) as [H|H];
      [inversion H|reflexivity].
  - change (foldr _ _ _) with
      (list_to_map ((fun q => (q, Dir)) <$> l) : FileSys).
    destruct (decide (x = q)) as [->|Hne].
    + rewrite lookup_insert_eq.
      destruct (decide (q ∈ q :: l)) as [H|H]; [reflexivity|].
      exfalso. apply H. left.
    + rewrite lookup_insert_ne by exact Hne. rewrite IH.
      destruct (decide (q ∈ l)) as [H|H];
        destruct (decide (q ∈ x :: l)) as [H'|H']; try reflexivity.
      * exfalso. apply H'. right. exact H.
      * exfalso. apply elem_of_cons in H' as [->|H']; [congruence|contradiction].
Qed.

Lemma mkdirs_fs_lookup p f q :
  mkdirs_fs p f !! q =
  match f !! q with
  | Some k => Some k
  | None => if decide (q ∈ ancestors_and_self p) then Some Dir else None
  end.
Proof.
  unfold mkdirs_fs. rewrite lookup_union, list_to_map_dirs.
  destruct (f !! q); destruct (decide _); reflexivity.
Qed.

Lemma prefix_antisym_path (p q : Path) : p `prefix_of` q -> q `prefix_of` p -> p = q.
Proof.
  intros [k ->] [k' H]. rewrite <- app_assoc in H.
  rewrite <- (app_nil_r p) in H at 1. apply app_inv_head in H.
  symmetry in H. apply app_eq_nil in H as [-> _]. rewrite app_nil_r. reflexivity.
Qed.

(** Creating a directory that is not there yet always succeeds with
    [parents=True], and touches nothing strictly below it. *)
Lemma mkdir_parents_fresh p exist_ok w :
  fs w !! p = None ->
  exists f, mkdir p true exist_ok w = (Ok (), emit (EvMkdir p) f w) /\
            f !! p = Some Dir /\
            forall q, p `prefix_of` q -> q <> p -> f !! q = fs w !! q.
Proof.
  intros Hp. unfold mkdir. rewrite Hp.
  destruct (bool_decide (parent p = []) || exists_ (fs w) (parent p))%bool eqn:Hpar.
  - eexists. split; [reflexivity|]. split; [apply lookup_insert_eq|].
    intros q _ Hne. apply lookup_insert_ne. congruence.
  - eexists. split; [reflexivity|].
    assert (p <> []) as Hnil.
    { intros ->. cbn in Hpar. discriminate Hpar. }
    split.
    + rewrite mkdirs_fs_lookup, Hp.
      destruct (decide _) as [|Hn]; [reflexivity|].
      exfalso. apply Hn. apply ancestors_and_self_last. exact Hnil.
    + intros q Hpq Hne. rewrite mkdirs_fs_lookup.
      destruct (fs w !! q); [reflexivity|].
      destruct (decide _) as [Hin|]; [|reflexivity].
      apply ancestors_and_self_prefix in Hin as [Hqp _].
      exfalso. apply Hne. symmetry. apply prefix_antisym_path; assumption.
Qed.

(** ** The orchestrator: configuration errors *)

Section Orchestrator.

Variable h : Host.
Variable b : rVPNSEBuilder.

Lemma run_command_inv cmd env w :
  exists env' code,
    _run_command h b cmd env w
    = (Ok (bool_decide (code = Some 0)),
       emit (EvRun cmd env' code)
         (run_process h cmd (project_root b) env' (fs w)).2 w).
Proof.
  unfold _run_command.
  match goal with |- context [run_process h cmd _ ?e _] => exists e end.
  destruct (run_process _ _ _ _ _) as [code f]. exists code. reflexivity.
Qed.

Lemma rustup_loop (I : FileSys -> Prop) ts w :
  (forall cmd cwd env f, I f -> I (run_process h cmd cwd env f).2) ->
  I (fs w) ->
  exists w1 d,
    for_each ts (fun rust_target =>
      let* _ := _run_command h b ["rustup"; "target"; "add"; rust_target] None in
      ret ()) w = (Ok (), w1) /\
    trace w1 = trace w ++ d /\ Forall is_rustup d /\ I (fs w1).
Proof.
  intros Hkeep. revert w. induction ts as [|rt ts IH]; intros w HI.
  - exists w, []. rewrite app_nil_r. repeat split; [constructor|exact HI].
  - cbn [for_each].
    destruct (run_command_inv ["rustup"; "target"; "add"; rt] None w)
      as (env & code & Hrun).
    match type of Hrun with _ = (_, ?w0) =>
      destruct (IH w0) as (w1 & d & Hloop & Htr & Hd & HI1) end.
    { rewrite fs_emit. apply Hkeep. exact HI. }
    exists w1, (EvRun ["rustup"; "target"; "add"; rt] env code :: d).
    split; [|split; [|split]].
    + unfold bind at 1. unfold bind at 1. rewrite Hrun. cbn [ret]. exact Hloop.
    + rewrite Htr, trace_emit, <- app_assoc. reflexivity.
    + constructor; [|exact Hd]. exists rt, env, code. reflexivity.
    + exact HI1.
Qed.

Lemma rustup_quiet d : Forall is_rustup d -> builds d = [] /\ archives d = [].
Proof.
  induction 1 as [|e d (rt & env & code & ->) _ [IHb IHa]]; [split; reflexivity|].
  split; cbn; assumption.
Qed.

(** [_setup_rust_environment] never raises; it answers whether [cargo] was
    found, and runs nothing but [rustup]. *)
Lemma setup_rust_environment_spec (I : FileSys -> Prop) w :
  (forall cmd cwd env f, I f -> I (run_process h cmd cwd env f).2) ->
  I (fs w) ->
  exists w1 d,
    _setup_rust_environment h b w = (Ok (cargo_found h), w1) /\
    trace w1 = trace w ++ d /\ builds d = [] /\ archives d = [] /\
    I (fs w1) /\ (cargo_found h = false -> w1 = w).
Proof.
  intros Hkeep HI. unfold _setup_rust_environment, cargo_found.
  destruct (which h "cargo") as [c|].
  - destruct (str_truthy c); cbn [negb].
    + destruct (rustup_loop I (rust_target <$> TARGETS_values) w Hkeep HI)
        as (w1 & d & Hloop & Htr & Hd & HI1).
      exists w1, d. apply rustup_quiet in Hd as [Hb Ha].
      split; [|repeat split; try assumption; discriminate].
      rewrite (bind_ok _ _ _ _ _ Hloop). reflexivity.
    + exists w, []. rewrite app_nil_r. repeat split. exact HI.
  - exists w, []. rewrite app_nil_r. repeat split. exact HI.
Qed.

(** Lines 546-549: the output directory is removed if it is there, and
    created anew; this never raises. *)
Lemma clean_output_dir w :
  exists f d,
    (let* e := path_exists (output_dir b) in
     (if e then rmtree (output_dir b) else ret ()) >>
     mkdir (output_dir b) true false) w
    = (Ok (), mkWorld f (trace w ++ d)) /\
    builds d = [] /\ archives d = [] /\
    f !! output_dir b = Some Dir /\
    forall q, output_dir b `prefix_of` q -> q <> output_dir b ->
      f !! q = None \/ (fs w !! output_dir b = None /\ f !! q = fs w !! q).
Proof.
  unfold bind at 1. unfold path_exists at 1.
  destruct (exists_ (fs w) (output_dir b)) eqn:He.
  - unfold bind, rmtree.
    set (w1 := emit (EvRmtree (output_dir b)) (rmtree_fs (output_dir b) (fs w)) w).
    destruct (mkdir_parents_fresh (output_dir b) false w1) as (f & Hm & Hp & Hq).
    { unfold w1. rewrite fs_emit, rmtree_fs_lookup.
      destruct (decide _) as [|Hn]; [reflexivity|]. exfalso. apply Hn. reflexivity. }
    rewrite Hm. exists f, [EvRmtree (output_dir b); EvMkdir (output_dir b)].
    split; [|split; [reflexivity|split; [reflexivity|split; [exact Hp|]]]].
    + unfold emit, w1. cbn [trace emit]. rewrite <- app_assoc. reflexivity.
    + intros q Hpq Hne. left. rewrite (Hq q Hpq Hne).
      unfold w1. rewrite fs_emit, rmtree_fs_lookup.
      destruct (decide _); [reflexivity|contradiction].
  - unfold bind, ret.
    assert (Hnone : fs w !! output_dir b = None).
    { unfold exists_ in He. apply bool_decide_eq_false in He.
      destruct (fs w !! output_dir b); [exfalso; apply He; eauto|reflexivity]. }
    destruct (mkdir_parents_fresh (output_dir b) false w Hnone) as (f & Hm & Hp & Hq).
    rewrite Hm. exists f, [EvMkdir (output_dir b)].
    split; [reflexivity|split; [reflexivity|split; [reflexivity|split; [exact Hp|]]]].
    intros q Hpq Hne. right. split; [exact Hnone|]. apply Hq; assumption.
Qed.

Lemma unknown_name_invalid names :
  unknown_name names ->
  nonempty (filter (fun name => dict_get TARGETS name = None) names) = true.
Proof.
  intros (n & Hn & Hnone).
  assert (Hin : n ∈ filter (fun name => dict_get TARGETS name = None) names).
  { apply list_elem_of_filter. split; assumption. }
  destruct (filter _ names); [inversion Hin|reflexivity].
Qed.

(** A batch with an unknown name: what [build] does, in full. *)
Lemma build_unknown_name (I : FileSys -> Prop) names w :
  (forall cmd cwd env f, I f -> I (run_process h cmd cwd env f).2) ->
  I (fs w) ->
  unknown_name names ->
  exists w' d,
    build h b names w = (Ok ∅, w') /\ trace w' = trace w ++ d /\
    builds d = [] /\ archives d = [] /\
    (cargo_found h = true ->
     exists f0, I f0 /\
       fs w' !! output_dir b = Some Dir /\
       forall q, output_dir b `prefix_of` q -> q <> output_dir b ->
         fs w' !! q = None \/ (f0 !! output_dir b = None /\ is_Some (f0 !! q))).
Proof.
  intros Hkeep HI Hunk. unfold build.
  destruct (setup_rust_environment_spec I w Hkeep HI)
    as (w1 & d1 & Hsetup & Htr1 & Hb1 & Ha1 & HI1 & Hsame).
  rewrite (bind_ok _ _ _ _ _ Hsetup).
  destruct (cargo_found h) eqn:Hcargo; cbn [negb].
  - destruct (clean_output_dir w1) as (f & d2 & Hclean & Hb2 & Ha2 & Hdir & Hbelow).
    unfold bind at 1 in Hclean. unfold path_exists at 1 in Hclean.
    unfold bind at 1. unfold path_exists at 1.
    unfold bind at 1 in Hclean. unfold bind at 1.
    destruct ((if exists_ (fs w1) (output_dir b) then rmtree (output_dir b)
               else ret ()) w1) as [[[]|ex] w2] eqn:Hrm.
    2: { destruct (exists_ _ _); discriminate Hrm. }
    unfold bind at 1. rewrite Hclean.
    rewrite (unknown_name_invalid names Hunk).
    exists (mkWorld f (trace w1 ++ d2)), (d1 ++ d2).
    split; [reflexivity|]. cbn [trace fs]. rewrite Htr1, <- app_assoc.
    split; [reflexivity|]. rewrite builds_app, archives_app, Hb1, Hb2, Ha1, Ha2.
    split; [reflexivity|]. split; [reflexivity|].
    intros _. exists (fs w1). split; [exact HI1|]. split; [exact Hdir|].
    intros q Hpq Hne. destruct (Hbelow q Hpq Hne) as [Hq|[Hnone Hq]].
    + left. exact Hq.
    + destruct (f !! q) eqn:Hfq; [|left; reflexivity].
      right. split; [exact Hnone|]. rewrite <- Hq. eauto.
  - exists w1, d1. repeat split; try assumption. discriminate.
Qed.

End Orchestrator.

(** C1: when a requested name is not in the registry, [build] returns the
    empty result mapping (no entry for any requested name, valid or not)
    and the build tool is never invoked.  The run returns provided the
    output directory can be removed and created anew: it is not a regular
    file and its parent is a directory, and the [rustup] runs leave it
    so. *)
Theorem build_rejects_whole_batch h b names w :
  output_ready b (fs w) -> keeps_output_ready h b ->
  unknown_name names ->
  exists res w' d,
    build h b names w = (Ok res, w') /\
    res = ∅ /\ (forall n, n ∈ names -> res !! n = None) /\
    trace w' = trace w ++ d /\ builds d = [].
Proof.
  intros _ _ Hunk.
  destruct (build_unknown_name h b (fun _ => True) names w) as
    (w' & d & Hb & Htr & Hnb & _); auto.
  exists ∅, w', d. split; [exact Hb|]. split; [reflexivity|].
  split; [|split; assumption].
  intros n _. apply lookup_empty.
Qed.

(** C10: the output directory is cleared before the names are validated:
    once [cargo] is found, a batch rejected for an unknown name still leaves
    the output directory empty, whatever archives it held, and builds
    nothing.  The file system is a tree in which the output directory can
    be removed and created anew (it is not a regular file and its parent is
    a directory), and the [rustup] runs leave it so. *)
Theorem build_clears_output_before_validation h b names w :
  cargo_found h = true ->
  keeps_tree h -> tree (fs w) ->
  output_ready b (fs w) -> keeps_output_ready h b ->
  output_dir b = project_root b </> "dist" ->
  unknown_name names ->
  exists w' d,
    build h b names w = (Ok ∅, w') /\
    trace w' = trace w ++ d /\ builds d = [] /\
    empty_dir (fs w') (output_dir b).
Proof.
  intros Hcargo Hkeep Htree _ _ Hout Hunk.
  destruct (build_unknown_name h b tree names w Hkeep Htree Hunk) as
    (w' & d & Hb & Htr & Hnb & _ & Hfs).
  exists w', d. split; [exact Hb|]. split; [exact Htr|]. split; [exact Hnb|].
  destruct (Hfs Hcargo) as (f0 & Hf0 & Hdir & Hbelow).
  split; [exact Hdir|]. intros q Hpq Hne.
  destruct (Hbelow q Hpq Hne) as [Hq|[Hnone Hq]]; [exact Hq|].
  exfalso. apply (Hf0 (output_dir b) q) in Hq; [|rewrite Hout; unfold joinpath|exact Hpq].
  - rewrite Hnone in Hq. destruct Hq as [? Hq]. discriminate Hq.
  - intros Hnil. apply app_eq_nil in Hnil as [_ Hnil]. discriminate Hnil.
Qed.

Lemma build_rejects_whole_batch_witness :
  let rw := build (Stub.host Stub.run_silent) (Stub.builder RELEASE)
              ["linux-x64"; "bogus"] Stub.world in
  rw.1 = Ok ∅ /\ builds (trace rw.2) = [].
Proof.
  intros rw.
  destruct (build_rejects_whole_batch (Stub.host Stub.run_silent)
              (Stub.builder RELEASE) ["linux-x64"; "bogus"] Stub.world)
    as (res & w' & d & Hb & -> & _ & Htr & Hd).
  - split; [vm_compute; discriminate|vm_compute; reflexivity].
  - intros cmd cwd env f Hf. exact Hf.
  - exists "bogus". split; [|reflexivity].
    apply (bool_decide_unpack _). vm_compute. exact I.
  - subst rw. rewrite Hb. cbn [fst snd]. split; [reflexivity|].
    rewrite Htr. exact Hd.
Defined.

Lemma prefix_in_ancestors (p q : Path) :
  p <> [] -> p `prefix_of` q -> p ∈ ancestors_and_self q.
Proof.
  intros Hp [k ->]. unfold ancestors_and_self.
  apply list_elem_of_fmap. exists (List.length p - 1)%nat.
  assert (List.length p <> 0%nat) by (destruct p; [congruence|discriminate]).
  split.
  - replace (S (List.length p - 1)) with (List.length p) by lia.
    rewrite take_app_length. reflexivity.
  - apply elem_of_seq. rewrite length_app. lia.
Qed.

(** A finite check that a file system is a tree. *)
Lemma tree_check (f : FileSys) :
  Forall (fun q => Forall (fun p => is_Some (f !! p)) (ancestors_and_self q))
    (map_to_list f).*1 ->
  tree f.
Proof.
  intros Hall p q Hp Hpq [k Hq].
  rewrite Forall_forall in Hall.
  assert (Hin : q ∈ (map_to_list f).*1).
  { apply list_elem_of_fmap. exists (q, k). split; [reflexivity|].
    apply elem_of_map_to_list. exact Hq. }
  specialize (Hall q Hin). rewrite Forall_forall in Hall.
  apply Hall. apply prefix_in_ancestors; assumption.
Qed.

Lemma stub_disk_tree : tree Stub.disk.
Proof. apply tree_check. apply (bool_decide_unpack _). vm_compute. exact I. Qed.

Lemma build_clears_output_before_validation_witness :
  let w' := (build (Stub.host Stub.run_silent) (Stub.builder RELEASE)
               ["linux-x64"; "bogus"] Stub.world).2 in
  Stub.disk !! (Stub.proj </> "dist" </> "rvpnse-old.tar.gz") = Some File /\
  fs w' !! (Stub.proj </> "dist" </> "rvpnse-old.tar.gz") = None.
Proof.
  intros w'. split; [vm_compute; reflexivity|].
  destruct (build_clears_output_before_validation (Stub.host Stub.run_silent)
              (Stub.builder RELEASE) ["linux-x64"; "bogus"] Stub.world)
    as (w1 & d & Hb & _ & _ & _ & Hbelow).
  - reflexivity.
  - intros cmd cwd env f Hf. exact Hf.
  - exact stub_disk_tree.
  - split; [vm_compute; discriminate|vm_compute; reflexivity].
  - intros cmd cwd env f Hf. exact Hf.
  - reflexivity.
  - exists "bogus". split; [|reflexivity].
    apply (bool_decide_unpack _). vm_compute. exact I.
  - subst w'. rewrite Hb. cbn [snd]. apply Hbelow.
    + exists ["rvpnse-old.tar.gz"]. reflexivity.
    + discriminate.
Defined.

(** ** Exit status *)

(** A rejected batch gives an empty result mapping, for which
    [success_count == len(results)] holds vacuously: [main] returns 0. *)
Lemma main_unknown_name_exit_zero h args w b w0 :
  __init__ h (parent (parent (script_file h))) (arg_mode args) w = (Ok b, w0) ->
  arg_list args = false -> arg_clean args = false ->
  unknown_name (targets_to_build h args) ->
  (script h args w).1 = 0.
Proof.
  intros Hinit Hl Hc Hunk. unfold script, main.
  rewrite (bind_ok _ _ _ _ _ Hinit), Hl, Hc.
  destruct (build_unknown_name h b (fun _ => True) (targets_to_build h args) w0)
    as (w' & d & Hb & _); auto.
  assert (Hne : nonempty (targets_to_build h args) = true).
  { destruct Hunk as (n & Hn & _).
    destruct (targets_to_build h args); [inversion Hn|reflexivity]. }
  rewrite Hne. cbn [negb]. rewrite (bind_ok _ _ _ _ _ Hb).
  cbn [ret exit_status fst]. rewrite map_filter_empty, map_size_empty.
  reflexivity.
Qed.

(** C5 fails on the code: a run whose batch names an unknown target builds
    nothing and still exits with status 0, and so does a run on a host
    without [cargo]; a per-target failure does give status 1. *)
Theorem exit_status_zero_on_rejected_batch :
  dict_get TARGETS "bogus" = None /\
  (let r := script (Stub.host (Stub.run_ok 0)) (Stub.args ["linux-x64"; "bogus"])
              Stub.world in
   r.1 = 0 /\ builds (trace r.2) = []) /\
  (let r := script Stub.host_no_cargo (Stub.args ["linux-x64"]) Stub.world in
   r.1 = 0 /\ builds (trace r.2) = []) /\
  (script (Stub.host Stub.run_silent) (Stub.args ["linux-x64"]) Stub.world).1 = 1.
Proof. cbv zeta. repeat split; vm_compute; reflexivity. Qed.

(** ** Staging directories *)

(** C9 fails on the code: when [lipo] fails, [_package_ios_bundle] returns
    before its clean-up and the bundle directory stays in the output
    directory with no archive produced; when [lipo] succeeds the same
    request leaves only the archive. *)
Theorem ios_bundle_dir_left_on_merge_failure :
  let names := ["ios-x64-sim"; "ios-arm64-sim"] in
  let b := Stub.builder RELEASE in
  let bundle_dir := output_dir b </> "rvpnse-ios" in
  (let r := build (Stub.host (Stub.run_ok 1)) b names Stub.world in
   r.1 = Ok {[ "ios-x64-sim" := true; "ios-arm64-sim" := true ]} /\
   archives (trace r.2) = [] /\
   fs r.2 !! bundle_dir = Some Dir /\
   fs r.2 !! (bundle_dir </> "rVPNSE-Simulator.framework") = Some Dir) /\
  (let r := build (Stub.host (Stub.run_ok 0)) b names Stub.world in
   archives (trace r.2) = [output_dir b </> "rvpnse-ios.tar.gz"] /\
   fs r.2 !! bundle_dir = None).
Proof. cbv zeta. repeat split; vm_compute; reflexivity. Qed.

(** ** What actions emit *)

Section Emits.

Context {phi : Event -> Prop}.

Lemma emits_ret {A} (a : A) : emits phi (ret a).
Proof. intros w r w' [= <- <-]. exists []. rewrite app_nil_r. auto. Qed.

Lemma emits_raise {A} e : emits phi (@raise A e).
Proof. intros w r w' [= <- <-]. exists []. rewrite app_nil_r. auto. Qed.

Lemma emits_path_exists p : emits phi (path_exists p).
Proof. intros w r w' [= <- <-]. exists []. rewrite app_nil_r. auto. Qed.

Lemma emits_bind {A B} (m : M A) (k : A -> M B) :
  emits phi m -> (forall a, emits phi (k a)) -> emits phi (bind m k).
Proof.
  intros Hm Hk w r w' H.
  apply bind_inv in H as [(a & w1 & H1 & H2)|(e & H1 & ->)].
  - destruct (Hm _ _ _ H1) as (d1 & Ht1 & Hd1).
    destruct (Hk a _ _ _ H2) as (d2 & Ht2 & Hd2).
    exists (d1 ++ d2). rewrite Ht2, Ht1, <- app_assoc. split; [reflexivity|].
    apply Forall_app. auto.
  - exact (Hm _ _ _ H1).
Qed.

Lemma emits_one {A} (m : M A) e :
  phi e -> (forall w, exists r f, m w = (r, emit e f w)) -> emits phi m.
Proof.
  intros He Hm w r w' H. destruct (Hm w) as (r0 & f & Hw). rewrite Hw in H.
  injection H as _ <-. exists [e]. split; [reflexivity|]. auto.
Qed.

Lemma emits_rmtree p : phi (EvRmtree p) -> emits phi (rmtree p).
Proof. intros He. apply (emits_one _ _ He). intros w. eexists _, _. reflexivity. Qed.

Lemma emits_copy2 src dst : phi (EvCopy src dst) -> emits phi (copy2 src dst).
Proof. intros He. apply (emits_one _ _ He). intros w. eexists _, _. reflexivity. Qed.

Lemma emits_write_text p : phi (EvWrite p) -> emits phi (write_text p).
Proof. intros He. apply (emits_one _ _ He). intros w. eexists _, _. reflexivity. Qed.

Lemma emits_chmod p : phi (EvChmod p) -> emits phi (chmod p).
Proof. intros He. apply (emits_one _ _ He). intros w. eexists _, _. reflexivity. Qed.

Lemma emits_make_archive base fmt root :
  phi (EvArchive fmt (archive_file base fmt) root) ->
  emits phi (make_archive base fmt root).
Proof. intros He. apply (emits_one _ _ He). intros w. eexists _, _. reflexivity. Qed.

Lemma emits_mkdir p parents exist_ok :
  phi (EvMkdir p) -> emits phi (mkdir p parents exist_ok).
Proof.
  intros He w r w'. unfold mkdir.
  destruct (fs w !! p) as [k|].
  - destruct (exist_ok && bool_decide (k = Dir))%bool; intros [= <- <-];
      exists []; rewrite app_nil_r; auto.
  - destruct (_ || _)%bool; [|destruct parents]; intros [= <- <-];
      try (exists [EvMkdir p]; split; [reflexivity|]; auto).
    exists []. rewrite app_nil_r. auto.
Qed.

Lemma emits_run_command h b cmd env :
  (forall env' code, phi (EvRun cmd env' code)) ->
  emits phi (_run_command h b cmd env).
Proof.
  intros He w r w' H.
  destruct (run_command_inv h b cmd env w) as (env' & code & Hrun).
  rewrite Hrun in H. injection H as _ <-.
  exists [EvRun cmd env' code]. split; [reflexivity|]. auto.
Qed.

Lemma emits_for_each {A} (l : list A) body :
  (forall x, emits phi (body x)) -> emits phi (for_each l body).
Proof.
  intros Hb. induction l as [|x l IH]; cbn [for_each].
  - apply emits_ret.
  - apply emits_bind; [apply Hb|intros _; exact IH].
Qed.

Lemma emits_for_fold {A S} (l : list A) (s : S) body :
  (forall x s, emits phi (body x s)) -> emits phi (for_fold l s body).
Proof.
  intros Hb. revert s. induction l as [|x l IH]; intros s; cbn [for_fold].
  - apply emits_ret.
  - apply emits_bind; [apply Hb|intros s'; apply IH].
Qed.

End Emits.

Lemma emits_weaken {A} (phi psi : Event -> Prop) (m : M A) :
  (forall e, phi e -> psi e) -> emits phi m -> emits psi m.
Proof.
  intros Himp Hm w r w' H. destruct (Hm _ _ _ H) as (d & Ht & Hd).
  exists d. split; [exact Ht|]. eapply Forall_impl; eauto.
Qed.

Lemma quiet_builds_archives d :
  Forall quiet_ev d -> builds d = [] /\ archives d = [].
Proof.
  induction 1 as [|e d He _ [IHb IHa]]; [split; reflexivity|].
  unfold quiet_ev in He. apply orb_false_iff in He as [Hb Ha].
  split.
  - unfold builds in *. cbn [List.filter]. rewrite Hb. exact IHb.
  - unfold archives in *. cbn [omap list_omap]. destruct e; try exact IHa.
    discriminate Ha.
Qed.

(** One step of symbolic execution of an [emits] goal. *)
Ltac emits_step :=
  first
    [ apply emits_ret | apply emits_raise | apply emits_path_exists
    | apply emits_bind; [|intros ?]
    | apply emits_rmtree | apply emits_mkdir | apply emits_copy2
    | apply emits_write_text | apply emits_chmod | apply emits_make_archive
    | apply emits_run_command; intros ? ?
    | apply emits_for_each; intros ?
    | apply emits_for_fold; intros ? ?
    | match goal with
      | |- emits _ (if ?c then _ else _) => destruct c
      | |- emits _ (match ?c with _ => _ end) => destruct c
      end ].

Ltac emits_quiet := repeat emits_step; try reflexivity.

(** ** Archives *)

Lemma removelast_snoc {A} (l : list A) x : removelast (l ++ [x]) = l.
Proof. apply removelast_last. Qed.

Lemma basename_joinpath p c : basename (p </> c) = c.
Proof. unfold basename, joinpath. apply last_last. Qed.

Lemma joinpath_not_nil p c : p </> c <> [].
Proof. unfold joinpath. intros H. apply app_eq_nil in H as [_ H]. discriminate H. Qed.

Lemma with_suffix_empty_joinpath p c :
  with_suffix_empty (p </> c) = p </> strip_suffix c.
Proof.
  unfold with_suffix_empty. rewrite basename_joinpath.
  unfold joinpath at 2. rewrite removelast_snoc.
  destruct (p </> c) eqn:E; [|reflexivity].
  exfalso. exact (joinpath_not_nil _ _ E).
Qed.

Lemma archive_file_joinpath p c fmt :
  archive_file (p </> c) fmt = p </> (c +:+ archive_ext fmt).
Proof.
  unfold archive_file. rewrite basename_joinpath.
  unfold joinpath at 2. rewrite removelast_snoc.
  destruct (p </> c) eqn:E; [|reflexivity].
  exfalso. exact (joinpath_not_nil _ _ E).
Qed.

Lemma joinpath_inj p c c' : p </> c = p </> c' -> c = c'.
Proof. unfold joinpath. intros H. apply app_inv_head in H. congruence. Qed.

Lemma archiving_quiet {A} (m : M A) : emits quiet_ev m -> archiving m [].
Proof.
  intros Hm w r w' H. destruct (Hm _ _ _ H) as (d & Ht & Hd).
  apply quiet_builds_archives in Hd as [Hb Ha].
  exists d. rewrite Ha. repeat split; auto.
Qed.

Lemma archiving_bind {A B} (m : M A) (k : A -> M B) l1 l2 :
  archiving m l1 -> (forall a, archiving (k a) l2) ->
  archiving (bind m k) (l1 ++ l2).
Proof.
  intros Hm Hk w r w' H.
  apply bind_inv in H as [(a & w1 & H1 & H2)|(e & H1 & ->)].
  - destruct (Hm _ _ _ H1) as (d1 & Ht1 & Hb1 & _ & Ha1).
    destruct (Hk a _ _ _ H2) as (d2 & Ht2 & Hb2 & Hp2 & Ha2).
    exists (d1 ++ d2). rewrite Ht2, Ht1, <- app_assoc, builds_app, archives_app.
    rewrite Hb1, Hb2, (Ha1 (ex_intro _ a eq_refl)).
    split; [reflexivity|]. split; [reflexivity|]. split.
    + apply prefix_app. exact Hp2.
    + intros Hr. rewrite (Ha2 Hr). reflexivity.
  - destruct (Hm _ _ _ H1) as (d1 & Ht1 & Hb1 & Hp1 & _).
    exists d1. split; [exact Ht1|]. split; [exact Hb1|]. split.
    + apply prefix_app_r. exact Hp1.
    + intros [a Ha]. discriminate Ha.
Qed.

Lemma archiving_bind_quiet {A B} (m : M A) (k : A -> M B) l :
  emits quiet_ev m -> (forall a, archiving (k a) l) -> archiving (bind m k) l.
Proof.
  intros Hm Hk. change l with ([] ++ l).
  apply archiving_bind; [apply archiving_quiet; exact Hm|exact Hk].
Qed.

Lemma archiving_make_archive base fmt root :
  archiving (make_archive base fmt root) [archive_file base fmt].
Proof.
  intros w r w' [= <- <-]. eexists [_]. split; [reflexivity|].
  repeat split; reflexivity.
Qed.

Lemma archiving_bind_archive {B} base fmt root (k : unit -> M B) a :
  archive_file base fmt = a -> (forall u, emits quiet_ev (k u)) ->
  archiving (bind (make_archive base fmt root) k) [a].
Proof.
  intros <- Hk. change [archive_file base fmt] with ([archive_file base fmt] ++ []).
  apply archiving_bind; [apply archiving_make_archive|].
  intros u. apply archiving_quiet, Hk.
Qed.

Lemma android_archive_roundtrip b :
  archive_file
    (with_suffix_empty (with_suffix_empty (output_dir b </> "rvpnse-android.tar.gz")))
    gztar = android_archive b.
Proof.
  rewrite !with_suffix_empty_joinpath, archive_file_joinpath. reflexivity.
Qed.

Lemma ios_archive_roundtrip b :
  archive_file
    (with_suffix_empty (with_suffix_empty (output_dir b </> "rvpnse-ios.tar.gz")))
    gztar = ios_archive b.
Proof.
  rewrite !with_suffix_empty_joinpath, archive_file_joinpath. reflexivity.
Qed.

(** [_package_android_bundle] produces the one Android archive, unless it
    raises before. *)
Lemma package_android_bundle_archiving b ts :
  archiving (_package_android_bundle b ts) [android_archive b].
Proof.
  unfold _package_android_bundle.
  repeat (apply archiving_bind_quiet; [solve [emits_quiet]|intros ?]).
  apply archiving_bind_archive; [apply android_archive_roundtrip|].
  intros _. emits_quiet.
Qed.

Lemma package_target_archiving b t :
  archiving
    (let package_dir := output_dir b </> ("rvpnse-" +:+ name t) in
     mkdir package_dir true true >>
     copy2 (lib_path b t) package_dir >>
     let header_file := project_root b </> "include" </> "rvpnse.h" in
     let* eh := path_exists header_file in
     (if eh then copy2 header_file package_dir else ret ()) >>
     let readme_file := project_root b </> "README.md" in
     let* er := path_exists readme_file in
     (if er then copy2 readme_file package_dir else ret ()) >>
     let* archive_path :=
       (if decide (platform t = WINDOWS) then
          let archive_path := output_dir b </> ("rvpnse-" +:+ name t +:+ ".zip") in
          make_archive (with_suffix_empty archive_path) zip package_dir >>
          ret archive_path
        else
          let archive_path :=
            output_dir b </> ("rvpnse-" +:+ name t +:+ ".tar.gz") in
          make_archive (with_suffix_empty (with_suffix_empty archive_path))
            gztar package_dir >>
          ret archive_path) in
     rmtree package_dir >>
     ret (Some archive_path))
    [package_archive b t].
Proof.
  cbv zeta.
  repeat (apply archiving_bind_quiet; [solve [emits_quiet]|intros ?]).
  change [package_archive b t] with ([package_archive b t] ++ []).
  apply archiving_bind; [|intros ?; apply archiving_quiet; emits_quiet].
  unfold package_archive. destruct (decide (platform t = WINDOWS)).
  - apply archiving_bind_archive; [reflexivity|]. intros _. emits_quiet.
  - apply archiving_bind_archive; [reflexivity|]. intros _. emits_quiet.
Qed.

(** [_package_target] archives its target when the library is there, and
    does nothing when it is not. *)
Lemma package_target_spec b t w r w' :
  _package_target b t w = (r, w') ->
  exists d, trace w' = trace w ++ d /\ builds d = [] /\
    archives d `prefix_of` [package_archive b t] /\
    (exists_ (fs w) (lib_path b t) = true -> is_ok r ->
     archives d = [package_archive b t]) /\
    (exists_ (fs w) (lib_path b t) = false -> d = []).
Proof.
  unfold _package_target. fold (lib_path b t). intros H.
  apply bind_inv in H as [(e & w1 & He & H)|(ex & He & _)]; [|discriminate He].
  injection He as <- <-.
  destruct (exists_ (fs w) (lib_path b t)); cbn [negb] in H.
  - destruct (package_target_archiving b t _ _ _ H) as (d & Ht & Hb & Hp & Ha).
    exists d. repeat split; auto. discriminate.
  - injection H as <- <-. exists []. rewrite app_nil_r.
    repeat split; auto; try discriminate. apply prefix_nil.
Qed.

Lemma dict_get_elem {V} (d : list (string * V)) n v :
  dict_get d n = Some v -> v ∈ d.*2.
Proof.
  induction d as [|[k x] d IH]; cbn [dict_get]; [discriminate|].
  destruct (decide (k = n)).
  - intros [= ->]. left.
  - intros H. right. apply IH, H.
Qed.

Lemma registry_archive_names :
  Forall (fun t =>
    strip_suffix ("rvpnse-" +:+ name t +:+ ".zip") +:+ ".zip"
      = "rvpnse-" +:+ name t +:+ ".zip" /\
    strip_suffix (strip_suffix ("rvpnse-" +:+ name t +:+ ".tar.gz")) +:+ ".tar.gz"
      = "rvpnse-" +:+ name t +:+ ".tar.gz" /\
    "rvpnse-" +:+ name t +:+ ".zip" <> "rvpnse-android.tar.gz" /\
    "rvpnse-" +:+ name t +:+ ".tar.gz" <> "rvpnse-android.tar.gz")
    TARGETS_values.
Proof. apply (bool_decide_unpack _). vm_compute. exact I. Qed.

(** For the targets of the registry the archive is where lines 262 and 265
    say, and it is not the Android bundle. *)
Lemma package_archive_registry b t :
  t ∈ TARGETS_values ->
  package_archive b t = desktop_archive b t /\
  desktop_archive b t <> android_archive b.
Proof.
  intros Ht. pose proof registry_archive_names as H.
  rewrite Forall_forall in H. destruct (H t Ht) as (Hz & Hg & Hnz & Hng).
  unfold package_archive, desktop_archive, android_archive.
  destruct (decide (platform t = WINDOWS)).
  - rewrite with_suffix_empty_joinpath, archive_file_joinpath.
    cbn [archive_ext]. rewrite Hz. split; [reflexivity|].
    intros E. apply joinpath_inj in E. contradiction.
  - rewrite !with_suffix_empty_joinpath, archive_file_joinpath.
    cbn [archive_ext]. rewrite Hg. split; [reflexivity|].
    intros E. apply joinpath_inj in E. contradiction.
Qed.

Lemma archives_not_android b d a :
  a <> android_archive b -> archives d `prefix_of` [a] ->
  builds d = [] -> Forall (post_ev b) d.
Proof.
  intros Ha Hp Hb. apply Forall_forall. intros e He. split.
  - destruct (is_build e) eqn:E; [|reflexivity].
    assert (e ∈ builds d) as Hin.
    { unfold builds. apply list_elem_of_In, filter_In. split;
        [apply list_elem_of_In; exact He|exact E]. }
    rewrite Hb in Hin. inversion Hin.
  - destruct e; try exact I. cbn.
    assert (archive ∈ archives d) as Hin.
    { unfold archives. apply list_elem_of_omap.
      eexists. split; [exact He|reflexivity]. }
    destruct Hp as [k Hk].
    assert (archive ∈ [a]) as Hin'.
    { rewrite Hk. apply elem_of_app. left. exact Hin. }
    apply list_elem_of_singleton in Hin' as ->. exact Ha.
Qed.

Lemma post_ev_builds b d : Forall (post_ev b) d -> builds d = [].
Proof.
  induction 1 as [|e d [He _] _ IH]; [reflexivity|].
  unfold builds in *. cbn [List.filter]. rewrite He. exact IH.
Qed.

Lemma post_ev_not_android b d :
  Forall (post_ev b) d -> Forall (not_android_archive b) d.
Proof. intros H. eapply Forall_impl; [exact H|]. intros e [_ He]. exact He. Qed.

Lemma package_ios_bundle_unfold h b ts :
  _package_ios_bundle h b ts =
  (mkdir (ios_bundle_dir b) true true >>
   let* groups := ios_group b ts ([], []) in
   let '(device_targets, simulator_targets) := groups in
   if (negb (nonempty device_targets) && negb (nonempty simulator_targets))%bool
   then ret None
   else
     ios_framework h b "rVPNSE-Device.framework" device_targets
       (ios_framework h b "rVPNSE-Simulator.framework" simulator_targets
          (ios_finish b))).
Proof. reflexivity. Qed.

Lemma post_ev_ios_archive b root :
  post_ev b
    (EvArchive gztar
       (archive_file
          (with_suffix_empty (with_suffix_empty (output_dir b </> "rvpnse-ios.tar.gz")))
          gztar) root).
Proof.
  split; [reflexivity|]. cbn. rewrite ios_archive_roundtrip.
  intros E. apply joinpath_inj in E. discriminate E.
Qed.

Lemma ios_finish_emits b : emits (post_ev b) (ios_finish b).
Proof.
  unfold ios_finish.
  repeat emits_step; try (split; [reflexivity|exact I]).
  apply post_ev_ios_archive.
Qed.

Lemma ios_framework_emits h b fw g next :
  emits (post_ev b) next -> emits (post_ev b) (ios_framework h b fw g next).
Proof.
  intros Hnext. unfold ios_framework.
  repeat (first [exact Hnext|emits_step]); split; try reflexivity; exact I.
Qed.

(** [_package_ios_bundle] builds nothing and never writes the Android
    archive. *)
Lemma package_ios_bundle_emits h b ts :
  emits (post_ev b) (_package_ios_bundle h b ts).
Proof.
  rewrite package_ios_bundle_unfold.
  apply emits_bind; [apply emits_mkdir; split; [reflexivity|exact I]|intros _].
  apply emits_bind; [unfold ios_group; emits_quiet|intros [d s]].
  destruct (_ && _)%bool; [apply emits_ret|].
  apply ios_framework_emits, ios_framework_emits, ios_finish_emits.
Qed.

Section Loop.

Variable h : Host.
Variable b : rVPNSEBuilder.

Lemma build_target_true_lib t w w' :
  _build_target h b t w = (Ok true, w') -> exists_ (fs w') (lib_path b t) = true.
Proof.
  intros H. apply build_target_cases in H.
  destruct H as [[_ [H|[e H]]]|(env & code & f & -> & H)]; try discriminate H.
  injection H as H. symmetry in H. apply andb_true_iff in H as [_ H].
  rewrite fs_emit. exact H.
Qed.

Lemma build_target_emits t : emits (not_android_archive b) (_build_target h b t).
Proof.
  intros w r w' H. apply build_target_cases in H.
  assert (Hc : exists d, trace (cleaned b t w) = trace w ++ d /\
                         Forall (not_android_archive b) d).
  { destruct (cleaned_trace b t w) as [E|E]; rewrite E.
    - exists []. rewrite app_nil_r. auto.
    - eexists [_]. split; [reflexivity|]. repeat constructor. }
  destruct Hc as (d & Hd & Hf).
  destruct H as [[-> _]|(env & code & f & -> & _)].
  - exists d. auto.
  - exists (d ++ [EvRun (cargo_cmd b t) env code]).
    rewrite trace_emit, Hd, <- app_assoc. split; [reflexivity|].
    apply Forall_app. split; [exact Hf|]. repeat constructor.
Qed.

(** The body of the loop, for a name of the registry: after the build of
    the target, a desktop target that succeeded is archived at once, a
    mobile target is only recorded. *)
Lemma build_body_spec n t st w r w' :
  dict_get TARGETS n = Some t ->
  build_body h b n st w = (r, w') ->
  exists rb wb seg,
    _build_target h b t w = (rb, wb) /\
    trace w' = trace wb ++ seg /\ builds seg = [] /\
    Forall (not_android_archive b) seg /\
    forall st', r = Ok st' ->
      exists success, rb = Ok success /\
        results st' = <[n := success]> (results st) /\
        android_targets st'
          = android_targets st ++ (if (success && is_android t)%bool then [t] else []) /\
        ios_targets st'
          = ios_targets st ++ (if (success && is_ios t)%bool then [t] else []) /\
        archives seg
          = if (success && is_desktop t)%bool then [desktop_archive b t] else [].
Proof.
  intros Hn H. unfold build_body in H. rewrite Hn in H.
  pose proof (dict_get_elem _ _ _ Hn) as Hreg.
  destruct (package_archive_registry b t Hreg) as [Hpa Hna].
  apply bind_inv in H as [(success & wb & Hb & H)|(e & Hb & ->)].
  2: { exists (Raise e), w', []. rewrite app_nil_r.
       repeat split; auto. discriminate. }
  exists (Ok success), wb.
  unfold is_desktop, is_android, is_ios.
  destruct success.
  - destruct (decide (platform t = ANDROID)) as [Ha|Ha].
    + injection H as <- <-. exists []. rewrite app_nil_r.
      repeat split; auto. intros st' [= <-]. exists true.
      rewrite (bool_decide_eq_true_2 _ Ha). cbn.
      rewrite bool_decide_eq_false_2 by congruence.
      rewrite app_nil_r. repeat split; reflexivity.
    + destruct (decide (platform t = IOS)) as [Hi|Hi].
      * injection H as <- <-. exists []. rewrite app_nil_r.
        repeat split; auto. intros st' [= <-]. exists true.
        rewrite (bool_decide_eq_false_2 _ Ha), (bool_decide_eq_true_2 _ Hi). cbn.
        rewrite app_nil_r. repeat split; reflexivity.
      * apply bind_inv in H as [(a & w1 & Hp & H)|(e & Hp & ->)].
        -- injection H as <- <-.
           destruct (package_target_spec _ _ _ _ _ Hp)
             as (d & Ht & Hbd & Hpre & Hok & _).
           exists d. split; [exact Hb|]. split; [exact Ht|].
           split; [exact Hbd|]. split.
           { apply post_ev_not_android.
             apply (archives_not_android b d (package_archive b t)); auto.
             rewrite Hpa. exact Hna. }
           intros st' [= <-]. exists true.
           rewrite (bool_decide_eq_false_2 _ Ha), (bool_decide_eq_false_2 _ Hi).
           cbn. rewrite !app_nil_r. repeat split; try reflexivity.
           rewrite <- Hpa. apply Hok; [|eexists; reflexivity].
           apply (build_target_true_lib _ _ _ Hb).
        -- destruct (package_target_spec _ _ _ _ _ Hp)
             as (d & Ht & Hbd & Hpre & _ & _).
           exists d. split; [exact Hb|]. split; [exact Ht|].
           split; [exact Hbd|]. split; [|discriminate].
           apply post_ev_not_android.
           apply (archives_not_android b d (package_archive b t)); auto.
           rewrite Hpa. exact Hna.
  - injection H as <- <-. exists []. rewrite app_nil_r.
    repeat split; auto. intros st' [= <-]. exists false.
    cbn. rewrite !app_nil_r. repeat split; reflexivity.
Qed.

Lemma build_body_accumulated n st w st' w' :
  build_body h b n st w = (Ok st', w') -> accumulated st -> accumulated st'.
Proof.
  intros H Hacc. unfold build_body in H.
  destruct (dict_get TARGETS n) as [t|] eqn:Hn; [|discriminate H].
  destruct (build_body_spec n t st w _ _ Hn
              ltac:(unfold build_body; rewrite Hn; exact H))
    as (rb & wb & seg & _ & _ & _ & _ & Hst).
  destruct (Hst st' eq_refl) as (success & _ & Hres & Hand & _).
  intros m tm Hm Htm Hplat. rewrite Hand. rewrite Hres in Hm.
  destruct (decide (n = m)) as [->|Hne].
  - rewrite lookup_insert_eq in Hm. injection Hm as ->.
    rewrite Hn in Htm. injection Htm as ->.
    unfold is_android. rewrite (bool_decide_eq_true_2 _ Hplat). cbn.
    intros E. apply app_eq_nil in E as [_ E]. discriminate E.
  - rewrite lookup_insert_ne in Hm by exact Hne.
    intros E. apply app_eq_nil in E as [E _].
    exact (Hacc m tm Hm Htm Hplat E).
Qed.

Lemma build_body_emits n st : emits (not_android_archive b) (build_body h b n st).
Proof.
  intros w r w' H.
  destruct (dict_get TARGETS n) as [t|] eqn:Hn.
  - destruct (build_body_spec n t st w r w' Hn H)
      as (rb & wb & seg & Hb & Ht & _ & Hseg & _).
    destruct (build_target_emits t _ _ _ Hb) as (d & Hd & Hfd).
    exists (d ++ seg). rewrite Ht, Hd, <- app_assoc. split; [reflexivity|].
    apply Forall_app. auto.
  - unfold build_body in H. rewrite Hn in H. injection H as <- <-.
    exists []. rewrite app_nil_r. auto.
Qed.

Lemma build_loop_spec names st w r w' :
  for_fold names st (build_body h b) w = (r, w') ->
  exists d, trace w' = trace w ++ d /\ Forall (not_android_archive b) d /\
    forall st', r = Ok st' -> accumulated st -> accumulated st'.
Proof.
  revert st w. induction names as [|n names IH]; intros st w H; cbn [for_fold] in H.
  - injection H as <- <-. exists []. rewrite app_nil_r.
    repeat split; auto. intros st' [= <-]. auto.
  - apply bind_inv in H as [(st1 & w1 & H1 & H2)|(e & H1 & ->)].
    + destruct (build_body_emits n st _ _ _ H1) as (d1 & Ht1 & Hd1).
      destruct (IH _ _ H2) as (d2 & Ht2 & Hd2 & Hacc).
      exists (d1 ++ d2). rewrite Ht2, Ht1, <- app_assoc. split; [reflexivity|].
      split; [apply Forall_app; auto|].
      intros st' Hr Hst. apply (Hacc st' Hr).
      exact (build_body_accumulated _ _ _ _ _ H1 Hst).
    + destruct (build_body_emits n st _ _ _ H1) as (d1 & Ht1 & Hd1).
      exists d1. repeat split; auto. discriminate.
Qed.

End Loop.

(** ** The orchestrator: phases of a run *)

Section Phases.

Variable h : Host.
Variable b : rVPNSEBuilder.

Lemma bind_assoc {A B C} (m : M A) (k : A -> M B) (k' : B -> M C) w :
  bind (bind m k) k' w = bind m (fun x => bind (k x) k') w.
Proof. unfold bind. destruct (m w) as [[a|e] w1]; reflexivity. Qed.

Lemma bind_ext {A B} (m : M A) (k k' : A -> M B) w :
  (forall a w1, k a w1 = k' a w1) -> bind m k w = bind m k' w.
Proof. intros H. unfold bind. destruct (m w) as [[a|e] w1]; [apply H|reflexivity]. Qed.

(** [build], one phase at a time. *)
Lemma build_unfold names w :
  build h b names w =
  (let* ok := _setup_rust_environment h b in
   if negb ok then ret ∅
   else
     clean_step b >>
     if nonempty (filter (fun name => dict_get TARGETS name = None) names)
     then ret ∅
     else
       let* st := for_fold names (mkLoop ∅ [] []) (build_body h b) in
       android_step b st >> ios_step h b st >> ret (results st)) w.
Proof.
  unfold build. apply bind_ext. intros ok w1.
  destruct (negb ok); [reflexivity|].
  unfold clean_step. rewrite bind_assoc. apply bind_ext. intros e w2.
  rewrite bind_assoc. reflexivity.
Qed.

Lemma clean_step_spec w :
  exists w2 d, clean_step b w = (Ok (), w2) /\ trace w2 = trace w ++ d /\
               builds d = [] /\ archives d = [].
Proof.
  destruct (clean_output_dir b w) as (f & d & Hc & Hb & Ha & _).
  exists (mkWorld f (trace w ++ d)), d. repeat split; assumption.
Qed.

Lemma android_step_spec st w r w' :
  android_step b st w = (r, w') ->
  exists d, trace w' = trace w ++ d /\ builds d = [] /\
    (archives d = [] \/ archives d = [android_archive b]) /\
    (android_targets st <> [] -> is_ok r -> archives d = [android_archive b]).
Proof.
  unfold android_step. intros H.
  destruct (android_targets st) as [|t ts] eqn:Hts; cbn [nonempty] in H.
  - injection H as <- <-. exists []. rewrite app_nil_r.
    repeat split; auto. congruence.
  - assert (Harch : archiving
      (let* _ := _package_android_bundle b (t :: ts) in ret ())
      ([android_archive b] ++ [])).
    { apply archiving_bind; [apply package_android_bundle_archiving|].
      intros a. apply archiving_quiet, emits_ret. }
    destruct (Harch _ _ _ H) as (d & Ht & Hb & Hp & Ha).
    exists d. split; [exact Ht|]. split; [exact Hb|]. split.
    + destruct Hp as [k Hk]. destruct (archives d) as [|a [|a' l]].
      * left. reflexivity.
      * right. cbn in Hk. injection Hk as <- _. reflexivity.
      * cbn in Hk. discriminate Hk.
    + intros _ Hr. apply Ha. exact Hr.
Qed.

Lemma ios_step_emits st : emits (post_ev b) (ios_step h b st).
Proof.
  unfold ios_step. destruct (nonempty _); [|apply emits_ret].
  apply emits_bind; [apply package_ios_bundle_emits|intros _; apply emits_ret].
Qed.

End Phases.

Lemma not_android_no_bundle b d :
  Forall (not_android_archive b) d -> android_bundles b d = [].
Proof.
  unfold android_bundles.
  induction 1 as [|e d He _ IH]; [reflexivity|].
  destruct e; try exact IH.
  change (archives (EvArchive fmt archive root_dir :: d))
    with (archive :: archives d).
  rewrite filter_cons_False by exact He. exact IH.
Qed.

Lemma android_bundles_once b pre loop bundle_a bundle_i :
  archives pre = [] -> Forall (not_android_archive b) loop ->
  archives bundle_a = [] \/ archives bundle_a = [android_archive b] ->
  Forall (not_android_archive b) bundle_i ->
  (List.length (android_bundles b (pre ++ loop ++ bundle_a ++ bundle_i)) <= 1)%nat.
Proof.
  intros Hp Hl Ha Hi. unfold android_bundles.
  rewrite !archives_app, Hp, !filter_app. cbn [app].
  fold (android_bundles b loop) (android_bundles b bundle_i).
  rewrite (not_android_no_bundle b loop Hl), (not_android_no_bundle b bundle_i Hi).
  rewrite app_nil_r. cbn [app].
  destruct Ha as [->| ->].
  - cbn. lia.
  - rewrite filter_cons_True by reflexivity. cbn. lia.
Qed.

Lemma dict_get_key {V} (d : list (string * V)) n :
  n ∈ d.*1 -> is_Some (dict_get d n).
Proof.
  induction d as [|[k v] d IH]; cbn [fmap list_fmap dict_get fst].
  - intros H. inversion H.
  - intros H. destruct (decide (k = n)); [eauto|].
    apply IH. apply elem_of_cons in H as [->|H]; [contradiction|exact H].
Qed.

Lemma valid_names_filter names :
  valid_names names ->
  filter (fun name => dict_get TARGETS name = None) names = [].
Proof.
  induction names as [|n l IH]; intros Hv; [reflexivity|].
  rewrite filter_cons_False.
  - apply IH. intros m Hm. apply Hv. right. exact Hm.
  - destruct (Hv n) as [t Ht]; [left|]. rewrite Ht. discriminate.
Qed.

Lemma pair_eq_fst {A B} (p : A * B) a : p.1 = a -> p = (a, p.2).
Proof. intros <-. apply surjective_pairing. Qed.

Lemma is_desktop_android t : platform t = ANDROID -> is_desktop t = false.
Proof.
  intros H. unfold is_desktop, is_android. rewrite (bool_decide_eq_true_2 _ H).
  reflexivity.
Qed.

Lemma is_desktop_ios t : platform t = IOS -> is_desktop t = false.
Proof.
  intros H. unfold is_desktop, is_ios. rewrite (bool_decide_eq_true_2 _ H).
  apply negb_false_iff, orb_true_r.
Qed.

Lemma is_desktop_other t :
  platform t <> ANDROID -> platform t <> IOS -> is_desktop t = true.
Proof.
  intros Ha Hi. unfold is_desktop, is_android, is_ios.
  rewrite (bool_decide_eq_false_2 _ Ha), (bool_decide_eq_false_2 _ Hi). reflexivity.
Qed.

Lemma built_cons P tn turns :
  built P (tn :: turns)
  = (if (turn_ok tn && P (turn_target tn))%bool then [turn_target tn] else [])
    ++ built P turns.
Proof.
  unfold built. destruct (turn_ok tn && P (turn_target tn))%bool eqn:E.
  - rewrite filter_cons_True by exact E. reflexivity.
  - rewrite filter_cons_False by (rewrite E; discriminate). reflexivity.
Qed.

(** A run of the loop of [build] that returns is a sequence of turns, one
    per name; the local variables hold what the turns produced. *)
Lemma build_loop_turns h b names st w st' w' :
  for_fold names st (build_body h b) w = (Ok st', w') ->
  exists turns,
    turn_name <$> turns = names /\
    Forall (fun tn => dict_get TARGETS (turn_name tn) = Some (turn_target tn)) turns /\
    loop_run h b turns w w' /\
    results st' = turn_results (results st) turns /\
    android_targets st' = android_targets st ++ built is_android turns /\
    ios_targets st' = ios_targets st ++ built is_ios turns.
Proof.
  revert st w. induction names as [|n names IH]; intros st w H; cbn [for_fold] in H.
  - injection H as <- <-. exists []. rewrite !app_nil_r. repeat split. constructor.
  - apply bind_inv in H as [(st1 & w1 & H1 & H2)|(e & _ & [=])].
    unfold build_body in H1.
    destruct (dict_get TARGETS n) as [t|] eqn:Hn; [|discriminate H1].
    apply bind_inv in H1 as [(ok & wb & Hbt & H1)|(e & _ & [=])].
    destruct (IH _ _ H2) as (turns & Hnames & Hreg & Hrun & Hres & Hand & Hios).
    assert (Hstep : exists wp,
              (if (ok && is_desktop t)%bool
               then exists a, _package_target b t wb = (Ok a, wp) else wp = wb) /\
              w1 = wp /\
              results st1 = <[n := ok]> (results st) /\
              android_targets st1
              = android_targets st ++ (if (ok && is_android t)%bool then [t] else []) /\
              ios_targets st1
              = ios_targets st ++ (if (ok && is_ios t)%bool then [t] else [])).
    { destruct ok; cbn [andb].
      - destruct (decide (platform t = ANDROID)) as [Ha|Ha].
        + injection H1 as <- <-. exists wb.
          rewrite (is_desktop_android t Ha). unfold is_android, is_ios.
          rewrite (bool_decide_eq_true_2 _ Ha).
          rewrite bool_decide_eq_false_2 by congruence.
          cbn [results android_targets ios_targets]. rewrite app_nil_r. auto.
        + destruct (decide (platform t = IOS)) as [Hi|Hi].
          * injection H1 as <- <-. exists wb.
            rewrite (is_desktop_ios t Hi). unfold is_android, is_ios.
            rewrite (bool_decide_eq_true_2 _ Hi), (bool_decide_eq_false_2 _ Ha).
            cbn [results android_targets ios_targets]. rewrite app_nil_r. auto.
          * apply bind_inv in H1 as [(a & wp & Hpk & H1)|(e & _ & [=])].
            injection H1 as <- <-. exists wp.
            rewrite (is_desktop_other t Ha Hi). unfold is_android, is_ios.
            rewrite (bool_decide_eq_false_2 _ Ha), (bool_decide_eq_false_2 _ Hi).
            cbn [results android_targets ios_targets]. rewrite !app_nil_r.
            split; [exists a; exact Hpk|]. auto.
      - injection H1 as <- <-. exists wb.
        cbn [results android_targets ios_targets]. rewrite !app_nil_r. auto. }
    destruct Hstep as (wp & Hpk & -> & Hr1 & Ha1 & Hi1).
    exists (mkTurn n t ok :: turns). split; [cbn; rewrite Hnames; reflexivity|].
    split; [constructor; [exact Hn|exact Hreg]|]. split.
    { cbn [loop_run turn_target turn_ok]. exists wb, wp. auto. }
    rewrite !built_cons. cbn [turn_target turn_ok turn_name].
    split; [|split].
    + rewrite Hres, Hr1. reflexivity.
    + rewrite Hand, Ha1, <- app_assoc. reflexivity.
    + rewrite Hios, Hi1, <- app_assoc. reflexivity.
Qed.

Lemma turn_results_true turns m0 n :
  turn_results m0 turns !! n = Some true ->
  m0 !! n = Some true \/
  exists tn, tn ∈ turns /\ turn_name tn = n /\ turn_ok tn = true.
Proof.
  revert m0. induction turns as [|tn turns IH]; intros m0 H; [left; exact H|].
  cbn [turn_results foldl] in H. apply IH in H as [H|(tn' & Hin & Hn & Hok)].
  - destruct (decide (turn_name tn = n)) as [<-|Hne].
    + rewrite lookup_insert_eq in H. injection H as H.
      right. exists tn. split; [left|auto].
    + rewrite lookup_insert_ne in H by exact Hne. left. exact H.
  - right. exists tn'. split; [right; exact Hin|auto].
Qed.

Lemma android_bundles_phases b pre loop bundle_a bundle_i l :
  archives pre = [] -> Forall (not_android_archive b) loop ->
  archives bundle_a = l -> l = [] \/ l = [android_archive b] ->
  Forall (not_android_archive b) bundle_i ->
  android_bundles b (pre ++ loop ++ bundle_a ++ bundle_i) = l.
Proof.
  intros Hp Hl Ha Hl' Hi. unfold android_bundles.
  rewrite !archives_app, Hp, !filter_app. cbn [app].
  fold (android_bundles b loop) (android_bundles b bundle_i).
  rewrite (not_android_no_bundle b loop Hl), (not_android_no_bundle b bundle_i Hi).
  rewrite app_nil_r, Ha. cbn [app].
  destruct Hl' as [-> | ->]; [reflexivity|].
  rewrite filter_cons_True by reflexivity. reflexivity.
Qed.

(** C7: over every run of [build], whatever it returns or raises, the
    Android bundle is written at most once.  A run on registered names
    that returns is, after the set-up (nothing built, nothing archived), a
    sequence of turns, one per requested name in order: the target is
    built, and a desktop target that built is packaged on its own at once,
    before the next turn; Android targets are not packaged in the loop.
    After the last turn [_package_android_bundle] is called once, with
    exactly the Android targets that built, in turn order, and not at all
    when there is none; what follows builds nothing and does not write the
    Android bundle.  So the bundle is written exactly once when an Android
    target built, and never otherwise. *)
Theorem build_packages_android_bundle_once h b :
  (forall names w r w',
     build h b names w = (r, w') ->
     exists d, trace w' = trace w ++ d /\
               (List.length (android_bundles b d) <= 1)%nat) /\
  (forall names w res w',
     cargo_found h = true -> valid_names names ->
     build h b names w = (Ok res, w') ->
     exists turns w2 w3 w4 pre post,
       turn_name <$> turns = names /\
       Forall (fun tn => dict_get TARGETS (turn_name tn) = Some (turn_target tn))
         turns /\
       trace w2 = trace w ++ pre /\ builds pre = [] /\ archives pre = [] /\
       loop_run h b turns w2 w3 /\
       (if nonempty (built is_android turns)
        then exists a,
               _package_android_bundle b (built is_android turns) w3 = (Ok a, w4)
        else w4 = w3) /\
       trace w' = trace w4 ++ post /\ builds post = [] /\
       Forall (not_android_archive b) post /\
       res = turn_results ∅ turns /\
       (forall n t, res !! n = Some true -> dict_get TARGETS n = Some t ->
                    platform t = ANDROID -> t ∈ built is_android turns) /\
       (forall d, trace w' = trace w ++ d ->
          android_bundles b d
          = if nonempty (built is_android turns) then [android_archive b] else [])).
Proof.
  split.
  - intros names w r w' H.
    assert (Hph : exists pre loop bundle_a bundle_i,
       trace w' = trace w ++ pre ++ loop ++ bundle_a ++ bundle_i /\
       archives pre = [] /\
       Forall (not_android_archive b) loop /\
       (archives bundle_a = [] \/ archives bundle_a = [android_archive b]) /\
       Forall (not_android_archive b) bundle_i).
    { rewrite build_unfold in H.
      destruct (setup_rust_environment_spec h b (fun _ => True) w)
        as (w1 & d1 & Hsetup & Ht1 & Hb1 & Ha1 & _); auto.
      rewrite (bind_ok _ _ _ _ _ Hsetup) in H.
      assert (Hempty : forall (w2 : World) d, trace w2 = trace w ++ d ->
        archives d = [] -> (Ok ∅, w2) = (r, w') ->
        exists pre loop bundle_a bundle_i,
         trace w' = trace w ++ pre ++ loop ++ bundle_a ++ bundle_i /\
         archives pre = [] /\
         Forall (not_android_archive b) loop /\
         (archives bundle_a = [] \/ archives bundle_a = [android_archive b]) /\
         Forall (not_android_archive b) bundle_i).
      { intros w2 d Ht Ha [= <- <-]. exists d, [], [], [].
        rewrite !app_nil_r. repeat split; auto. }
      destruct (negb (cargo_found h)).
      { apply (Hempty w1 d1); auto. }
      destruct (clean_step_spec b w1) as (w2 & d2 & Hclean & Ht2 & Hb2 & Ha2).
      rewrite (bind_ok _ _ _ _ _ Hclean) in H.
      assert (Htp : trace w2 = trace w ++ (d1 ++ d2)).
      { rewrite Ht2, Ht1, <- app_assoc. reflexivity. }
      assert (Hap : archives (d1 ++ d2) = []).
      { rewrite archives_app, Ha1, Ha2. reflexivity. }
      destruct (nonempty _).
      { apply (Hempty w2 (d1 ++ d2)); auto. }
      apply bind_inv in H as [(st & w3 & Hloop & H)|(e & Hloop & ->)].
      2: { destruct (build_loop_spec h b _ _ _ _ _ Hloop) as (d3 & Ht3 & Hd3 & _).
           exists (d1 ++ d2), d3, [], [].
           rewrite !app_nil_r, Ht3, Htp, <- app_assoc.
           repeat split; auto. }
      destruct (build_loop_spec h b _ _ _ _ _ Hloop) as (d3 & Ht3 & Hd3 & _).
      apply bind_inv in H as [([] & w4 & Handroid & H)|(e & Handroid & ->)].
      2: { destruct (android_step_spec b _ _ _ _ Handroid)
             as (d4 & Ht4 & Hb4 & Ha4 & _).
           exists (d1 ++ d2), d3, d4, [].
           rewrite !app_nil_r, Ht4, Ht3, Htp, <- !app_assoc.
           repeat split; auto. }
      destruct (android_step_spec b _ _ _ _ Handroid)
        as (d4 & Ht4 & Hb4 & Ha4 & _).
      assert (Htail : exists d5, trace w' = trace w4 ++ d5 /\ Forall (post_ev b) d5).
      { apply bind_inv in H as [([] & w5 & Hios & H)|(e & Hios & ->)].
        - destruct (ios_step_emits h b st _ _ _ Hios) as (d5 & Ht5 & Hd5).
          injection H as <- <-. exists d5. auto.
        - destruct (ios_step_emits h b st _ _ _ Hios) as (d5 & Ht5 & Hd5).
          exists d5. auto. }
      destruct Htail as (d5 & Ht5 & Hd5).
      exists (d1 ++ d2), d3, d4, d5.
      split. { rewrite Ht5, Ht4, Ht3, Htp, <- !app_assoc. reflexivity. }
      repeat split; auto. apply post_ev_not_android, Hd5. }
    destruct Hph as (pre & loop & ba & bi & Htr & Hap & Hl & Hab & Hi).
    exists (pre ++ loop ++ ba ++ bi). split; [exact Htr|].
    apply android_bundles_once; assumption.
  - intros names w res w' Hcargo Hvalid H. rewrite build_unfold in H.
    destruct (setup_rust_environment_spec h b (fun _ => True) w)
      as (w1 & d1 & Hsetup & Ht1 & Hb1 & Ha1 & _); auto.
    rewrite (bind_ok _ _ _ _ _ Hsetup), Hcargo in H. cbn [negb] in H.
    destruct (clean_step_spec b w1) as (w2 & d2 & Hclean & Ht2 & Hb2 & Ha2).
    rewrite (bind_ok _ _ _ _ _ Hclean), (valid_names_filter names Hvalid) in H.
    cbn [nonempty] in H.
    apply bind_inv in H as [(st & w3 & Hloop & H)|(e & _ & [=])].
    destruct (build_loop_spec h b _ _ _ _ _ Hloop) as (d3 & Ht3 & Hd3 & _).
    destruct (build_loop_turns h b _ _ _ _ _ Hloop)
      as (turns & Hnames & Hreg & Hrun & Hres & Hand & Hios).
    cbn [results android_targets ios_targets app] in Hres, Hand, Hios.
    apply bind_inv in H as [([] & w4 & Handroid & H)|(e & _ & [=])].
    destruct (android_step_spec b _ _ _ _ Handroid) as (d4 & Ht4 & Hb4 & Ha4 & Hok4).
    apply bind_inv in H as [([] & w5 & Hi & H)|(e & _ & [=])].
    destruct (ios_step_emits h b st _ _ _ Hi) as (d5 & Ht5 & Hd5).
    injection H as <- <-.
    assert (Hstep : if nonempty (built is_android turns)
                    then exists a, _package_android_bundle b (built is_android turns) w3
                                   = (Ok a, w4)
                    else w4 = w3).
    { unfold android_step in Handroid. rewrite Hand in Handroid.
      destruct (nonempty (built is_android turns)).
      - apply bind_inv in Handroid as [(a & wa & Hpk & Hret)|(e & _ & [=])].
        injection Hret as <-. exists a. exact Hpk.
      - injection Handroid as <-. reflexivity. }
    assert (Harch : archives d4
                    = if nonempty (built is_android turns)
                      then [android_archive b] else []).
    { destruct (built is_android turns) as [|t ts] eqn:Hb; cbn [nonempty].
      - unfold android_step in Handroid. rewrite Hand in Handroid.
        cbn [nonempty] in Handroid. injection Handroid as <-.
        rewrite <- (app_nil_r (trace w3)) in Ht4 at 1.
        apply app_inv_head in Ht4. subst d4. reflexivity.
      - apply Hok4; [rewrite Hand; discriminate|eexists; reflexivity]. }
    exists turns, w2, w3, w4, (d1 ++ d2), d5.
    split; [exact Hnames|]. split; [exact Hreg|].
    split; [rewrite Ht2, Ht1, <- app_assoc; reflexivity|].
    split; [rewrite builds_app, Hb1, Hb2; reflexivity|].
    split; [rewrite archives_app, Ha1, Ha2; reflexivity|].
    split; [exact Hrun|]. split; [exact Hstep|]. split; [exact Ht5|].
    split; [apply (post_ev_builds b), Hd5|].
    split; [apply post_ev_not_android, Hd5|]. split; [exact Hres|]. split.
    + intros n t Hn Ht Hp. rewrite Hres in Hn.
      apply turn_results_true in Hn as [Hn|(tn & Hin & Hname & Hok)].
      { rewrite lookup_empty in Hn. discriminate Hn. }
      rewrite Forall_forall in Hreg. specialize (Hreg tn Hin).
      rewrite Hname, Ht in Hreg. injection Hreg as ->.
      unfold built. apply list_elem_of_fmap. exists tn. split; [reflexivity|].
      apply list_elem_of_filter. split; [|exact Hin].
      rewrite Hok. unfold is_android. rewrite (bool_decide_eq_true_2 _ Hp). reflexivity.
    + intros d Hd.
      assert (Hdd : d = (d1 ++ d2) ++ d3 ++ d4 ++ d5).
      { apply (app_inv_head (trace w)). rewrite <- Hd, Ht5, Ht4, Ht3, Ht2, Ht1.
        rewrite <- !app_assoc. reflexivity. }
      rewrite Hdd. apply android_bundles_phases; auto.
      * rewrite archives_app, Ha1, Ha2. reflexivity.
      * destruct (nonempty _); auto.
      * apply post_ev_not_android, Hd5.
Qed.

Lemma build_packages_android_bundle_once_witness :
  let h := Stub.host (Stub.run_ok 0) in
  let b := Stub.builder_ndk in
  let w := mkWorld Stub.disk_toolchain [] in
  let rw := build h b ["android-x64"; "linux-x64"; "android-arm64"] w in
  rw.1 = Ok {[ "android-x64" := true; "linux-x64" := true; "android-arm64" := true ]} /\
  archives (trace rw.2)
  = [ ["/"; "proj"; "dist"; "rvpnse-linux-x64.tar.gz"];
      ["/"; "proj"; "dist"; "rvpnse-android.tar.gz"] ] /\
  exists d, trace rw.2 = trace w ++ d /\
            android_bundles b d = [ ["/"; "proj"; "dist"; "rvpnse-android.tar.gz"] ].
Proof.
  intros h b w rw.
  assert (Hres : rw.1 = Ok {[ "android-x64" := true; "linux-x64" := true;
                               "android-arm64" := true ]})
    by (vm_compute; reflexivity).
  split; [exact Hres|]. split; [vm_compute; reflexivity|].
  destruct (build_packages_android_bundle_once h b) as [Honce Hrun].
  destruct (Honce _ w rw.1 rw.2 (surjective_pairing _)) as (d & Htr & _).
  exists d. split; [exact Htr|].
  destruct (Hrun ["android-x64"; "linux-x64"; "android-arm64"] w
              {[ "android-x64" := true; "linux-x64" := true; "android-arm64" := true ]}
              rw.2)
    as (turns & w2 & w3 & w4 & pre & post & _ & _ & _ & _ & _ & _ & _ & _ & _ & _ & _
        & Hin & Hcount).
  - reflexivity.
  - intros n Hn. apply (dict_get_key TARGETS).
    repeat (apply elem_of_cons in Hn as [->|Hn];
            [apply (bool_decide_unpack _); vm_compute; exact I|]).
    inversion Hn.
  - apply pair_eq_fst. exact Hres.
  - rewrite (Hcount d Htr).
    specialize (Hin "android-x64" Stub.android_x64).
    destruct (built is_android turns).
    + exfalso. assert (Hx : Stub.android_x64 ∈ @nil Target)
        by (apply Hin; vm_compute; reflexivity).
      inversion Hx.
    + reflexivity.
Defined.

(** ** The iOS bundle *)

Lemma plain_ev_facts d :
  Forall plain_ev d -> builds d = [] /\ archives d = [] /\ binary_writes d = [].
Proof.
  induction 1 as [|e d He _ (IHb & IHa & IHw)]; [repeat split|].
  unfold plain_ev in He. apply orb_false_iff in He as [He Hw].
  apply orb_false_iff in He as [Hb Ha].
  unfold builds, binary_writes in *. cbn [List.filter]. rewrite Hb, Hw.
  repeat split; try assumption.
  unfold archives in *. cbn [omap list_omap]. destruct e; try exact IHa.
  discriminate Ha.
Qed.

Lemma binary_writes_app d1 d2 :
  binary_writes (d1 ++ d2) = binary_writes d1 ++ binary_writes d2.
Proof. apply List.filter_app. Qed.

Lemma returns_ret {A} (a : A) (P : A -> Prop) : P a -> returns (ret a) P.
Proof. intros HP w a' w' [= <- _]. exact HP. Qed.

Lemma returns_bind {A B} (m : M A) (k : A -> M B) (P : B -> Prop) :
  (forall a, returns (k a) P) -> returns (bind m k) P.
Proof.
  intros Hk w c w' H.
  apply bind_inv in H as [(a & w1 & _ & H)|(e & _ & [=])].
  exact (Hk a _ _ _ H).
Qed.

Lemma ios_finish_returns b : returns (ios_finish b) (fun a => a = Some (ios_archive b)).
Proof.
  unfold ios_finish. repeat (apply returns_bind; intros ?).
  apply returns_ret. reflexivity.
Qed.

Lemma ios_finish_archiving b : archiving (ios_finish b) [ios_archive b].
Proof.
  unfold ios_finish.
  repeat (apply archiving_bind_quiet; [solve [emits_quiet]|intros ?]).
  apply archiving_bind_archive; [apply ios_archive_roundtrip|].
  intros _. emits_quiet.
Qed.

Lemma not_binary_joinpath src p c :
  c <> "rVPNSE" -> is_binary_write (EvCopy src (p </> c)) = false.
Proof.
  intros Hc. cbn. rewrite basename_joinpath.
  apply bool_decide_eq_false_2. exact Hc.
Qed.

Lemma ios_finish_no_binary b :
  emits (fun e => is_binary_write e = false) (ios_finish b).
Proof.
  unfold ios_finish.
  repeat emits_step; try reflexivity; apply not_binary_joinpath; discriminate.
Qed.

(** The whole of [ios_finish]: the archive, and no framework binary. *)
Lemma ios_finish_spec b w r w' :
  ios_finish b w = (r, w') -> is_ok r ->
  exists d, trace w' = trace w ++ d /\ builds d = [] /\ binary_writes d = [] /\
            archives d = [ios_archive b] /\ r = Ok (Some (ios_archive b)).
Proof.
  intros H Hr.
  destruct (ios_finish_archiving b _ _ _ H) as (d & Ht & Hb & _ & Ha).
  destruct (ios_finish_no_binary b _ _ _ H) as (d' & Ht' & Hw).
  rewrite Ht in Ht'. apply app_inv_head in Ht' as <-.
  assert (Hnw : binary_writes d = []).
  { clear -Hw. unfold binary_writes.
    induction Hw as [|e l He _ IH]; [reflexivity|].
    cbn [List.filter]. rewrite He. exact IH. }
  exists d. repeat split; auto.
  destruct Hr as [a ->]. f_equal. exact (ios_finish_returns b _ _ _ H).
Qed.

Lemma mkdir_inv p parents exist_ok w r w' :
  mkdir p parents exist_ok w = (r, w') ->
  (exists e, r = Raise e) \/
  (r = Ok () /\
   (w' = w \/ exists f, w' = emit (EvMkdir p) f w /\
                        forall q, ~ q `prefix_of` p -> f !! q = fs w !! q)).
Proof.
  unfold mkdir. destruct (fs w !! p) as [k|] eqn:Hp.
  - destruct (exist_ok && _)%bool; intros [= <- <-]; [|left; eauto].
    right. split; [reflexivity|]. left. reflexivity.
  - destruct (_ || _)%bool; [|destruct parents]; intros [= <- <-];
      [right|right|left; eauto]; (split; [reflexivity|]); right;
      eexists; (split; [reflexivity|]); intros q Hq.
    + apply lookup_insert_ne. intros ->. apply Hq. reflexivity.
    + rewrite mkdirs_fs_lookup. destruct (fs w !! q); [reflexivity|].
      destruct (decide _) as [Hin|]; [|reflexivity].
      apply ancestors_and_self_prefix in Hin as [Hin _]. contradiction.
Qed.

Lemma mkdir_trace p parents exist_ok w w' :
  mkdir p parents exist_ok w = (Ok (), w') ->
  exists d, trace w' = trace w ++ d /\ Forall plain_ev d.
Proof.
  intros H. apply mkdir_inv in H as [[e [=]]|[_ [->|(f & -> & _)]]].
  - exists []. rewrite app_nil_r. auto.
  - exists [EvMkdir p]. split; [reflexivity|]. repeat constructor.
Qed.

Lemma layout_lib_not_prefix b t :
  layout b -> ~ ios_lib b t `prefix_of` ios_bundle_dir b.
Proof.
  intros [Hb Ho]. unfold ios_lib, ios_bundle_dir, joinpath.
  rewrite Hb, Ho. unfold joinpath. rewrite <- !app_assoc. cbn [app].
  intros Hp. apply prefix_app_inv in Hp. destruct Hp as [k Hk].
  discriminate Hk.
Qed.

Lemma run_command_none h b cmd w :
  exists code f,
    _run_command h b cmd None w
    = (Ok (bool_decide (code = Some 0)), emit (EvRun cmd (environ h) code) f w).
Proof.
  unfold _run_command. destruct (run_process _ _ _ _ _) as [code f].
  exists code, f. reflexivity.
Qed.

Section IosBundle.

Variable h : Host.
Variable b : rVPNSEBuilder.

Lemma ios_group_spec ts d0 s0 w :
  ios_group b ts (d0, s0) w
  = (Ok (d0 ++ with_lib b (device_group (fs w) b ts),
         s0 ++ with_lib b (simulator_group (fs w) b ts)), w).
Proof.
  unfold ios_group. cbv zeta.
  revert d0 s0. induction ts as [|t ts IH]; intros d0 s0.
  - cbn. rewrite !app_nil_r. reflexivity.
  - cbn [for_fold]. unfold bind at 1. unfold bind at 1. unfold path_exists at 1.
    fold (ios_lib b t).
    destruct (exists_ (fs w) (ios_lib b t)) eqn:He.
    + destruct (decide (rust_target t = "aarch64-apple-ios")) as [Hd|Hd].
      * assert (Hdev : device_group (fs w) b (t :: ts)
                       = t :: device_group (fs w) b ts).
        { apply filter_cons_True. split; assumption. }
        assert (Hsim : simulator_group (fs w) b (t :: ts)
                       = simulator_group (fs w) b ts).
        { apply filter_cons_False. intros [_ Hn]. exact (Hn Hd). }
        cbn [ret]. rewrite IH, Hdev, Hsim. unfold with_lib.
        rewrite fmap_cons, <- app_assoc. reflexivity.
      * assert (Hdev : device_group (fs w) b (t :: ts)
                       = device_group (fs w) b ts).
        { apply filter_cons_False. intros [_ Hn]. exact (Hd Hn). }
        assert (Hsim : simulator_group (fs w) b (t :: ts)
                       = t :: simulator_group (fs w) b ts).
        { apply filter_cons_True. split; assumption. }
        cbn [ret]. rewrite IH, Hdev, Hsim. unfold with_lib.
        rewrite fmap_cons, <- app_assoc. reflexivity.
    + assert (Hdev : device_group (fs w) b (t :: ts) = device_group (fs w) b ts).
      { apply filter_cons_False. intros [Hn _]. congruence. }
      assert (Hsim : simulator_group (fs w) b (t :: ts)
                     = simulator_group (fs w) b ts).
      { apply filter_cons_False. intros [Hn _]. congruence. }
      cbn [ret]. rewrite IH, Hdev, Hsim. reflexivity.
Qed.

Lemma with_lib_nonempty g : nonempty (with_lib b g) = nonempty g.
Proof. destruct g; reflexivity. Qed.

Lemma lipo_cmd_with_lib out g :
  lipo_cmd out (with_lib b g)
  = ["lipo"; "-create"; "-output"; str_of_path out]
    ++ (str_of_path <$> (ios_lib b <$> g)).
Proof.
  unfold lipo_cmd, with_lib. f_equal. f_equal.
  rewrite <- list_fmap_compose. reflexivity.
Qed.

(** One framework: its binary is made from its own group only; a failed
    merge ends the function with [None]. *)
Lemma ios_framework_spec fw g next w r w' :
  ios_framework h b fw (with_lib b g) next w = (r, w') -> is_ok r ->
  exists w1 d1 evs ok,
    trace w1 = trace w ++ d1 /\ builds d1 = [] /\ archives d1 = [] /\
    binary_writes d1 = evs /\ merge_step h b fw g evs ok /\
    (if ok then next w1 = (r, w') else r = Ok None /\ w' = w1).
Proof.
  unfold ios_framework. intros H Hr.
  destruct g as [|t g].
  - exists w, [], [], true. rewrite app_nil_r. repeat split; auto.
  - cbn [nonempty with_lib fmap list_fmap] in H.
    apply bind_inv in H as [([] & w0 & Hm & H)|(e & _ & ->)].
    2: { destruct Hr as [a Hr]. discriminate Hr. }
    destruct (mkdir_trace _ _ _ _ _ Hm) as (dm & Htm & Hdm).
    apply plain_ev_facts in Hdm as (Hbm & Ham & Hwm).
    destruct g as [|t' g].
    + apply bind_inv in H as [([] & w1 & Hc & H)|(e & Hc & _)]; [|discriminate Hc].
      injection Hc as <-.
      exists (emit (EvCopy (ios_lib b t) (framework_binary b fw))
                (<[(if is_dir (fs w0) (framework_binary b fw)
                    then framework_binary b fw </> basename (ios_lib b t)
                    else framework_binary b fw) := File]> (fs w0)) w0),
        (dm ++ [EvCopy (ios_lib b t) (framework_binary b fw)]),
        [EvCopy (ios_lib b t) (framework_binary b fw)], true.
      rewrite trace_emit, Htm, <- app_assoc, builds_app, archives_app,
        binary_writes_app, Hbm, Ham, Hwm.
      repeat split; auto.
      cbn. unfold framework_binary. rewrite basename_joinpath. reflexivity.
    + apply bind_inv in H as [(ok & w1 & Hl & H)|(e & Hl & _)];
        match type of Hl with
        | _run_command _ _ ?c _ _ = _ =>
            destruct (run_command_none h b c w0) as (code & f & Hrun)
        end; rewrite Hrun in Hl; [|discriminate Hl].
      injection Hl as <- <-.
      match type of Hrun with
      | _ = (_, ?w1) =>
          exists w1, (dm ++ [EvRun (lipo_cmd (framework_binary b fw)
                                      (with_lib b (t :: t' :: g)))
                               (environ h) code]),
            [EvRun (lipo_cmd (framework_binary b fw) (with_lib b (t :: t' :: g)))
                   (environ h) code],
            (bool_decide (code = Some 0))
      end.
      rewrite trace_emit, Htm, <- app_assoc, builds_app, archives_app,
        binary_writes_app, Hbm, Ham, Hwm.
      split; [reflexivity|]. split; [reflexivity|]. split; [reflexivity|].
      split; [reflexivity|]. split.
      * exists code. rewrite lipo_cmd_with_lib. split; reflexivity.
      * destruct (bool_decide (code = Some 0)); cbn [negb] in H; [exact H|].
        injection H as <- <-. split; reflexivity.
Qed.

Lemma groups_after_mkdir ts w w1 :
  layout b ->
  mkdir (ios_bundle_dir b) true true w = (Ok (), w1) ->
  device_group (fs w1) b ts = device_group (fs w) b ts /\
  simulator_group (fs w1) b ts = simulator_group (fs w) b ts.
Proof.
  intros Hl Hm.
  assert (He : forall t, exists_ (fs w1) (ios_lib b t) = exists_ (fs w) (ios_lib b t)).
  { intros t. unfold exists_.
    apply mkdir_inv in Hm as [[e [=]]|[_ [->|(f & -> & Hf)]]]; [reflexivity|].
    rewrite fs_emit, Hf; [reflexivity|]. apply layout_lib_not_prefix, Hl. }
  unfold device_group, simulator_group.
  split; apply list_filter_iff; intros t; rewrite He; reflexivity.
Qed.

End IosBundle.

(** C4: [_package_ios_bundle] splits the listed targets (targets of the
    registry, as [build] passes them) whose library is present into the
    device group (triple [aarch64-apple-ios]) and the
    simulator group (every other triple).  The events that write a
    framework binary are those of the device framework followed by those
    of the simulator framework, and each binary is made from its own group
    alone: a copy of the library when the group has one, one run of [lipo
    -create -output <binary>] followed by the libraries of the group, in
    order, when it has more.  A failing [lipo] ends the function at once
    with [None] and no archive; otherwise the bundle is archived. *)
Theorem ios_bundle_groups_never_mixed h b ts w r w' :
  layout b ->
  Forall (fun t => t ∈ TARGETS_values) ts ->
  _package_ios_bundle h b ts w = (r, w') ->
  is_ok r ->
  let dev :=
    filter (fun t => exists_ (fs w) (ios_lib b t) = true
                     /\ rust_target t = "aarch64-apple-ios") ts in
  let sim :=
    filter (fun t => exists_ (fs w) (ios_lib b t) = true
                     /\ rust_target t <> "aarch64-apple-ios") ts in
  exists d evd okd evs oks,
    trace w' = trace w ++ d /\ builds d = [] /\
    binary_writes d = evd ++ evs /\
    merge_step h b "rVPNSE-Device.framework" dev evd okd /\
    (if okd then merge_step h b "rVPNSE-Simulator.framework" sim evs oks
     else evs = [] /\ oks = false) /\
    (if (okd && oks && (nonempty dev || nonempty sim))%bool
     then r = Ok (Some (ios_archive b)) /\ archives d = [ios_archive b]
     else r = Ok None /\ archives d = []).
Proof.
  intros Hlay _ H Hr dev sim.
  change dev with (device_group (fs w) b ts) in *.
  change sim with (simulator_group (fs w) b ts) in *.
  clear dev sim.
  set (dev := device_group (fs w) b ts). set (sim := simulator_group (fs w) b ts).
  rewrite package_ios_bundle_unfold in H.
  apply bind_inv in H as [([] & w1 & Hm & H)|(e & _ & ->)].
  2: { destruct Hr as [a Hr]. discriminate Hr. }
  destruct (mkdir_trace _ _ _ _ _ Hm) as (dm & Htm & Hdm).
  apply plain_ev_facts in Hdm as (Hbm & Ham & Hwm).
  destruct (groups_after_mkdir b ts w w1 Hlay Hm) as [Hdev Hsim].
  rewrite (bind_ok _ _ _ _ _ (ios_group_spec b ts [] [] w1)) in H.
  cbn [app] in H. rewrite !with_lib_nonempty, Hdev, Hsim in H.
  fold dev sim in H.
  destruct (negb (nonempty dev) && negb (nonempty sim))%bool eqn:Hempty.
  - injection H as <- <-.
    apply andb_true_iff in Hempty as [Hd Hs].
    apply negb_true_iff in Hd, Hs.
    exists dm, [], true, [], true. rewrite Hd, Hs.
    destruct dev; [|discriminate Hd]. destruct sim; [|discriminate Hs].
    repeat split; auto.
  - assert (Hne : (nonempty dev || nonempty sim)%bool = true).
    { destruct (nonempty dev), (nonempty sim); try reflexivity.
      discriminate Hempty. }
    apply ios_framework_spec in H as (w2 & d1 & evd & okd & Ht1 & Hb1 & Ha1 & Hw1
                                       & Hmd & Hnext); [|exact Hr].
    destruct okd.
    + apply ios_framework_spec in Hnext
        as (w3 & d2 & evs & oks & Ht2 & Hb2 & Ha2 & Hw2 & Hms & Hfin); [|exact Hr].
      destruct oks.
      * destruct (ios_finish_spec b _ _ _ Hfin Hr)
          as (d3 & Ht3 & Hb3 & Hw3 & Ha3 & Hres).
        exists (dm ++ d1 ++ d2 ++ d3), evd, true, evs, true.
        rewrite Hne. cbn [andb].
        rewrite Ht3, Ht2, Ht1, Htm, <- !app_assoc.
        rewrite !builds_app, !binary_writes_app, !archives_app.
        rewrite Hbm, Hb1, Hb2, Hb3, Hwm, Hw1, Hw2, Hw3, Ham, Ha1, Ha2, Ha3.
        cbn [app]. rewrite ?app_nil_r. repeat split; auto.
      * destruct Hfin as [-> ->].
        exists (dm ++ d1 ++ d2), evd, true, evs, false.
        cbn [andb].
        rewrite Ht2, Ht1, Htm, <- !app_assoc.
        rewrite !builds_app, !binary_writes_app, !archives_app.
        rewrite Hbm, Hb1, Hb2, Hwm, Hw1, Hw2, Ham, Ha1, Ha2.
        cbn [app]. rewrite ?app_nil_r. repeat split; auto.
    + destruct Hnext as [-> ->].
      exists (dm ++ d1), evd, false, [], false.
      cbn [andb].
      rewrite Ht1, Htm, <- !app_assoc.
      rewrite !builds_app, !binary_writes_app, !archives_app.
      rewrite Hbm, Hb1, Hwm, Hw1, Ham, Ha1.
      cbn [app]. rewrite ?app_nil_r. repeat split; auto.
Qed.

Lemma ios_bundle_groups_never_mixed_witness :
  let h := Stub.host (Stub.run_ok 0) in
  let b := Stub.builder RELEASE in
  let ts := [Stub.ios_x64_sim; Stub.ios_arm64; Stub.ios_arm64_sim] in
  let w := mkWorld Stub.disk_ios [] in
  let rw := _package_ios_bundle h b ts w in
  exists d code,
    trace rw.2 = trace w ++ d /\
    binary_writes d
    = [ EvCopy ["/"; "proj"; "target"; "aarch64-apple-ios"; "release"; "librvpnse.dylib"]
          ["/"; "proj"; "dist"; "rvpnse-ios"; "rVPNSE-Device.framework"; "rVPNSE"];
        EvRun ["lipo"; "-create"; "-output";
               "/proj/dist/rvpnse-ios/rVPNSE-Simulator.framework/rVPNSE";
               "/proj/target/x86_64-apple-ios/release/librvpnse.dylib";
               "/proj/target/aarch64-apple-ios-sim/release/librvpnse.dylib"]
          ∅ code ].
Proof.
  intros h b ts w rw.
  destruct (ios_bundle_groups_never_mixed h b ts w rw.1 rw.2)
    as (d & evd & okd & evs & oks & Htr & _ & Hbw & Hmd & Hms & _).
  - split; reflexivity.
  - repeat constructor; apply (bool_decide_unpack _); vm_compute; exact I.
  - apply surjective_pairing.
  - exists (Some (ios_archive b)). vm_compute. reflexivity.
  - match type of Hmd with merge_step _ _ _ ?g _ _ =>
      assert (Hdev : g = [Stub.ios_arm64]) by (vm_compute; reflexivity)
    end.
    rewrite Hdev in Hmd. destruct Hmd as [-> ->].
    match type of Hms with merge_step _ _ _ ?g _ _ =>
      assert (Hsim : g = [Stub.ios_x64_sim; Stub.ios_arm64_sim])
        by (vm_compute; reflexivity)
    end.
    rewrite Hsim in Hms. destruct Hms as (code & -> & _).
    exists d, code. split; [exact Htr|]. rewrite Hbw. vm_compute. reflexivity.
Defined.

(** ** Staging directories on the paths that reach the archive *)

Lemma leaves_no_bind {A} p (m : M A) k :
  (forall a, leaves_no p (k a)) -> leaves_no p (bind m k).
Proof.
  intros Hk w a w' H.
  apply bind_inv in H as [(x & w1 & _ & H)|(e & _ & [=])].
  exact (Hk x _ _ _ H).
Qed.

Lemma leaves_no_rmtree p a : leaves_no p (rmtree p >> ret (Some a)).
Proof.
  intros w a' w' [= _ <-] q Hq. rewrite fs_emit, rmtree_fs_lookup.
  destruct (decide _); [reflexivity|contradiction].
Qed.

Lemma leaves_no_none p : leaves_no p (ret None).
Proof. intros w a w' [=]. Qed.

Ltac leaves_no_step :=
  first
    [ apply leaves_no_rmtree | apply leaves_no_none
    | apply leaves_no_bind; intros ?
    | match goal with
      | |- leaves_no _ (if ?c then _ else _) => destruct c
      | |- leaves_no _ (match ?c with _ => _ end) => destruct c
      end ].

(** The part of C9 that holds: each of the three packaging functions, when
    it returns its archive, has removed its staging or bundle directory. *)
Lemma packaging_removes_staging h b :
  (forall t, leaves_no (output_dir b </> ("rvpnse-" +:+ name t)) (_package_target b t)) /\
  (forall ts, leaves_no (output_dir b </> "rvpnse-android")
                (_package_android_bundle b ts)) /\
  (forall ts, leaves_no (ios_bundle_dir b) (_package_ios_bundle h b ts)).
Proof.
  split; [|split].
  - intros t. unfold _package_target. repeat leaves_no_step.
  - intros ts. unfold _package_android_bundle. repeat leaves_no_step.
  - intros ts. rewrite package_ios_bundle_unfold.
    assert (Hfin : leaves_no (ios_bundle_dir b) (ios_finish b)).
    { unfold ios_finish, ios_bundle_dir. repeat leaves_no_step. }
    assert (Hfw : forall fw g next,
              leaves_no (ios_bundle_dir b) next ->
              leaves_no (ios_bundle_dir b) (ios_framework h b fw g next)).
    { intros fw g next Hnext. unfold ios_framework.
      repeat (first [exact Hnext|leaves_no_step]). }
    apply leaves_no_bind; intros _. apply leaves_no_bind; intros [d s].
    destruct (_ && _)%bool; [apply leaves_no_none|].
    apply Hfw, Hfw, Hfin.
Qed.

(** * Further properties of the builder *)

(** ** Set-up of the Rust toolchain *)

Lemma commands_app d1 d2 : commands (d1 ++ d2) = commands d1 ++ commands d2.
Proof. apply omap_app. Qed.

Lemma rustup_loop_commands h b ts w :
  exists w1 d,
    for_each ts (fun rust_target =>
      let* _ := _run_command h b ["rustup"; "target"; "add"; rust_target] None in
      ret ()) w = (Ok (), w1) /\
    trace w1 = trace w ++ d /\ commands d = rustup_cmd <$> ts /\
    Forall (fun e => exists cmd code, e = EvRun cmd (environ h) code) d.
Proof.
  revert w. induction ts as [|rt ts IH]; intros w.
  - exists w, []. rewrite app_nil_r. repeat split. constructor.
  - cbn [for_each].
    destruct (run_command_none h b ["rustup"; "target"; "add"; rt] w)
      as (code & f & Hrun).
    destruct (IH (emit (EvRun ["rustup"; "target"; "add"; rt] (environ h) code) f w))
      as (w1 & d & Hloop & Htr & Hc & Hd).
    exists w1, (EvRun ["rustup"; "target"; "add"; rt] (environ h) code :: d).
    split; [|split; [|split]].
    + unfold bind at 1. unfold bind at 1. rewrite Hrun. cbn [ret]. exact Hloop.
    + rewrite Htr, trace_emit, <- app_assoc. reflexivity.
    + cbn. unfold commands in Hc. rewrite Hc. reflexivity.
    + constructor; [|exact Hd]. eauto.
Qed.

(** X1: once [cargo] is found, [_setup_rust_environment] runs
    [rustup target add] once for each triple of the registry, in registry
    order and with the process environment, whatever targets were asked
    for; it returns [True] whatever those runs exit with.  Without
    [cargo] it returns [False] and runs nothing. *)
Theorem setup_rust_adds_every_registry_triple h b w :
  exists w' d,
    _setup_rust_environment h b w = (Ok (cargo_found h), w') /\
    trace w' = trace w ++ d /\
    commands d = (if cargo_found h
                  then rustup_cmd <$> (rust_target <$> TARGETS_values) else []) /\
    List.length d = (if cargo_found h then List.length TARGETS else 0)%nat /\
    Forall (fun e => exists cmd code, e = EvRun cmd (environ h) code) d.
Proof.
  unfold _setup_rust_environment, cargo_found.
  assert (Hnone : exists w' d,
    (Ok false, w) = (Ok false, w') /\ trace w' = trace w ++ d /\ commands d = [] /\
    List.length d = 0%nat /\
    Forall (fun e => exists cmd code, e = EvRun cmd (environ h) code) d).
  { exists w, []. rewrite app_nil_r. repeat split. constructor. }
  destruct (which h "cargo") as [c|]; [|exact Hnone].
  destruct (str_truthy c); cbn [negb]; [|exact Hnone].
  destruct (rustup_loop_commands h b (rust_target <$> TARGETS_values) w)
    as (w1 & d & Hloop & Htr & Hc & Hd).
  exists w1, d. rewrite (bind_ok _ _ _ _ _ Hloop).
  split; [reflexivity|]. split; [exact Htr|]. split; [exact Hc|].
  split; [|exact Hd].
  assert (Hlen : List.length (commands d) = List.length d).
  { clear -Hd. induction Hd as [|e d (cmd & code & ->) _ IH]; [reflexivity|].
    cbn. f_equal. exact IH. }
  rewrite <- Hlen, Hc. reflexivity.
Qed.

(** ** The environment synthesizer *)

Section AndroidEnvironment.

Variable h : Host.
Variable b : rVPNSEBuilder.
Variable t : Target.

(** [_setup_android_environment], case by case. *)
Lemma setup_android_environment_cases w :
  _setup_android_environment h b t w =
  match android_ndk_root b with
  | None => (Raise (RuntimeError "Android NDK not found"), w)
  | Some ndk =>
      if exists_ (fs w) (toolchain_dir h ndk) then
        match dict_get (clang_targets t) (rust_target t) with
        | None => (Raise (KeyError (rust_target t)), w)
        | Some clang =>
            let bin := toolchain_dir h ndk </> "bin" in
            (Ok (<["CARGO_TARGET_" +:+ mangle (rust_target t) +:+ "_LINKER" :=
                     str_of_path (bin </> (clang +:+ "-clang"))]>
                (<["AR_" +:+ mangle (rust_target t) := str_of_path (bin </> "llvm-ar")]>
                (<["CXX_" +:+ mangle (rust_target t) :=
                     str_of_path (bin </> (clang +:+ "-clang++"))]>
                (<["CC_" +:+ mangle (rust_target t) :=
                     str_of_path (bin </> (clang +:+ "-clang"))]>
                (<["ANDROID_NDK_HOME" := str_of_path ndk]>
                (<["ANDROID_NDK_ROOT" := str_of_path ndk]> (environ h))))))), w)
        end
      else (Raise (RuntimeError ("Android toolchain not found: "
                                 +:+ str_of_path (toolchain_dir h ndk))), w)
  end.
Proof.
  unfold _setup_android_environment, toolchain_dir, clang_targets.
  destruct (android_ndk_root b) as [ndk|]; [|reflexivity].
  unfold bind, path_exists.
  destruct (decide (lower (system h) = "darwin"));
    (destruct (exists_ (fs w) _); [|reflexivity]);
    cbn [negb]; destruct (dict_get _ (rust_target t)); reflexivity.
Qed.

End AndroidEnvironment.

Lemma registry_android_in_table :
  Forall (fun t => platform t = ANDROID <->
                   is_Some (dict_get (clang_targets t) (rust_target t)))
    TARGETS_values.
Proof.
  repeat constructor; cbn; try discriminate; try (eexists; reflexivity);
    intros [x Hx]; discriminate Hx.
Qed.

(** X2: [_setup_android_environment] never touches the world and fails in
    exactly three ways: [RuntimeError] when no NDK was found, [RuntimeError]
    when the host toolchain directory ([darwin-x86_64] on macOS,
    [linux-x86_64] on every other host) does not exist, and [KeyError] for
    a triple outside its four-entry table.  For a target of the registry
    the last case is exactly the non-Android targets. *)
Theorem android_environment_failure_modes h b t w :
  let r := _setup_android_environment h b t w in
  r.2 = w /\
  match android_ndk_root b with
  | None => r.1 = Raise (RuntimeError "Android NDK not found")
  | Some ndk =>
      if exists_ (fs w) (toolchain_dir h ndk) then
        (is_ok r.1 <-> is_Some (dict_get (clang_targets t) (rust_target t))) /\
        (~ is_ok r.1 -> r.1 = Raise (KeyError (rust_target t))) /\
        (t ∈ TARGETS_values -> (is_ok r.1 <-> platform t = ANDROID))
      else r.1 = Raise (RuntimeError ("Android toolchain not found: "
                                      +:+ str_of_path (toolchain_dir h ndk)))
  end.
Proof.
  intros r. subst r. rewrite setup_android_environment_cases.
  destruct (android_ndk_root b) as [ndk|]; [|split; reflexivity].
  destruct (exists_ (fs w) (toolchain_dir h ndk)); [|split; reflexivity].
  assert (Hreg : t ∈ TARGETS_values ->
            (platform t = ANDROID <->
             is_Some (dict_get (clang_targets t) (rust_target t)))).
  { intros Ht. pose proof registry_android_in_table as H.
    rewrite Forall_forall in H. exact (H t Ht). }
  destruct (dict_get (clang_targets t) (rust_target t)) as [clang|] eqn:Hc;
    cbn [fst snd].
  - split; [reflexivity|]. split; [|split].
    + split; intros _; eexists; reflexivity.
    + intros Hn. exfalso. apply Hn. eexists. reflexivity.
    + intros Ht. rewrite (Hreg Ht). split; intros _; eexists; reflexivity.
  - split; [reflexivity|]. split; [|split].
    + split; intros [x Hx]; discriminate Hx.
    + reflexivity.
    + intros Ht. rewrite (Hreg Ht). split; intros [x Hx]; discriminate Hx.
Qed.

Lemma android_keys_distinct t : NoDup (android_keys t).
Proof.
  unfold android_keys. generalize (mangle (rust_target t)). intros m.
  repeat (apply NoDup_cons; split); [..|apply NoDup_nil_2];
    rewrite ?elem_of_cons, ?elem_of_nil; cbn;
    intros H; repeat (destruct H as [H|H]); try discriminate H; exact H.
Qed.

(** X3: the environment [_setup_android_environment] returns is the process
    environment with six distinct variables set: every other variable keeps the
    value it has in [os.environ]; the two NDK variables hold the NDK root;
    compiler, C++ compiler, archiver and linker are named after the mangled
    triple and point into [bin] of the host toolchain, the linker being the
    C compiler. *)
Theorem android_environment_contents h b t w env :
  (_setup_android_environment h b t w).1 = Ok env ->
  exists ndk clang,
    android_ndk_root b = Some ndk /\
    dict_get (clang_targets t) (rust_target t) = Some clang /\
    let bin := toolchain_dir h ndk </> "bin" in
    let m := mangle (rust_target t) in
    NoDup (android_keys t) /\
    (forall k, k ∉ android_keys t -> env !! k = environ h !! k) /\
    env !! "ANDROID_NDK_ROOT" = Some (str_of_path ndk) /\
    env !! "ANDROID_NDK_HOME" = Some (str_of_path ndk) /\
    env !! ("CC_" +:+ m) = Some (str_of_path (bin </> (clang +:+ "-clang"))) /\
    env !! ("CXX_" +:+ m) = Some (str_of_path (bin </> (clang +:+ "-clang++"))) /\
    env !! ("AR_" +:+ m) = Some (str_of_path (bin </> "llvm-ar")) /\
    env !! ("CARGO_TARGET_" +:+ m +:+ "_LINKER") = env !! ("CC_" +:+ m).
Proof.
  rewrite setup_android_environment_cases.
  destruct (android_ndk_root b) as [ndk|]; [|discriminate].
  destruct (exists_ (fs w) (toolchain_dir h ndk)); [|discriminate].
  destruct (dict_get (clang_targets t) (rust_target t)) as [clang|]; [|discriminate].
  cbn [fst]. intros [= <-]. exists ndk, clang. split; [reflexivity|].
  split; [reflexivity|]. cbv zeta.
  split; [apply android_keys_distinct|].
  unfold android_keys. set (m := mangle (rust_target t)).
  split; [|repeat split].
  - intros k Hk. rewrite !elem_of_cons in Hk.
    rewrite !lookup_insert_ne by (intros E; apply Hk; rewrite <- E; tauto).
    reflexivity.
  - rewrite !lookup_insert_ne by (cbn; discriminate). apply lookup_insert_eq.
  - rewrite !lookup_insert_ne by (cbn; discriminate). apply lookup_insert_eq.
  - rewrite !lookup_insert_ne by (cbn; discriminate). apply lookup_insert_eq.
  - rewrite !lookup_insert_ne by (cbn; discriminate). apply lookup_insert_eq.
  - rewrite !lookup_insert_ne by (cbn; discriminate). apply lookup_insert_eq.
  - rewrite lookup_insert_eq.
    rewrite !lookup_insert_ne by (cbn; discriminate).
    rewrite lookup_insert_eq. reflexivity.
Qed.

Lemma android_environment_failure_modes_witness :
  let r := _setup_android_environment (Stub.host (Stub.run_ok 0)) Stub.builder_ndk
             Stub.android_x64 (mkWorld Stub.disk_toolchain []) in
  is_ok r.1.
Proof.
  intros r.
  destruct (android_environment_failure_modes (Stub.host (Stub.run_ok 0))
              Stub.builder_ndk Stub.android_x64 (mkWorld Stub.disk_toolchain []))
    as [_ H].
  change (android_ndk_root Stub.builder_ndk) with (Some Stub.sdk_ndk) in H.
  cbv iota beta in H.
  assert (He : exists_ (fs (mkWorld Stub.disk_toolchain []))
                 (toolchain_dir (Stub.host (Stub.run_ok 0)) Stub.sdk_ndk) = true)
    by (vm_compute; reflexivity).
  rewrite He in H. destruct H as (_ & _ & H).
  apply H; [|reflexivity].
  apply (bool_decide_unpack _). vm_compute. exact I.
Defined.

Lemma android_environment_contents_witness :
  exists env,
    (_setup_android_environment (Stub.host (Stub.run_ok 0)) Stub.builder_ndk
       Stub.android_x64 (mkWorld Stub.disk_toolchain [])).1 = Ok env /\
    env !! "CC_X86_64_LINUX_ANDROID"
    = Some ("/home/dev/Android/Sdk/ndk/25.2.9519653/toolchains/llvm/prebuilt/"
            +:+ "linux-x86_64/bin/x86_64-linux-android21-clang") /\
    env !! "PATH" = None.
Proof.
  destruct (_setup_android_environment (Stub.host (Stub.run_ok 0)) Stub.builder_ndk
              Stub.android_x64 (mkWorld Stub.disk_toolchain [])).1
    as [env|e] eqn:Henv.
  - exists env. split; [reflexivity|].
    destruct (android_environment_contents _ _ _ _ _ Henv)
      as (ndk & clang & Hndk & Hclang & _ & Hframe & _ & _ & Hcc & _).
    injection Hndk as <-. vm_compute in Hclang. injection Hclang as <-.
    split.
    + exact Hcc.
    + rewrite Hframe; [reflexivity|].
      apply (bool_decide_unpack _). vm_compute. exact I.
  - exfalso. vm_compute in Henv. discriminate Henv.
Defined.

(** ** Construction of the builder and the entry point *)

Lemma find_android_ndk_total h w : exists ndk, _find_android_ndk h w = (Ok ndk, w).
Proof.
  unfold _find_android_ndk.
  pose proof (find_android_ndk_scan_find (possible_paths h) w) as Hscan.
  destruct (environ h !! "ANDROID_NDK_ROOT") as [s|]; [|eauto].
  destruct (str_truthy s); [|eauto].
  unfold bind, path_exists. destruct (exists_ _ _); eauto.
Qed.

Lemma init_cases h root m w :
  exists ndk, _find_android_ndk h w = (Ok ndk, w) /\
    __init__ h root m w =
    if exists_ (fs w) (root </> "Cargo.toml")
    then (Ok (mkBuilder root m (root </> "target") (root </> "dist") ndk), w)
    else (Raise (RuntimeError ("Cargo.toml not found in " +:+ str_of_path root)), w).
Proof.
  destruct (find_android_ndk_total h w) as [ndk Hndk]. exists ndk.
  split; [exact Hndk|]. unfold __init__.
  rewrite (bind_ok _ _ _ _ _ Hndk). unfold bind, path_exists.
  destruct (exists_ _ _); reflexivity.
Qed.

(** X4: a builder exists only for a directory that holds [Cargo.toml]:
    [__init__] raises [RuntimeError] otherwise.  The builder it returns has
    the build directory [target] and the output directory [dist] under the
    project root, holds what the toolchain locator found, and constructing
    it changes nothing. *)
Theorem init_builder_layout h root m w :
  let r := __init__ h root m w in
  r.2 = w /\
  (exists_ (fs w) (root </> "Cargo.toml") = false ->
   r.1 = Raise (RuntimeError ("Cargo.toml not found in " +:+ str_of_path root))) /\
  (exists_ (fs w) (root </> "Cargo.toml") = true ->
   exists b, r.1 = Ok b /\ layout b /\ project_root b = root /\ mode b = m /\
             (_find_android_ndk h w).1 = Ok (android_ndk_root b)).
Proof.
  intros r. subst r. destruct (init_cases h root m w) as (ndk & Hndk & ->).
  destruct (exists_ _ _); cbn [fst snd].
  - split; [reflexivity|]. split; [discriminate|]. intros _.
    eexists. split; [reflexivity|]. rewrite Hndk. repeat split.
  - split; [reflexivity|]. split; [reflexivity|discriminate].
Qed.

Lemma init_builder_layout_witness :
  exists b,
    (__init__ (Stub.host (Stub.run_ok 0)) Stub.proj DEBUG Stub.world).1 = Ok b /\
    build_dir b = ["/"; "proj"; "target"] /\ output_dir b = ["/"; "proj"; "dist"].
Proof.
  destruct (init_builder_layout (Stub.host (Stub.run_ok 0)) Stub.proj DEBUG Stub.world)
    as (_ & _ & H).
  destruct H as (b & Hb & [Hbd Hod] & Hroot & _); [vm_compute; reflexivity|].
  exists b. rewrite Hbd, Hod, Hroot. repeat split. exact Hb.
Defined.

(** X5: once [argparse] has accepted the command line (so not for
    [--help] or a rejected option, which leave before), [main] builds the
    builder before it looks at [--list] or [--clean]: run from a root
    without [Cargo.toml] it ends with the uncaught [RuntimeError] (exit
    status 1) whatever the parsed arguments are, having changed nothing. *)
Theorem main_requires_cargo_toml h args w :
  exists_ (fs w) (main_root h </> "Cargo.toml") = false ->
  main h args w
  = (Raise (RuntimeError ("Cargo.toml not found in " +:+ str_of_path (main_root h))), w)
  /\ script h args w = (1, w).
Proof.
  intros He. unfold script, main. fold (main_root h).
  destruct (init_cases h (main_root h) (arg_mode args) w) as (ndk & _ & Hinit).
  rewrite He in Hinit. rewrite (bind_raise _ _ _ _ _ Hinit). split; reflexivity.
Qed.

Lemma main_requires_cargo_toml_witness :
  script (Stub.host (Stub.run_ok 0))
    (mkArgs RELEASE None true false false false false false false)
    (mkWorld ∅ [])
  = (1, mkWorld ∅ []).
Proof.
  apply (main_requires_cargo_toml (Stub.host (Stub.run_ok 0))).
  vm_compute. reflexivity.
Defined.

Lemma default_targets_unsupported h :
  lower (system h) <> "darwin" -> lower (system h) <> "linux" ->
  lower (system h) <> "windows" -> default_targets h = [].
Proof.
  intros Hd Hl Hw. unfold default_targets.
  repeat (destruct (decide _); [contradiction|]). reflexivity.
Qed.

(** X6: on a host that is neither macOS, Linux nor Windows, a command line
    without selection leaves [main] with no target: it returns 1 without
    setting up Rust, clearing the output directory or building. *)
Theorem main_unsupported_host h args w :
  lower (system h) <> "darwin" -> lower (system h) <> "linux" ->
  lower (system h) <> "windows" ->
  no_selection args -> arg_list args = false -> arg_clean args = false ->
  script h args w = (1, w).
Proof.
  intros Hd Hl Hw (Ha & Hde & Han & Hi & Ht) Hlist Hclean.
  unfold script, main. fold (main_root h).
  destruct (init_cases h (main_root h) (arg_mode args) w) as (ndk & _ & Hinit).
  destruct (exists_ (fs w) (main_root h </> "Cargo.toml")).
  - rewrite (bind_ok _ _ _ _ _ Hinit), Hlist, Hclean.
    assert (Hsel : targets_to_build h args = []).
    { unfold targets_to_build. rewrite Ha, Hde, Han, Hi.
      rewrite (default_targets_unsupported h Hd Hl Hw).
      destruct Ht as [-> | ->]; reflexivity. }
    rewrite Hsel. reflexivity.
  - rewrite (bind_raise _ _ _ _ _ Hinit). reflexivity.
Qed.

Lemma main_unsupported_host_witness :
  script Stub.host_bsd Stub.no_args Stub.world = (1, Stub.world).
Proof.
  apply main_unsupported_host; try discriminate; try reflexivity.
  repeat split. left. reflexivity.
Defined.

Lemma names_where_registry P n : n ∈ names_where P -> n ∈ TARGETS_keys.
Proof.
  unfold names_where, TARGETS_keys. intros H.
  apply list_elem_of_fmap in H as ([k t] & -> & H).
  apply list_elem_of_filter in H as [_ H].
  apply list_elem_of_fmap. exists (k, t). split; [reflexivity|exact H].
Qed.

Lemma default_targets_registry h n : n ∈ default_targets h -> n ∈ TARGETS_keys.
Proof.
  unfold default_targets. intros H.
  repeat (destruct (decide _));
    try (apply list_elem_of_singleton in H as ->;
         apply (bool_decide_unpack _); vm_compute; exact I).
  inversion H.
Qed.

(** X7: the names [main] chooses itself are all registered.  With any of
    [--all], [--all-desktop], [--all-android], [--all-ios] the names given
    to [--targets] are ignored, and then, as when [--targets] is absent,
    every name passed to [build] is a key of [TARGETS]: such a batch is
    never rejected by the validation of [build]. *)
Theorem selection_without_targets_is_valid h args :
  (group_flag args = true ->
   forall given,
     targets_to_build h args
     = targets_to_build h
         (mkArgs (arg_mode args) given (arg_list args) (arg_clean args)
            (arg_all_desktop args) (arg_all_android args) (arg_all_ios args)
            (arg_all args) (arg_verbose args))) /\
  (group_flag args = true \/ arg_targets args = None \/ arg_targets args = Some [] ->
   (forall n, n ∈ targets_to_build h args -> is_Some (dict_get TARGETS n)) /\
   filter (fun name => dict_get TARGETS name = None) (targets_to_build h args) = []).
Proof.
  split.
  - unfold group_flag, targets_to_build. intros Hg given.
    cbn [arg_all arg_all_desktop arg_all_android arg_all_ios arg_targets].
    destruct (arg_all args); [reflexivity|].
    destruct (arg_all_desktop args); [reflexivity|].
    destruct (arg_all_android args); [reflexivity|].
    destruct (arg_all_ios args); [reflexivity|discriminate Hg].
  - intros Hsel.
    assert (Hkeys : forall n, n ∈ targets_to_build h args -> n ∈ TARGETS_keys).
    { unfold group_flag, targets_to_build in *. intros n.
      destruct (arg_all args); [auto|].
      destruct (arg_all_desktop args); [apply names_where_registry|].
      destruct (arg_all_android args); [apply names_where_registry|].
      destruct (arg_all_ios args); [apply names_where_registry|].
      destruct Hsel as [Hsel|[-> | ->]]; [discriminate Hsel| |];
        apply default_targets_registry. }
    assert (Hvalid : forall n, n ∈ targets_to_build h args ->
                               is_Some (dict_get TARGETS n)).
    { intros n Hn. apply dict_get_key, Hkeys, Hn. }
    split; [exact Hvalid|].
    induction (targets_to_build h args) as [|n l IH]; [reflexivity|].
    rewrite filter_cons_False.
    + apply IH. intros m Hm. apply Hkeys. right. exact Hm.
      intros m Hm. apply Hvalid. right. exact Hm.
    + destruct (Hvalid n) as [t Ht]; [left|]. rewrite Ht. discriminate.
Qed.

Lemma selection_without_targets_is_valid_witness :
  let args := mkArgs RELEASE (Some ["bogus"]) false false false true false false false in
  targets_to_build (Stub.host (Stub.run_ok 0)) args
  = ["android-arm64"; "android-arm"; "android-x64"; "android-x86"] /\
  filter (fun name => dict_get TARGETS name = None)
    (targets_to_build (Stub.host (Stub.run_ok 0)) args) = [].
Proof.
  intros args.
  destruct (selection_without_targets_is_valid (Stub.host (Stub.run_ok 0)) args)
    as [Hign Hval].
  split.
  - rewrite (Hign eq_refl None). reflexivity.
  - apply Hval. left. reflexivity.
Defined.

(** ** The build executor, equationally *)

Section BuildTargetEq.

Variable h : Host.
Variable b : rVPNSEBuilder.
Variable t : Target.

Lemma build_target_eq w :
  _build_target h b t w =
  if decide (platform t = ANDROID) then
    match android_ndk_root b with
    | None => (Ok false, cleaned b t w)
    | Some _ =>
        match (_setup_android_environment h b t (cleaned b t w)).1 with
        | Ok env => run_build h b t env (cleaned b t w)
        | Raise e => (Raise e, cleaned b t w)
        end
    end
  else run_build h b t (environ h) (cleaned b t w).
Proof.
  assert (Hexec : forall env w0,
    (let* success := _run_command h b (cargo_cmd b t) (Some env) in
     if success then
       let* e := path_exists (lib_path b t) in
       if e then ret true else ret false
     else ret false) w0 = run_build h b t env w0).
  { intros env w0. unfold bind, _run_command, path_exists, ret, run_build, tool_env.
    destruct (run_process _ _ _ _ _) as [code f]. cbn [fst snd].
    destruct (bool_decide (code = Some 0)); cbn [fs emit andb]; [|reflexivity].
    destruct (exists_ f (lib_path b t)); reflexivity. }
  unfold _build_target. unfold bind at 1. unfold path_exists at 1.
  unfold bind at 1.
  assert (Hc : (if exists_ (fs w) (build_dir b </> rust_target t)
                then rmtree (build_dir b </> rust_target t) else ret ()) w
               = (Ok (), cleaned b t w)).
  { unfold cleaned. destruct (exists_ _ _); reflexivity. }
  rewrite Hc.
  destruct (decide (platform t = ANDROID)) as [Ha|Ha]; [|apply Hexec].
  destruct (android_ndk_root b) eqn:Hndk; [|reflexivity].
  unfold bind at 1.
  destruct (_setup_android_environment h b t (cleaned b t w)) as [[env|ex] w1] eqn:Hs.
  - apply setup_android_environment_world in Hs as ->. apply Hexec.
  - apply setup_android_environment_world in Hs as ->. reflexivity.
Qed.

Lemma cleaned_lookup w q :
  fs (cleaned b t w) !! q = fs w !! q \/ fs (cleaned b t w) !! q = None.
Proof.
  unfold cleaned. destruct (exists_ _ _); [|left; reflexivity].
  rewrite fs_emit, rmtree_fs_lookup. destruct (decide _); [right|left]; reflexivity.
Qed.

Lemma lib_path_under_target_dir :
  build_dir b </> rust_target t `prefix_of` lib_path b t.
Proof.
  unfold lib_path, joinpath. rewrite <- !app_assoc.
  apply prefix_app. exists [mode_value (mode b); _get_library_name t].
  reflexivity.
Qed.

(** After the clean-up of lines 190-192 a tree holds no library of the
    target. *)
Lemma cleaned_no_library w :
  tree (fs w) -> fs (cleaned b t w) !! lib_path b t = None.
Proof.
  intros Htree. unfold cleaned.
  destruct (exists_ (fs w) (build_dir b </> rust_target t)) eqn:He.
  - rewrite fs_emit, rmtree_fs_lookup.
    destruct (decide _) as [|Hn]; [reflexivity|].
    exfalso. apply Hn, lib_path_under_target_dir.
  - destruct (fs w !! lib_path b t) as [k|] eqn:Hl; [|reflexivity].
    exfalso. unfold exists_ in He. apply bool_decide_eq_false in He. apply He.
    apply (Htree _ (lib_path b t)); [apply joinpath_not_nil| |eauto].
    apply lib_path_under_target_dir.
Qed.

End BuildTargetEq.

(** X8: a library left by an earlier build never counts.  On a file system
    that is a tree, if the build tool does not itself leave the library at
    the expected path, [_build_target] does not report success, whatever was
    there before: the output directory of the triple is removed before the
    tool runs. *)
Theorem stale_library_never_counts h b t w :
  tree (fs w) ->
  (forall env f, f !! lib_path b t = None ->
     (run_process h (cargo_cmd b t) (project_root b) env f).2 !! lib_path b t = None) ->
  (_build_target h b t w).1 <> Ok true.
Proof.
  intros Htree Htool. rewrite build_target_eq.
  assert (Hrun : forall env, (run_build h b t env (cleaned b t w)).1 <> Ok true).
  { intros env. unfold run_build. cbn [fst].
    pose proof (Htool (tool_env h env) _ (cleaned_no_library b t w Htree)) as Hn.
    unfold exists_. rewrite Hn.
    rewrite (bool_decide_eq_false_2 (is_Some None)) by (intros [x Hx]; discriminate Hx).
    rewrite andb_false_r. discriminate. }
  destruct (decide (platform t = ANDROID)); [|apply Hrun].
  destruct (android_ndk_root b); [|discriminate].
  destruct (_setup_android_environment h b t (cleaned b t w)).1; [apply Hrun|].
  discriminate.
Qed.

(** ** The loop of [build] *)

Section LoopExtras.

Variable h : Host.
Variable b : rVPNSEBuilder.

Lemma cleaned_exists_false t w p :
  exists_ (fs w) p = false -> exists_ (fs (cleaned b t w)) p = false.
Proof.
  unfold exists_. intros H. apply bool_decide_eq_false in H.
  apply bool_decide_eq_false_2.
  destruct (cleaned_lookup b t w p) as [->| ->]; [exact H|].
  intros [x Hx]. discriminate Hx.
Qed.

Lemma cleaned_commands t w :
  exists d, trace (cleaned b t w) = trace w ++ d /\ commands d = [].
Proof.
  destruct (cleaned_trace b t w) as [E|E]; rewrite E.
  - exists []. rewrite app_nil_r. split; reflexivity.
  - eexists [_]. split; reflexivity.
Qed.

Lemma builds_commands_run cmd env code :
  commands (builds [EvRun ("cargo" :: "build" :: cmd) env code])
  = ["cargo" :: "build" :: cmd].
Proof. reflexivity. Qed.

(** What a non-raising [_build_target] runs. *)
Lemma build_target_commands t w s wb :
  _build_target h b t w = (Ok s, wb) ->
  exists d, trace wb = trace w ++ d /\
    commands (builds d) = if decide (attempted b t) then [cargo_cmd b t] else [].
Proof.
  rewrite build_target_eq. intros H.
  destruct (cleaned_trace b t w) as [E|E].
  - assert (Hrun : forall env, run_build h b t env (cleaned b t w) = (Ok s, wb) ->
        exists d, trace wb = trace w ++ d /\ commands (builds d) = [cargo_cmd b t]).
    { intros env [= _ <-]. rewrite trace_emit, E. eexists [_].
      split; reflexivity. }
    destruct (decide (platform t = ANDROID)) as [Ha|Ha].
    + destruct (android_ndk_root b) eqn:Hn.
      * rewrite decide_True
          by (unfold attempted; rewrite Hn; intros [_ Hx]; discriminate Hx).
        destruct (_setup_android_environment h b t (cleaned b t w)).1;
          [eapply Hrun; exact H|discriminate H].
      * rewrite decide_False by (unfold attempted; intros Hx; apply Hx; split; auto).
        injection H as _ <-. exists []. rewrite E, app_nil_r. split; reflexivity.
    + rewrite decide_True by (unfold attempted; intros [Hx _]; contradiction).
      eapply Hrun; exact H.
  - assert (Hrun : forall env, run_build h b t env (cleaned b t w) = (Ok s, wb) ->
        exists d, trace wb = trace w ++ d /\ commands (builds d) = [cargo_cmd b t]).
    { intros env [= _ <-]. rewrite trace_emit, E, <- app_assoc. eexists [_; _].
      split; reflexivity. }
    destruct (decide (platform t = ANDROID)) as [Ha|Ha].
    + destruct (android_ndk_root b) eqn:Hn.
      * rewrite decide_True
          by (unfold attempted; rewrite Hn; intros [_ Hx]; discriminate Hx).
        destruct (_setup_android_environment h b t (cleaned b t w)).1;
          [eapply Hrun; exact H|discriminate H].
      * rewrite decide_False by (unfold attempted; intros Hx; apply Hx; split; auto).
        injection H as _ <-. eexists [_]. rewrite E. split; reflexivity.
    + rewrite decide_True by (unfold attempted; intros [Hx _]; contradiction).
      eapply Hrun; exact H.
Qed.

Lemma builds_idem d : builds (builds d) = builds d.
Proof.
  unfold builds. induction d as [|e d IH]; [reflexivity|].
  cbn [List.filter]. destruct (is_build e) eqn:He; [|exact IH].
  cbn [List.filter]. rewrite He, IH. reflexivity.
Qed.

(** The loop, when it does not raise: the build tool is run once for each
    name that has to be attempted, in request order, and the result mapping
    gains exactly the requested names. *)
Lemma build_loop_attempts names st w st' w' :
  for_fold names st (build_body h b) w = (Ok st', w') ->
  exists d ts,
    trace w' = trace w ++ d /\
    Forall2 (fun n t => dict_get TARGETS n = Some t) names ts /\
    commands (builds d) = cargo_cmd b <$> filter (attempted b) ts /\
    forall n, is_Some (results st' !! n) <->
              is_Some (results st !! n) \/ n ∈ names.
Proof.
  revert st w. induction names as [|n names IH]; intros st w H; cbn [for_fold] in H.
  - injection H as <- <-. exists [], []. rewrite app_nil_r.
    split; [reflexivity|]. split; [constructor|]. split; [reflexivity|].
    intros m. split; [auto|]. intros [Hx|Hx]; [exact Hx|inversion Hx].
  - apply bind_inv in H as [(st1 & w1 & H1 & H2)|(e & _ & [=])].
    destruct (dict_get TARGETS n) as [t|] eqn:Hn.
    2: { unfold build_body in H1. rewrite Hn in H1. discriminate H1. }
    destruct (build_body_spec h b n t st w _ _ Hn H1)
      as (rb & wb & seg & Hb & Hts & Hbs & _ & Hst).
    destruct (Hst st1 eq_refl) as (success & -> & Hres & _).
    destruct (build_target_commands t w success wb Hb) as (d0 & Ht0 & Hc0).
    destruct (IH _ _ H2) as (d & ts & Htd & Hf2 & Hcd & Hdom).
    exists (d0 ++ seg ++ d), (t :: ts).
    split; [rewrite Htd, Hts, Ht0, <- !app_assoc; reflexivity|].
    split; [constructor; assumption|]. split.
    + rewrite !builds_app, Hbs, !commands_app, Hc0, Hcd. cbn [app commands omap].
      destruct (decide (attempted b t)) as [Ha|Ha].
      * rewrite (filter_cons_True _ _ _ Ha). reflexivity.
      * rewrite (filter_cons_False _ _ _ Ha). reflexivity.
    + intros m. rewrite Hdom, Hres, elem_of_cons.
      destruct (decide (n = m)) as [->|Hne].
      * rewrite lookup_insert_eq. split; [auto|]. intros _. left. eauto.
      * rewrite lookup_insert_ne by exact Hne. split.
        -- intros [Hx|Hx]; auto.
        -- intros [Hx|[Hx|Hx]]; auto. congruence.
Qed.

End LoopExtras.

(** ** Runs of [build] on a valid batch *)

(** A run on registered names that returns: every attempt in request
    order, and one entry per requested name. *)
Lemma build_valid_run h b names w res w' :
  cargo_found h = true -> valid_names names ->
  build h b names w = (Ok res, w') ->
  exists d ts,
    trace w' = trace w ++ d /\
    Forall2 (fun n t => dict_get TARGETS n = Some t) names ts /\
    commands (builds d) = cargo_cmd b <$> filter (attempted b) ts /\
    forall n, is_Some (res !! n) <-> n ∈ names.
Proof.
  intros Hcargo Hvalid H. rewrite build_unfold in H.
  destruct (setup_rust_environment_spec h b (fun _ => True) w)
    as (w1 & d1 & Hsetup & Ht1 & Hb1 & _); auto.
  rewrite (bind_ok _ _ _ _ _ Hsetup), Hcargo in H. cbn [negb] in H.
  destruct (clean_step_spec b w1) as (w2 & d2 & Hclean & Ht2 & Hb2 & _).
  rewrite (bind_ok _ _ _ _ _ Hclean), (valid_names_filter names Hvalid) in H.
  cbn [nonempty] in H.
  apply bind_inv in H as [(st & w3 & Hloop & H)|(e & _ & [=])].
  destruct (build_loop_attempts h b _ _ _ _ _ Hloop)
    as (d3 & ts & Ht3 & Hts & Hc3 & Hdom).
  apply bind_inv in H as [([] & w4 & Handroid & H)|(e & _ & [=])].
  destruct (android_step_spec b _ _ _ _ Handroid) as (d4 & Ht4 & Hb4 & _).
  apply bind_inv in H as [([] & w5 & Hios & H)|(e & _ & [=])].
  destruct (ios_step_emits h b st _ _ _ Hios) as (d5 & Ht5 & Hd5).
  apply (post_ev_builds b) in Hd5.
  injection H as <- <-.
  exists (d1 ++ d2 ++ d3 ++ d4 ++ d5), ts.
  split; [rewrite Ht5, Ht4, Ht3, Ht2, Ht1, <- !app_assoc; reflexivity|].
  split; [exact Hts|]. split.
  - rewrite !builds_app, Hb1, Hb2, Hb4, Hd5, app_nil_r. exact Hc3.
  - intros n. rewrite Hdom. cbn [results]. rewrite lookup_empty. split.
    + intros [[x Hx]|Hn]; [discriminate Hx|exact Hn].
    + auto.
Qed.

(** X9: one failed target does not stop the batch.  When [cargo] is found
    and every requested name is registered, a run of [build] that returns
    has run the build tool once for each requested target, in request order
    and whatever the earlier runs exited with (skipping only Android
    targets when no NDK was found), and its result mapping has an entry for
    exactly the requested names. *)
Theorem build_attempts_every_target h b names w res w' :
  cargo_found h = true -> valid_names names ->
  build h b names w = (Ok res, w') ->
  exists d ts,
    trace w' = trace w ++ d /\
    Forall2 (fun n t => dict_get TARGETS n = Some t) names ts /\
    commands (builds d) = cargo_cmd b <$> filter (attempted b) ts /\
    forall n, is_Some (res !! n) <-> n ∈ names.
Proof. apply build_valid_run. Qed.

Lemma count_true_iff (res : gmap string bool) :
  size (filter (fun kv : string * bool => kv.2 = true) res) = size res <->
  forall n v, res !! n = Some v -> v = true.
Proof.
  split.
  - intros Hsize n v Hn.
    assert (Heq : filter (fun kv : string * bool => kv.2 = true) res = res).
    { apply map_subseteq_size_eq; [apply map_filter_subseteq|lia]. }
    rewrite <- Heq in Hn. apply map_lookup_filter_Some in Hn as [_ Hv]. exact Hv.
  - intros Hall. rewrite map_filter_id; [reflexivity|].
    intros n v Hn. exact (Hall n v Hn).
Qed.

(** X10: for a batch of registered names on a host with [cargo], the exit
    status tells whether everything succeeded: when [build] returns, [main]
    exits with 0 if every requested name maps to [True], and with 1
    otherwise. *)
Theorem exit_zero_iff_all_succeeded h args w b w0 res w1 :
  __init__ h (main_root h) (arg_mode args) w = (Ok b, w0) ->
  arg_list args = false -> arg_clean args = false ->
  cargo_found h = true ->
  valid_names (targets_to_build h args) -> targets_to_build h args <> [] ->
  build h b (targets_to_build h args) w0 = (Ok res, w1) ->
  let status := (script h args w).1 in
  (status = 0 \/ status = 1) /\
  (status = 0 <-> forall n, n ∈ targets_to_build h args -> res !! n = Some true).
Proof.
  intros Hinit Hl Hc Hcargo Hvalid Hne Hb status. subst status.
  destruct (build_valid_run h b _ _ _ _ Hcargo Hvalid Hb) as (_ & _ & _ & _ & _ & Hdom).
  unfold script, main. fold (main_root h).
  rewrite (bind_ok _ _ _ _ _ Hinit), Hl, Hc.
  destruct (targets_to_build h args) as [|n0 names] eqn:Hsel; [congruence|].
  cbn [nonempty negb]. rewrite (bind_ok _ _ _ _ _ Hb). cbn [ret exit_status fst].
  destruct (decide (size (filter (fun kv : string * bool => kv.2 = true) res)
                    = size res)) as [Hs|Hs].
  - split; [left; reflexivity|]. split; [|reflexivity]. intros _ n Hn.
    apply Hdom in Hn as [v Hv]. rewrite Hv. f_equal.
    exact (proj1 (count_true_iff res) Hs n v Hv).
  - split; [right; reflexivity|]. split; [discriminate|]. intros Hall.
    exfalso. apply Hs. apply count_true_iff. intros n v Hn.
    assert (Hin : n ∈ n0 :: names) by (apply Hdom; eauto).
    rewrite (Hall n Hin) in Hn. congruence.
Qed.

(** X11: a found NDK whose host toolchain directory is missing is fatal to
    the batch: the loop of [build] stops at the first such Android target
    with the [RuntimeError] of [_setup_android_environment], after removing
    that target's stale output (which must not be a regular file, or
    [rmtree] fails first); the build tool is not run for it and the
    remaining names are never reached. *)
Theorem android_toolchain_missing_aborts_batch h b n t ndk rest st w :
  dict_get TARGETS n = Some t -> platform t = ANDROID ->
  android_ndk_root b = Some ndk ->
  not_file (fs w) (build_dir b </> rust_target t) ->
  exists_ (fs w) (toolchain_dir h ndk) = false ->
  for_fold (n :: rest) st (build_body h b) w
  = (Raise (RuntimeError ("Android toolchain not found: "
                          +:+ str_of_path (toolchain_dir h ndk))),
     cleaned b t w).
Proof.
  intros Hn Ha Hndk _ He. cbn [for_fold].
  assert (Hb : _build_target h b t w
               = (Raise (RuntimeError ("Android toolchain not found: "
                                       +:+ str_of_path (toolchain_dir h ndk))),
                  cleaned b t w)).
  { rewrite build_target_eq. rewrite decide_True by exact Ha. rewrite Hndk.
    rewrite setup_android_environment_cases, Hndk.
    rewrite (cleaned_exists_false b t w _ He). reflexivity. }
  apply bind_raise. unfold build_body. rewrite Hn.
  apply bind_raise. exact Hb.
Qed.

(** X12: without [cargo], [build] is a no-op: it returns the empty mapping
    and leaves the world as it is; unlike a batch rejected for an unknown
    name, the output directory of an earlier run is not cleared. *)
Theorem build_without_cargo_is_noop h b names w :
  cargo_found h = false -> build h b names w = (Ok ∅, w).
Proof.
  intros Hcargo. rewrite build_unfold.
  destruct (setup_rust_environment_spec h b (fun _ => True) w)
    as (w1 & d1 & Hsetup & _ & _ & _ & _ & Hsame); auto.
  rewrite (bind_ok _ _ _ _ _ Hsetup), Hcargo. cbn [negb].
  rewrite (Hsame Hcargo). reflexivity.
Qed.

Lemma stale_library_never_counts_witness :
  let b := Stub.builder RELEASE in
  let w := mkWorld Stub.disk_stale [] in
  exists_ (fs w) (lib_path b Stub.linux_x64) = true /\
  (_build_target (Stub.host Stub.run_silent) b Stub.linux_x64 w).1 <> Ok true.
Proof.
  intros b w. split; [vm_compute; reflexivity|].
  apply stale_library_never_counts.
  - apply tree_check. apply (bool_decide_unpack _). vm_compute. exact I.
  - intros env f Hf. exact Hf.
Defined.

Lemma build_attempts_every_target_witness :
  let h := Stub.host Stub.run_silent in
  let b := Stub.builder RELEASE in
  let rw := build h b ["linux-x64"; "windows-x64"] Stub.world in
  rw.1 = Ok {[ "linux-x64" := false; "windows-x64" := false ]} /\
  exists d,
    trace rw.2 = trace Stub.world ++ d /\
    commands (builds d)
    = [ ["cargo"; "build"; "--target"; "x86_64-unknown-linux-gnu"; "--release"];
        ["cargo"; "build"; "--target"; "x86_64-pc-windows-msvc"; "--release"] ].
Proof.
  intros h b rw.
  assert (Hres : rw.1 = Ok {[ "linux-x64" := false; "windows-x64" := false ]})
    by (vm_compute; reflexivity).
  split; [exact Hres|].
  destruct (build_attempts_every_target h b ["linux-x64"; "windows-x64"] Stub.world
              {[ "linux-x64" := false; "windows-x64" := false ]} rw.2)
    as (d & ts & Htr & Hts & Hc & _).
  - reflexivity.
  - intros n Hn. apply (dict_get_key TARGETS).
    apply elem_of_cons in Hn as [->|Hn]; [|apply list_elem_of_singleton in Hn as ->];
      apply (bool_decide_unpack _); vm_compute; exact I.
  - apply pair_eq_fst. exact Hres.
  - exists d. split; [exact Htr|]. rewrite Hc.
    inversion Hts as [|? t1 ? ts1 H1 Hts1]; subst.
    inversion Hts1 as [|? t2 ? ts2 H2 Hts2]; subst.
    inversion Hts2; subst.
    injection H1 as <-. injection H2 as <-. vm_compute. reflexivity.
Defined.

Lemma exit_zero_iff_all_succeeded_witness :
  (script (Stub.host (Stub.run_ok 0)) (Stub.args ["linux-x64"]) Stub.world).1 = 0.
Proof.
  destruct (exit_zero_iff_all_succeeded (Stub.host (Stub.run_ok 0))
              (Stub.args ["linux-x64"]) Stub.world (Stub.builder RELEASE) Stub.world
              {[ "linux-x64" := true ]}
              (build (Stub.host (Stub.run_ok 0)) (Stub.builder RELEASE)
                 ["linux-x64"] Stub.world).2) as [_ Hiff].
  - vm_compute. reflexivity.
  - reflexivity.
  - reflexivity.
  - reflexivity.
  - intros n Hn. apply list_elem_of_singleton in Hn as ->. eexists. reflexivity.
  - discriminate.
  - apply pair_eq_fst. vm_compute. reflexivity.
  - apply Hiff. intros n Hn. apply list_elem_of_singleton in Hn as ->.
    vm_compute. reflexivity.
Defined.

Lemma android_toolchain_missing_aborts_batch_witness :
  let h := Stub.host (Stub.run_ok 0) in
  let w := mkWorld Stub.disk_ndk [] in
  (for_fold ["android-x64"; "linux-x64"] (mkLoop ∅ [] [])
     (build_body h Stub.builder_ndk) w).1
  = Raise (RuntimeError
             ("Android toolchain not found: /home/dev/Android/Sdk/ndk/25.2.9519653/"
              +:+ "toolchains/llvm/prebuilt/linux-x86_64")).
Proof.
  intros h w.
  rewrite (android_toolchain_missing_aborts_batch h Stub.builder_ndk "android-x64"
             Stub.android_x64 Stub.sdk_ndk ["linux-x64"] (mkLoop ∅ [] []) w);
    first [vm_compute; reflexivity | vm_compute; discriminate].
Defined.

Lemma build_without_cargo_is_noop_witness :
  build Stub.host_no_cargo (Stub.builder RELEASE) ["linux-x64"] Stub.world
  = (Ok ∅, Stub.world).
Proof. apply build_without_cargo_is_noop. reflexivity. Defined.

(** ** [clean] *)

Lemma clean_eq b w :
  clean b w =
  let w1 := if exists_ (fs w) (build_dir b)
            then emit (EvRmtree (build_dir b)) (rmtree_fs (build_dir b) (fs w)) w
            else w in
  (Ok (), if exists_ (fs w1) (output_dir b)
          then emit (EvRmtree (output_dir b)) (rmtree_fs (output_dir b) (fs w1)) w1
          else w1).
Proof.
  unfold clean, bind, path_exists, rmtree, ret.
  destruct (exists_ (fs w) (build_dir b)); cbv zeta; destruct (exists_ _ _); reflexivity.
Qed.

Lemma exists_false_lookup f p : exists_ f p = false <-> f !! p = None.
Proof.
  unfold exists_. rewrite bool_decide_eq_false, <- eq_None_not_Some. reflexivity.
Qed.

(** In a tree, removing [p] if it exists removes everything at and below
    [p], and leaves a tree. *)
Lemma remove_if_exists_lookup p f q :
  p <> [] -> tree f ->
  (if exists_ f p then rmtree_fs p f else f) !! q
  = if decide (p `prefix_of` q) then None else f !! q.
Proof.
  intros Hp Ht. destruct (exists_ f p) eqn:He; [apply rmtree_fs_lookup|].
  destruct (decide (p `prefix_of` q)) as [Hpq|]; [|reflexivity].
  apply exists_false_lookup in He. apply eq_None_not_Some. intros Hq.
  destruct (Ht p q Hp Hpq Hq) as [k Hk]. congruence.
Qed.

Lemma rmtree_fs_tree p f : tree f -> tree (rmtree_fs p f).
Proof.
  intros Ht p' q Hp' Hpq. rewrite !rmtree_fs_lookup.
  destruct (decide (p `prefix_of` q)) as [|Hn]; [intros [k [=]]|].
  intros Hq. destruct (decide (p `prefix_of` p')) as [Hpp|].
  - exfalso. apply Hn. etrans; eassumption.
  - exact (Ht p' q Hp' Hpq Hq).
Qed.

Lemma remove_if_exists_tree p f :
  tree f -> tree (if exists_ f p then rmtree_fs p f else f).
Proof. intros Ht. destruct (exists_ f p); [apply rmtree_fs_tree|]; exact Ht. Qed.

Lemma fs_if_emit (c : bool) e f w :
  fs (if c then emit e f w else w) = if c then f else fs w.
Proof. destruct c; reflexivity. Qed.

Lemma trace_if_emit (c : bool) e f w :
  trace (if c then emit e f w else w) = trace w ++ (if c then [e] else []).
Proof. destruct c; [reflexivity|symmetry; apply app_nil_r]. Qed.

(** [clean] on a tree. *)
Lemma clean_spec b w :
  layout b -> tree (fs w) ->
  exists w' d,
    clean b w = (Ok (), w') /\ trace w' = trace w ++ d /\ commands d = [] /\
    (forall q, fs w' !! q =
       if decide (build_dir b `prefix_of` q \/ output_dir b `prefix_of` q)
       then None else fs w !! q) /\
    clean b w' = (Ok (), w').
Proof.
  intros [Hbd Hod] Ht.
  assert (Hb : build_dir b <> []) by (rewrite Hbd; apply joinpath_not_nil).
  assert (Ho : output_dir b <> []) by (rewrite Hod; apply joinpath_not_nil).
  set (w1 := if exists_ (fs w) (build_dir b)
             then emit (EvRmtree (build_dir b)) (rmtree_fs (build_dir b) (fs w)) w
             else w).
  set (w2 := if exists_ (fs w1) (output_dir b)
             then emit (EvRmtree (output_dir b)) (rmtree_fs (output_dir b) (fs w1)) w1
             else w1).
  assert (Hf1 : fs w1 = if exists_ (fs w) (build_dir b)
                        then rmtree_fs (build_dir b) (fs w) else fs w).
  { apply fs_if_emit. }
  assert (Hf2 : fs w2 = if exists_ (fs w1) (output_dir b)
                        then rmtree_fs (output_dir b) (fs w1) else fs w1).
  { apply fs_if_emit. }
  assert (Ht1 : tree (fs w1)) by (rewrite Hf1; apply remove_if_exists_tree, Ht).
  assert (Hlook : forall q, fs w2 !! q =
            if decide (build_dir b `prefix_of` q \/ output_dir b `prefix_of` q)
            then None else fs w !! q).
  { intros q. rewrite Hf2, (remove_if_exists_lookup _ _ _ Ho Ht1).
    rewrite Hf1, (remove_if_exists_lookup _ _ _ Hb Ht).
    destruct (decide (output_dir b `prefix_of` q));
      destruct (decide (build_dir b `prefix_of` q));
      destruct (decide (_ \/ _)) as [|Hn]; try reflexivity;
      try (exfalso; apply Hn; auto; fail); tauto. }
  exists w2, ((if exists_ (fs w) (build_dir b) then [EvRmtree (build_dir b)] else [])
              ++ (if exists_ (fs w1) (output_dir b) then [EvRmtree (output_dir b)] else [])).
  split; [apply clean_eq|]. split; [|split; [|split; [exact Hlook|]]].
  - unfold w2. rewrite trace_if_emit. unfold w1 at 1. rewrite trace_if_emit.
    rewrite <- app_assoc. reflexivity.
  - rewrite commands_app.
    destruct (exists_ (fs w) (build_dir b)); destruct (exists_ (fs w1) (output_dir b));
      reflexivity.
  - rewrite clean_eq. cbv zeta.
    assert (E1 : exists_ (fs w2) (build_dir b) = false).
    { apply exists_false_lookup. rewrite Hlook.
      destruct (decide _) as [|Hn]; [reflexivity|]. exfalso. apply Hn. left. reflexivity. }
    rewrite E1.
    assert (E2 : exists_ (fs w2) (output_dir b) = false).
    { apply exists_false_lookup. rewrite Hlook.
      destruct (decide _) as [|Hn]; [reflexivity|]. exfalso. apply Hn. right. reflexivity. }
    rewrite E2. reflexivity.
Qed.

(** X13: on a file system that is a tree, in which neither the build
    directory nor the output directory is a regular file, [clean] never
    raises and runs no tool; afterwards nothing exists at or below the
    build directory or the output directory, every other path is as it
    was, and a second [clean] changes nothing at all. *)
Theorem clean_removes_both_trees b w :
  layout b -> tree (fs w) ->
  not_file (fs w) (build_dir b) -> not_file (fs w) (output_dir b) ->
  exists w' d,
    clean b w = (Ok (), w') /\ trace w' = trace w ++ d /\ commands d = [] /\
    (forall q, fs w' !! q =
       if decide (build_dir b `prefix_of` q \/ output_dir b `prefix_of` q)
       then None else fs w !! q) /\
    clean b w' = (Ok (), w').
Proof. intros Hl Ht _ _. apply clean_spec; assumption. Qed.

Lemma clean_removes_both_trees_witness :
  let b := Stub.builder RELEASE in
  let w := mkWorld Stub.disk_stale [] in
  fs w !! lib_path b Stub.linux_x64 = Some File /\
  fs w !! (Stub.proj </> "Cargo.toml") = Some File /\
  fs (clean b w).2 !! lib_path b Stub.linux_x64 = None /\
  fs (clean b w).2 !! (Stub.proj </> "Cargo.toml") = Some File.
Proof.
  intros b w.
  destruct (clean_removes_both_trees b w) as (w' & d & Hc & _ & _ & Hl & _).
  - split; reflexivity.
  - apply tree_check. apply (bool_decide_unpack _). vm_compute. exact I.
  - vm_compute. discriminate.
  - vm_compute. discriminate.
  - rewrite Hc. cbn [snd]. rewrite !Hl.
    split; [vm_compute; reflexivity|]. split; [vm_compute; reflexivity|].
    split; vm_compute; reflexivity.
Defined.

(** ** What packaging may touch *)

Lemma confined_ret {A} S (a : A) : confined S (ret a).
Proof. intros w r w' [= _ <-] q _. reflexivity. Qed.

Lemma confined_raise {A} S e : confined S (@raise A e).
Proof. intros w r w' [= _ <-] q _. reflexivity. Qed.

Lemma confined_path_exists S p : confined S (path_exists p).
Proof. intros w r w' [= _ <-] q _. reflexivity. Qed.

Lemma confined_bind {A B} S (m : M A) (k : A -> M B) :
  confined S m -> (forall a, confined S (k a)) -> confined S (bind m k).
Proof.
  intros Hm Hk w r w' H q Hq.
  apply bind_inv in H as [(a & w1 & H1 & H2)|(e & H1 & _)].
  - rewrite (Hk a _ _ _ H2 q Hq). exact (Hm _ _ _ H1 q Hq).
  - exact (Hm _ _ _ H1 q Hq).
Qed.

Lemma confined_if {A} S (c : bool) (m1 m2 : M A) :
  confined S m1 -> confined S m2 -> confined S (if c then m1 else m2).
Proof. destruct c; auto. Qed.

Lemma confined_insert {A} S p k (e : Event) (a : A) :
  S p -> confined S (fun w => (Ok a, emit e (<[p := k]> (fs w)) w)).
Proof.
  intros Hp w r w' [= _ <-] q Hq. rewrite fs_emit.
  apply lookup_insert_ne. intros ->. contradiction.
Qed.

Lemma confined_mkdir (S : Path -> Prop) p parents exist_ok :
  (forall q, q `prefix_of` p -> S q) -> confined S (mkdir p parents exist_ok).
Proof.
  intros Hp w r w' H q Hq. unfold mkdir in H.
  destruct (fs w !! p).
  - destruct (_ && _)%bool; injection H as _ <-; reflexivity.
  - destruct (_ || _)%bool.
    + injection H as _ <-. rewrite fs_emit. apply lookup_insert_ne.
      intros ->. apply Hq, Hp. reflexivity.
    + destruct parents; injection H as _ <-; [|reflexivity].
      rewrite fs_emit, mkdirs_fs_lookup. destruct (fs w !! q); [reflexivity|].
      destruct (decide _) as [Hin|]; [|reflexivity].
      exfalso. apply Hq, Hp. apply ancestors_and_self_prefix in Hin. apply Hin.
Qed.

Lemma confined_copy2 (S : Path -> Prop) src dst :
  S dst -> S (dst </> basename src) -> confined S (copy2 src dst).
Proof.
  intros H1 H2 w r w' [= _ <-] q Hq. rewrite fs_emit.
  apply lookup_insert_ne. intros <-. destruct (is_dir _ _); contradiction.
Qed.

Lemma confined_write_text (S : Path -> Prop) p : S p -> confined S (write_text p).
Proof. intros Hp. apply (confined_insert S p File). exact Hp. Qed.

Lemma confined_chmod S p : confined S (chmod p).
Proof. intros w r w' [= _ <-] q _. reflexivity. Qed.

Lemma confined_make_archive (S : Path -> Prop) base fmt root :
  S (archive_file base fmt) -> confined S (make_archive base fmt root).
Proof. intros Hp. apply (confined_insert S _ File). exact Hp. Qed.

Lemma confined_rmtree (S : Path -> Prop) p :
  (forall q, p `prefix_of` q -> S q) -> confined S (rmtree p).
Proof.
  intros Hp w r w' [= _ <-] q Hq. rewrite fs_emit, rmtree_fs_lookup.
  destruct (decide _) as [Hpq|]; [|reflexivity]. exfalso. apply Hq, Hp, Hpq.
Qed.

Lemma confined_for_each {A} S (l : list A) body :
  (forall x, confined S (body x)) -> confined S (for_each l body).
Proof.
  intros Hb. induction l as [|x l IH]; cbn [for_each].
  - apply confined_ret.
  - apply confined_bind; [apply Hb|intros _; exact IH].
Qed.

Lemma near_below o q : o `prefix_of` q -> near o q.
Proof. intros H. left. exact H. Qed.

Lemma near_child o c : near o (o </> c).
Proof. left. unfold joinpath. apply prefix_app_r. reflexivity. Qed.

Lemma near_joinpath o p c : o `prefix_of` p -> near o (p </> c).
Proof. intros H. left. unfold joinpath. apply prefix_app_r. exact H. Qed.

Lemma prefix_joinpath (o p : Path) c : o `prefix_of` p -> o `prefix_of` p </> c.
Proof. intros H. unfold joinpath. apply prefix_app_r. exact H. Qed.

Lemma near_ancestor o p q : o `prefix_of` p -> q `prefix_of` p -> near o q.
Proof. intros Ho Hq. exact (prefix_weak_total _ _ _ Ho Hq). Qed.

Ltac under_output :=
  repeat first [ reflexivity | apply prefix_joinpath ].

Ltac confined_step :=
  lazymatch goal with
  | |- confined _ (ret _) => apply confined_ret
  | |- confined _ (raise _) => apply confined_raise
  | |- confined _ (path_exists _) => apply confined_path_exists
  | |- confined _ (chmod _) => apply confined_chmod
  | |- confined _ (bind _ _) => apply confined_bind; [|intros ?]
  | |- confined _ (for_each _ _) => apply confined_for_each; intros ?
  | |- confined _ (mkdir _ _ _) =>
      apply confined_mkdir; intros ? ?; eapply near_ancestor; [|eassumption];
      under_output
  | |- confined _ (copy2 _ _) => apply confined_copy2; apply near_below; under_output
  | |- confined _ (write_text _) =>
      apply confined_write_text; apply near_below; under_output
  | |- confined _ (rmtree _) =>
      apply confined_rmtree; intros ? ?; apply near_below;
      (etrans; [|eassumption]); under_output
  | |- confined _ (make_archive _ _ _) =>
      apply confined_make_archive;
      rewrite !with_suffix_empty_joinpath, archive_file_joinpath; apply near_child
  | |- confined _ (match ?c with _ => _ end) => destruct c
  end.

(** X14: for targets of the registry, packaging a desktop target or the
    Android bundle changes the file system only at the output directory,
    below it, or (when directories have to be created) at its ancestors:
    the libraries, the header and everything else of the project are left
    as they were, whether the packaging returns or raises. *)
Theorem packaging_confined_to_output b :
  (forall t, t ∈ TARGETS_values ->
     confined (near (output_dir b)) (_package_target b t)) /\
  (forall ts, Forall (fun t => t ∈ TARGETS_values) ts ->
     confined (near (output_dir b)) (_package_android_bundle b ts)).
Proof.
  split.
  - intros t _. unfold _package_target. cbv zeta. repeat confined_step.
  - intros ts _. unfold _package_android_bundle. cbv zeta. repeat confined_step.
Qed.

Lemma packaging_confined_to_output_witness :
  let b := Stub.builder RELEASE in
  let w := mkWorld Stub.disk_stale [] in
  (_package_target b Stub.linux_x64 w).1
  = Ok (Some (Stub.proj </> "dist" </> "rvpnse-linux-x64.tar.gz")) /\
  fs (_package_target b Stub.linux_x64 w).2 !! lib_path b Stub.linux_x64 = Some File.
Proof.
  intros b w. split; [vm_compute; reflexivity|].
  destruct (packaging_confined_to_output b) as [H _].
  rewrite (H Stub.linux_x64) with (w := w) (r := (_package_target b Stub.linux_x64 w).1).
  - vm_compute. reflexivity.
  - apply (bool_decide_unpack _). vm_compute. exact I.
  - apply surjective_pairing.
  - unfold near. apply (bool_decide_unpack _). vm_compute. exact I.
Defined.

(** ** What [_package_target] delivers *)

(** A finite check that nothing exists at or below [p]. *)
Lemma absent_check (f : FileSys) (p : Path) :
  Forall (fun k => ~ p `prefix_of` k) (map_to_list f).*1 ->
  forall q, p `prefix_of` q -> f !! q = None.
Proof.
  intros Hall q Hq. apply eq_None_not_Some. intros [k Hk].
  rewrite Forall_forall in Hall. apply (Hall q); [|exact Hq].
  apply list_elem_of_fmap. exists (q, k). split; [reflexivity|].
  apply elem_of_map_to_list. exact Hk.
Qed.

Lemma registry_staging_names :
  Forall (fun t =>
    "rvpnse-" +:+ name t <> "rvpnse-" +:+ name t +:+ ".zip" /\
    "rvpnse-" +:+ name t <> "rvpnse-" +:+ name t +:+ ".tar.gz") TARGETS_values.
Proof. apply (bool_decide_unpack _). vm_compute. exact I. Qed.

Lemma parent_joinpath p c : parent (p </> c) = p.
Proof. apply removelast_snoc. Qed.

Lemma joinpath_prefix_sibling p c c' : p </> c `prefix_of` p </> c' -> c = c'.
Proof.
  unfold joinpath. intros [k Hk]. rewrite <- app_assoc in Hk.
  apply app_inv_head in Hk. injection Hk as -> _. reflexivity.
Qed.

(** [mkdir(parents=True, exist_ok=True)] of a child of an existing
    directory succeeds unless a file is in the way. *)
Lemma mkdir_child p c parents w :
  is_Some (fs w !! p) -> fs w !! (p </> c) <> Some File ->
  exists d, mkdir (p </> c) parents true w
            = (Ok (), mkWorld (<[p </> c := Dir]> (fs w)) (trace w ++ d)) /\
            Forall (fun e => e = EvMkdir (p </> c)) d.
Proof.
  intros Hp Hc. unfold mkdir. destruct (fs w !! (p </> c)) as [[]|] eqn:E.
  - congruence.
  - exists []. split; [|constructor]. cbn. rewrite app_nil_r, (insert_id _ _ _ E).
    destruct w; reflexivity.
  - rewrite parent_joinpath.
    replace (exists_ (fs w) p) with true
      by (symmetry; apply bool_decide_eq_true; exact Hp).
    rewrite orb_true_r. exists [EvMkdir (p </> c)].
    split; [reflexivity|repeat constructor].
Qed.

Lemma insert_key_under (c : bool) (staging : Path) x (q : Path) :
  ~ staging `prefix_of` q -> (if c then staging </> x else staging) <> q.
Proof.
  intros Hn <-. apply Hn. destruct c; [apply prefix_joinpath|]; reflexivity.
Qed.

(** [_package_target] on a library that is there. *)
Lemma package_target_run b t w :
  t ∈ TARGETS_values ->
  fs w !! output_dir b = Some Dir ->
  fs w !! (output_dir b </> ("rvpnse-" +:+ name t)) <> Some File ->
  exists_ (fs w) (lib_path b t) = true ->
  exists w' d,
    _package_target b t w = (Ok (Some (desktop_archive b t)), w') /\
    trace w' = trace w ++ d /\
    EvCopy (lib_path b t) (output_dir b </> ("rvpnse-" +:+ name t)) ∈ d /\
    EvArchive (if decide (platform t = WINDOWS) then zip else gztar)
      (desktop_archive b t) (output_dir b </> ("rvpnse-" +:+ name t)) ∈ d /\
    forall q, fs w' !! q =
      if decide (output_dir b </> ("rvpnse-" +:+ name t) `prefix_of` q) then None
      else if decide (q = desktop_archive b t) then Some File
      else fs w !! q.
Proof.
  intros Ht Ho Hst He.
  set (staging := output_dir b </> ("rvpnse-" +:+ name t)) in *.
  unfold _package_target. fold (lib_path b t). fold staging. cbv zeta.
  rewrite (bind_ok (path_exists (lib_path b t)) _ w _ w eq_refl).
  rewrite He. cbn [negb].
  destruct (mkdir_child (output_dir b) ("rvpnse-" +:+ name t) true w) as (d0 & Hm & _);
    [rewrite Ho; eexists; reflexivity|exact Hst|].
  fold staging in Hm. rewrite (bind_ok _ _ _ _ _ Hm).
  destruct (package_archive_registry b t Ht) as [Hpa _].
  unfold package_archive in Hpa. unfold desktop_archive in *.
  unfold bind, copy2, path_exists, make_archive, rmtree, ret. cbv zeta.
  cbn [fs trace emit].
  destruct (exists_ _ (project_root b </> "include" </> "rvpnse.h"));
    cbn [fs trace emit];
    destruct (exists_ _ (project_root b </> "README.md"));
    cbn [fs trace emit];
    destruct (decide (platform t = WINDOWS));
    cbn [fs trace emit fst snd]; rewrite Hpa;
    eexists; eexists; (split; [reflexivity|]);
    cbn [fs trace emit]; rewrite <- !app_assoc;
    (split; [reflexivity|]);
    (split; [cbn [app]; rewrite !elem_of_app, !elem_of_cons; auto 10|]);
    (split; [cbn [app]; rewrite !elem_of_app, !elem_of_cons; auto 10|]);
    intros q; rewrite rmtree_fs_lookup;
    (destruct (decide (staging `prefix_of` q)) as [|Hn]; [reflexivity|]);
    (destruct (decide (q = _)) as [->|Hne]; [apply lookup_insert_eq|]);
    (rewrite lookup_insert_ne by congruence);
    repeat (rewrite lookup_insert_ne by (apply insert_key_under; exact Hn));
    apply lookup_insert_ne; intros <-; apply Hn; reflexivity.
Qed.

(** X15: what [_package_target] delivers for a target of the registry,
    with the output directory in place, nothing at the staging directory,
    no directory where the archive goes, and header and README regular
    files if they exist.  Without the library it returns [None] and changes
    nothing.  With the library a file, it returns the archive path of the
    target; the archive was made from the staging directory into which the
    library was copied (zip for Windows, gzipped tar otherwise); afterwards
    the archive is a file, nothing is left at or below the staging
    directory, and every other path is as it was. *)
Theorem package_target_result b t w :
  let staging := output_dir b </> ("rvpnse-" +:+ name t) in
  let r := _package_target b t w in
  t ∈ TARGETS_values ->
  fs w !! output_dir b = Some Dir ->
  (forall q, staging `prefix_of` q -> fs w !! q = None) ->
  not_dir (fs w) (desktop_archive b t) -> docs_regular b (fs w) ->
  (exists_ (fs w) (lib_path b t) = false -> r = (Ok None, w)) /\
  (fs w !! lib_path b t = Some File ->
   r.1 = Ok (Some (desktop_archive b t)) /\
   (forall q, fs r.2 !! q =
      if decide (staging `prefix_of` q) then None
      else if decide (q = desktop_archive b t) then Some File
      else fs w !! q) /\
   exists d, trace r.2 = trace w ++ d /\
     EvCopy (lib_path b t) staging ∈ d /\
     EvArchive (if decide (platform t = WINDOWS) then zip else gztar)
       (desktop_archive b t) staging ∈ d).
Proof.
  intros staging r Ht Ho Hfresh _ _. subst r. split; intros He.
  - unfold _package_target. fold (lib_path b t).
    rewrite (bind_ok (path_exists (lib_path b t)) _ w _ w eq_refl), He. reflexivity.
  - destruct (package_target_run b t w Ht Ho)
      as (w' & d & -> & Htr & Hcp & Har & Hfs).
    { fold staging. rewrite Hfresh by reflexivity. discriminate. }
    { apply bool_decide_eq_true. rewrite He. eexists. reflexivity. }
    cbn [fst snd]. split; [reflexivity|]. split; [exact Hfs|].
    exists d. split; [exact Htr|]. split; [exact Hcp|exact Har].
Qed.

Lemma package_target_result_witness :
  let b := Stub.builder RELEASE in
  let r := _package_target b Stub.linux_x64 (mkWorld Stub.disk_stale []) in
  r.1 = Ok (Some (Stub.proj </> "dist" </> "rvpnse-linux-x64.tar.gz")) /\
  fs r.2 !! (Stub.proj </> "dist" </> "rvpnse-linux-x64.tar.gz") = Some File.
Proof.
  intros b r.
  destruct (package_target_result b Stub.linux_x64 (mkWorld Stub.disk_stale []))
    as [_ H].
  - apply (bool_decide_unpack _). vm_compute. exact I.
  - vm_compute. reflexivity.
  - apply absent_check. apply (bool_decide_unpack _). vm_compute. exact I.
  - vm_compute. discriminate.
  - split; vm_compute; discriminate.
  - destruct H as (H1 & H2 & _); [vm_compute; reflexivity|].
    split; [exact H1|]. rewrite H2. vm_compute. reflexivity.
Defined.

(** ** What the Android bundle holds *)

Lemma copies_app d1 d2 : copies (d1 ++ d2) = copies d1 ++ copies d2.
Proof. apply omap_app. Qed.

Lemma copies_mkdirs d p : Forall (fun e => e = EvMkdir p) d -> copies d = [].
Proof.
  induction 1 as [|e d -> _ IH]; [reflexivity|]. cbn. exact IH.
Qed.

Lemma length_joinpath p c : List.length (p </> c) = S (List.length p).
Proof. unfold joinpath. rewrite length_app. cbn. lia. Qed.

Lemma near_sibling_inv (p : Path) c c' k :
  near (p ++ c :: k) (p ++ [c']) -> c = c'.
Proof.
  intros [[x Hx]|[x Hx]]; rewrite <- app_assoc in Hx; apply app_inv_head in Hx;
    cbn in Hx; congruence.
Qed.

Section AndroidBundle.

Variable b : rVPNSEBuilder.
Hypothesis Hlayout : layout b.

Lemma project_file_far c k : c <> "dist" -> ~ near (output_dir b) (project_root b ++ c :: k).
Proof.
  destruct Hlayout as [_ ->]. unfold joinpath. intros Hc [[x Hx]|[x Hx]].
  - rewrite <- app_assoc in Hx. apply app_inv_head in Hx. cbn in Hx. congruence.
  - rewrite <- app_assoc in Hx. apply app_inv_head in Hx. cbn in Hx. congruence.
Qed.

Lemma android_lib_far t : ~ near (output_dir b) (android_lib b t).
Proof.
  unfold android_lib. destruct Hlayout as [-> _]. unfold joinpath.
  rewrite <- !app_assoc. apply project_file_far. discriminate.
Qed.

Lemma header_far : ~ near (output_dir b) (project_root b </> "include" </> "rvpnse.h").
Proof. unfold joinpath. rewrite <- !app_assoc. apply project_file_far. discriminate. Qed.

Lemma readme_far : ~ near (output_dir b) (project_root b </> "README.md").
Proof. apply project_file_far. discriminate. Qed.

Lemma exists_far f f0 p :
  (forall q, ~ near (output_dir b) q -> f !! q = f0 !! q) ->
  ~ near (output_dir b) p -> exists_ f p = exists_ f0 p.
Proof. intros H Hp. unfold exists_. rewrite (H p Hp). reflexivity. Qed.

Lemma jni_prefix : output_dir b `prefix_of` jni_libs_dir b.
Proof. unfold jni_libs_dir, android_bundle_dir. under_output. Qed.

(** The loop of lines 287-296, started with the [jniLibs] directory in
    place: it cannot raise, and copies the libraries that exist. *)
Lemma android_copy_loop f0 ts w :
  Forall (fun t => is_Some (android_arch t)) ts ->
  (forall q, ~ near (output_dir b) q -> fs w !! q = f0 !! q) ->
  is_Some (fs w !! jni_libs_dir b) ->
  (forall a, fs w !! (jni_libs_dir b </> a) <> Some File) ->
  exists w' d,
    for_each ts (fun target =>
      let* e := path_exists
                  (build_dir b </> rust_target target </> mode_value (mode b)
                     </> "librvpnse.so") in
      if e then
        match android_arch target with
        | None => raise (TypeError "unsupported operand type(s) for /")
        | Some a =>
            mkdir (output_dir b </> "rvpnse-android" </> "jniLibs" </> a) false true >>
            copy2 (build_dir b </> rust_target target </> mode_value (mode b)
                     </> "librvpnse.so")
              (output_dir b </> "rvpnse-android" </> "jniLibs" </> a </> "librvpnse.so")
        end
      else ret ()) w = (Ok (), w') /\
    trace w' = trace w ++ d /\
    copies d = (fun t => (android_lib b t, jni_lib b t))
               <$> filter (fun t => exists_ f0 (android_lib b t) = true) ts /\
    archives d = [] /\
    (forall q, ~ near (output_dir b) q -> fs w' !! q = f0 !! q).
Proof.
  intros Hts. revert w. induction Hts as [|t ts [a Ha] _ IH]; intros w Hfar Hjni Hnf.
  - exists w, []. rewrite app_nil_r. repeat split. exact Hfar.
  - cbn [for_each]. fold (android_lib b t). fold (android_bundle_dir b).
    fold (jni_libs_dir b).
    rewrite (bind_ok _ _ w tt
               (if exists_ f0 (android_lib b t)
                then mkWorld
                       (<[(if is_dir (<[jni_libs_dir b </> a := Dir]> (fs w))
                                (jni_libs_dir b </> a </> "librvpnse.so")
                           then jni_libs_dir b </> a </> "librvpnse.so"
                                  </> basename (android_lib b t)
                           else jni_libs_dir b </> a </> "librvpnse.so") := File]>
                          (<[jni_libs_dir b </> a := Dir]> (fs w)))
                       (trace w ++
                        (if bool_decide (is_Some (fs w !! (jni_libs_dir b </> a)))
                         then [] else [EvMkdir (jni_libs_dir b </> a)])
                        ++ [EvCopy (android_lib b t)
                              (jni_libs_dir b </> a </> "librvpnse.so")])
                else w)).
    2:{ rewrite (bind_ok (path_exists (android_lib b t)) _ w _ w eq_refl).
        rewrite (exists_far _ f0 _ Hfar (android_lib_far t)).
        destruct (exists_ f0 (android_lib b t)); [|reflexivity].
        rewrite Ha. unfold bind, mkdir, copy2.
        destruct (fs w !! (jni_libs_dir b </> a)) as [[]|] eqn:E.
        - exfalso. exact (Hnf a E).
        - cbn [andb]. rewrite bool_decide_eq_true_2 by reflexivity.
          rewrite (insert_id _ _ _ E).
          rewrite bool_decide_eq_true_2 by (eexists; reflexivity).
          cbn [app]. reflexivity.
        - rewrite parent_joinpath.
          replace (exists_ (fs w) (jni_libs_dir b)) with true
            by (symmetry; apply bool_decide_eq_true; exact Hjni).
          rewrite orb_true_r.
          rewrite (bool_decide_eq_false_2 (is_Some None)) by (intros [? [=]]).
          unfold emit. cbn [fs trace]. rewrite <- app_assoc. reflexivity. }
    destruct (exists_ f0 (android_lib b t)) eqn:He.
    + match goal with |- context [for_each ts _ ?w1] => set (W := w1) end.
      destruct (IH W) as (w' & d & Hrun & Htr & Hc & Ha' & Hfar').
      * intros q Hq. unfold W. cbn [fs]. rewrite <- (Hfar q Hq).
        rewrite !lookup_insert_ne; [reflexivity| |].
        -- intros <-. apply Hq. apply near_joinpath, jni_prefix.
        -- intros <-. apply Hq. apply near_below.
           destruct (is_dir _ _);
             repeat first [apply jni_prefix | apply prefix_joinpath].
      * unfold W. cbn [fs]. rewrite !lookup_insert_ne; [exact Hjni| |].
        -- intros H. apply (f_equal List.length) in H.
           rewrite !length_joinpath in H. lia.
        -- intros H. apply (f_equal List.length) in H.
           destruct (is_dir _ _); rewrite !length_joinpath in H; lia.
      * intros a'. unfold W. cbn [fs]. rewrite lookup_insert_ne.
        -- destruct (decide (a = a')) as [->|Hne].
           ++ rewrite lookup_insert_eq. discriminate.
           ++ rewrite lookup_insert_ne; [apply Hnf|].
              intros H. apply joinpath_inj in H. contradiction.
        -- intros H. apply (f_equal List.length) in H.
           destruct (is_dir _ _); rewrite !length_joinpath in H; lia.
      * exists w'. eexists. split; [exact Hrun|]. split.
        -- rewrite Htr. unfold W. cbn [trace]. rewrite <- !app_assoc. reflexivity.
        -- rewrite filter_cons_True by exact He.
           rewrite !copies_app, !archives_app, Hc, Ha'. cbn [fmap list_fmap].
           split; [|split; [|exact Hfar']].
           ++ unfold jni_lib. rewrite Ha. cbn [default].
              destruct (bool_decide _); reflexivity.
           ++ destruct (bool_decide _); reflexivity.
    + destruct (IH w Hfar Hjni Hnf) as (w' & d & Hrun & Htr & Hc & Ha' & Hfar').
      exists w', d. rewrite filter_cons_False by (rewrite He; discriminate).
      repeat split; assumption.
Qed.

End AndroidBundle.

Lemma registry_android_arch :
  Forall (fun t => platform t = ANDROID -> is_Some (android_arch t)) TARGETS_values.
Proof.
  repeat constructor; intros H; first [discriminate H | eexists; reflexivity].
Qed.

(** X16: what [_package_android_bundle] delivers for Android targets of the
    registry, with the project laid out by [__init__], the output
    directory in place, nothing at the bundle directory, no directory where
    the archive goes, and libraries, header and README regular files if
    they exist.  It never raises; it copies exactly the libraries that
    exist, in the order of the targets, each to
    [jniLibs/<abi>/librvpnse.so], then the header and the README if they
    exist; it archives the bundle directory even when no library was there,
    returns the archive path, and leaves the archive but nothing of the
    bundle directory. *)
Theorem android_bundle_copies_present_libraries b ts w :
  layout b ->
  Forall (fun t => t ∈ TARGETS_values /\ platform t = ANDROID) ts ->
  fs w !! output_dir b = Some Dir ->
  (forall q, android_bundle_dir b `prefix_of` q -> fs w !! q = None) ->
  not_dir (fs w) (android_archive b) -> docs_regular b (fs w) ->
  Forall (fun t => not_dir (fs w) (android_lib b t)) ts ->
  exists w' d,
    _package_android_bundle b ts w = (Ok (Some (android_archive b)), w') /\
    trace w' = trace w ++ d /\
    copies d = ((fun t => (android_lib b t, jni_lib b t))
                <$> filter (fun t => exists_ (fs w) (android_lib b t) = true) ts)
               ++ doc_copies b (fs w) (android_bundle_dir b) /\
    archives d = [android_archive b] /\
    fs w' !! android_archive b = Some File /\
    (forall q, android_bundle_dir b `prefix_of` q -> fs w' !! q = None).
Proof.
  intros Hl Hreg _ Hfresh _ _ _.
  assert (Hts : Forall (fun t => is_Some (android_arch t)) ts).
  { eapply Forall_impl; [exact Hreg|]. intros t [Hin Ha].
    pose proof registry_android_arch as Hr. rewrite Forall_forall in Hr.
    exact (Hr t Hin Ha). }
  assert (Hjf : fs w !! jni_libs_dir b = None).
  { apply Hfresh. unfold jni_libs_dir. under_output. }
  destruct (mkdir_parents_fresh (jni_libs_dir b) true w Hjf) as (f1 & Hm & Hj1 & Hb1).
  set (w1 := emit (EvMkdir (jni_libs_dir b)) f1 w) in *.
  assert (Hfar1 : forall q, ~ near (output_dir b) q -> fs w1 !! q = fs w !! q).
  { refine (confined_mkdir (near (output_dir b)) _ _ _ _ _ _ _ Hm).
    intros q Hq. eapply near_ancestor; [|exact Hq]. apply jni_prefix. }
  destruct (android_copy_loop b Hl (fs w) ts w1 Hts Hfar1) as
    (w2 & d2 & Hloop & Htr2 & Hc2 & Ha2 & Hfar2).
  { unfold w1. rewrite fs_emit, Hj1. eexists. reflexivity. }
  { intros a. unfold w1. rewrite fs_emit, Hb1.
    - rewrite Hfresh; [discriminate|]. unfold jni_libs_dir. under_output.
    - under_output.
    - intros H. apply (f_equal List.length) in H. rewrite length_joinpath in H. lia. }
  cbv zeta in Hloop.
  unfold _package_android_bundle. cbv zeta.
  fold (android_bundle_dir b). fold (jni_libs_dir b).
  rewrite (bind_ok _ _ _ _ _ Hm). fold w1.
  unfold android_bundle_dir, jni_libs_dir in Hloop |- *.
  rewrite (bind_ok _ _ _ _ _ Hloop).
  fold (android_bundle_dir b).
  rewrite (bind_ok (path_exists _) _ w2 _ w2 eq_refl).
  rewrite (exists_far b _ (fs w) _ Hfar2 (header_far b Hl)).
  assert (Hnp : ~ android_bundle_dir b `prefix_of` android_archive b).
  { intros Hp. apply joinpath_prefix_sibling in Hp. discriminate Hp. }
  pose proof (android_archive_roundtrip b) as Hrt.
  unfold doc_copies.
  destruct (exists_ (fs w) (project_root b </> "include" </> "rvpnse.h")).
  - unfold bind at 1. unfold copy2 at 1. cbv zeta.
    match goal with |- context [emit ?e ?f w2] => set (w3 := emit e f w2) end.
    assert (Hfar3 : forall q, ~ near (output_dir b) q -> fs w3 !! q = fs w !! q).
    { intros q Hq. rewrite <- (Hfar2 q Hq).
      refine (confined_copy2 (near (output_dir b)) _ _ _ _ w2 _ w3 eq_refl q Hq);
        apply near_below; unfold android_bundle_dir; under_output. }
    rewrite (bind_ok (path_exists _) _ w3 _ w3 eq_refl).
    rewrite (exists_far b _ (fs w) _ Hfar3 (readme_far b Hl)).
    destruct (exists_ (fs w) (project_root b </> "README.md"));
      unfold bind, copy2, write_text, chmod, make_archive, rmtree, ret; cbv zeta;
      rewrite Hrt; eexists; eexists; (split; [reflexivity|]);
      cbn [fs trace emit]; unfold w3; cbn [fs trace emit]; rewrite Htr2;
      rewrite <- !app_assoc;
      (split; [unfold w1; cbn [trace emit]; rewrite <- !app_assoc; reflexivity|]);
      rewrite !copies_app, !archives_app, Hc2, Ha2;
      (split; [reflexivity|]); (split; [reflexivity|]);
      (split; [rewrite rmtree_fs_lookup; destruct (decide _);
               [contradiction|apply lookup_insert_eq]|]);
      intros q Hq; rewrite rmtree_fs_lookup; destruct (decide _);
      [reflexivity|contradiction|reflexivity|contradiction].
  - unfold bind at 1. unfold ret at 1.
    rewrite (bind_ok (path_exists _) _ w2 _ w2 eq_refl).
    rewrite (exists_far b _ (fs w) _ Hfar2 (readme_far b Hl)).
    destruct (exists_ (fs w) (project_root b </> "README.md"));
      unfold bind, copy2, write_text, chmod, make_archive, rmtree, ret; cbv zeta;
      rewrite Hrt; eexists; eexists; (split; [reflexivity|]);
      cbn [fs trace emit]; rewrite Htr2;
      rewrite <- !app_assoc;
      (split; [unfold w1; cbn [trace emit]; rewrite <- !app_assoc; reflexivity|]);
      rewrite !copies_app, !archives_app, Hc2, Ha2;
      (split; [reflexivity|]); (split; [reflexivity|]);
      (split; [rewrite rmtree_fs_lookup; destruct (decide _);
               [contradiction|apply lookup_insert_eq]|]);
      intros q Hq; rewrite rmtree_fs_lookup; destruct (decide _);
      [reflexivity|contradiction|reflexivity|contradiction].
Qed.

Lemma android_bundle_copies_present_libraries_witness :
  let b := Stub.builder RELEASE in
  let r := _package_android_bundle b [Stub.android_arm64; Stub.android_x64]
             (mkWorld Stub.disk_android []) in
  r.1 = Ok (Some (Stub.proj </> "dist" </> "rvpnse-android.tar.gz")) /\
  copies (trace r.2)
  = [ (Stub.proj </> "target" </> "x86_64-linux-android" </> "release"
         </> "librvpnse.so",
       Stub.proj </> "dist" </> "rvpnse-android" </> "jniLibs" </> "x86_64"
         </> "librvpnse.so");
      (Stub.proj </> "include" </> "rvpnse.h", Stub.proj </> "dist" </> "rvpnse-android") ].
Proof.
  intros b r.
  destruct (android_bundle_copies_present_libraries b
              [Stub.android_arm64; Stub.android_x64] (mkWorld Stub.disk_android []))
    as (w' & d & Hrun & Htr & Hc & _).
  - split; reflexivity.
  - repeat constructor; apply (bool_decide_unpack _); vm_compute; exact I.
  - vm_compute. reflexivity.
  - apply absent_check. apply (bool_decide_unpack _). vm_compute. exact I.
  - vm_compute. discriminate.
  - split; vm_compute; discriminate.
  - repeat constructor; vm_compute; discriminate.
  - subst r. rewrite Hrun. cbn [fst snd]. split; [reflexivity|].
    rewrite Htr. cbn [trace app]. rewrite Hc. vm_compute. reflexivity.
Defined.

(** ** [--list] and [--clean] *)

(** X17: run from a project root that is a tree, in which neither
    [target] nor [dist] is a regular file, [--list] ends with exit status
    0 and changes nothing, even together with [--clean]; [--clean] alone
    ends with exit status 0 having run no tool and built nothing, whatever
    targets are named: nothing is left at or below [target] and [dist],
    and every other path is as it was. *)
Theorem main_list_and_clean_build_nothing h args w :
  exists_ (fs w) (main_root h </> "Cargo.toml") = true -> tree (fs w) ->
  not_file (fs w) (main_root h </> "target") ->
  not_file (fs w) (main_root h </> "dist") ->
  (arg_list args = true -> script h args w = (0, w)) /\
  (arg_list args = false -> arg_clean args = true ->
   exists w' d,
     script h args w = (0, w') /\ trace w' = trace w ++ d /\ commands d = [] /\
     forall q, fs w' !! q =
       if decide (main_root h </> "target" `prefix_of` q
                  \/ main_root h </> "dist" `prefix_of` q)
       then None else fs w !! q).
Proof.
  intros He Ht _ _.
  destruct (init_cases h (main_root h) (arg_mode args) w) as (ndk & _ & Hinit).
  rewrite He in Hinit. unfold script, main. fold (main_root h).
  rewrite (bind_ok _ _ _ _ _ Hinit). split.
  - intros ->. reflexivity.
  - intros -> ->.
    destruct (clean_spec
                (mkBuilder (main_root h) (arg_mode args) (main_root h </> "target")
                   (main_root h </> "dist") ndk) w)
      as (w' & d & Hc & Htr & Hcmd & Hfs & _); [split; reflexivity|exact Ht|].
    exists w', d. rewrite (bind_ok _ _ _ _ _ Hc).
    repeat split; assumption.
Qed.

Lemma main_list_and_clean_build_nothing_witness :
  let h := Stub.host (Stub.run_ok 0) in
  let w := mkWorld Stub.disk_stale [] in
  let clean_args := mkArgs RELEASE (Some ["linux-x64"]) false true false false false
                      false false in
  (script h clean_args w).1 = 0 /\
  commands (trace (script h clean_args w).2) = [] /\
  fs (script h clean_args w).2 !! (Stub.proj </> "dist") = None.
Proof.
  intros h w clean_args.
  destruct (main_list_and_clean_build_nothing h clean_args w) as [_ H].
  - vm_compute. reflexivity.
  - apply tree_check. apply (bool_decide_unpack _). vm_compute. exact I.
  - vm_compute. discriminate.
  - vm_compute. discriminate.
  - destruct H as (w' & d & Hs & Htr & Hc & Hfs); [reflexivity|reflexivity|].
    rewrite Hs. cbn [fst snd]. split; [reflexivity|].
    rewrite Htr, Hfs. cbn [trace app]. split; [exact Hc|].
    vm_compute. reflexivity.
Defined.

(** ** A successful desktop build, end to end *)

Lemma mkdirs_fs_tree p f : tree f -> tree (mkdirs_fs p f).
Proof.
  intros Ht p' q Hp' Hpq. rewrite !mkdirs_fs_lookup.
  destruct (f !! q) as [k|] eqn:Hq.
  - intros _. destruct (Ht p' q Hp' Hpq) as [k' ->]; [eexists; exact Hq|].
    eexists. reflexivity.
  - destruct (decide (q ∈ ancestors_and_self p)) as [Hin|]; [|intros [? [=]]].
    intros _. apply ancestors_and_self_prefix in Hin as [Hqp _].
    destruct (f !! p'); [eexists; reflexivity|].
    rewrite decide_True; [eexists; reflexivity|].
    apply prefix_in_ancestors; [exact Hp'|]. etrans; eassumption.
Qed.

Lemma prefix_parent (p' p : Path) : p' `prefix_of` p -> p' <> p -> p' `prefix_of` parent p.
Proof.
  intros [k ->] Hne. unfold parent.
  assert (k <> []) by (intros ->; apply Hne; rewrite app_nil_r; reflexivity).
  rewrite removelast_app by assumption. apply prefix_app_r. reflexivity.
Qed.

Lemma insert_child_tree p k f :
  tree f -> is_Some (f !! parent p) -> tree (<[p := k]> f).
Proof.
  intros Ht Hpar p' q Hp' Hpq Hq. apply lookup_insert_is_Some'.
  destruct (decide (p = p')) as [|Hne]; [left; assumption|right].
  destruct (decide (q = p)) as [->|Hqp].
  - apply (Ht p' (parent p) Hp'); [|exact Hpar].
    apply prefix_parent; [exact Hpq|congruence].
  - rewrite lookup_insert_ne in Hq by congruence. exact (Ht p' q Hp' Hpq Hq).
Qed.

Lemma stub_run_cargo_keeps_tree : keeps_tree (Stub.host Stub.run_cargo).
Proof.
  intros cmd cwd env f Ht. cbn [run_process Stub.host]. unfold Stub.run_cargo.
  destruct (bool_decide _); [|exact Ht]. cbv zeta. cbn [snd].
  apply insert_child_tree; [apply mkdirs_fs_tree, Ht|].
  rewrite mkdirs_fs_lookup. destruct (f !! _); [eexists; reflexivity|].
  rewrite decide_True; [eexists; reflexivity|].
  apply ancestors_and_self_last. unfold Stub.cargo_output.
  rewrite parent_joinpath. apply joinpath_not_nil.
Qed.

Section DesktopBuild.

Variable h : Host.
Variable b : rVPNSEBuilder.
Hypothesis Hlayout : layout b.

Lemma output_not_under_target_dir t q :
  output_dir b `prefix_of` q -> ~ build_dir b </> rust_target t `prefix_of` q.
Proof.
  destruct Hlayout as [-> ->]. unfold joinpath. intros Ho Hb.
  destruct (prefix_weak_total _ _ _ Ho Hb) as [[k Hk]|[k Hk]];
    rewrite <- !app_assoc in Hk; apply app_inv_head in Hk; discriminate Hk.
Qed.

Lemma cleaned_output t w q :
  output_dir b `prefix_of` q -> fs (cleaned b t w) !! q = fs w !! q.
Proof.
  intros Hq. unfold cleaned. destruct (exists_ _ _); [|reflexivity].
  rewrite fs_emit, rmtree_fs_lookup.
  destruct (decide _) as [Hp|]; [|reflexivity].
  exfalso. exact (output_not_under_target_dir t q Hq Hp).
Qed.

(** After the output directory is recreated in a tree, it is empty. *)
Lemma clean_step_empty w :
  tree (fs w) ->
  exists w2, clean_step b w = (Ok (), w2) /\ empty_dir (fs w2) (output_dir b).
Proof.
  intros Ht. destruct (clean_output_dir b w) as (f & d & Hc & _ & _ & Hdir & Hbelow).
  exists (mkWorld f (trace w ++ d)). split; [exact Hc|]. split; [exact Hdir|].
  intros q Hpq Hne. cbn [fs].
  destruct (Hbelow q Hpq Hne) as [Hq|[Hnone Hq]]; [exact Hq|].
  rewrite Hq. apply eq_None_not_Some. intros Hs.
  destruct (Ht (output_dir b) q) as [k Hk]; [|exact Hpq|exact Hs|congruence].
  destruct Hlayout as [_ ->]. apply joinpath_not_nil.
Qed.

(** Recreating the output directory and removing the output of a triple
    do not turn the header or the README into directories. *)
Lemma docs_regular_cleaned t w1 w2 :
  docs_regular b (fs w1) -> clean_step b w1 = (Ok (), w2) ->
  docs_regular b (fs (cleaned b t w2)).
Proof.
  intros [Hh Hr] Hclean.
  assert (Hcs : confined (near (output_dir b)) (clean_step b))
    by (unfold clean_step; repeat confined_step).
  assert (Hkeep : forall p, ~ near (output_dir b) p -> not_dir (fs w1) p ->
                            not_dir (fs (cleaned b t w2)) p).
  { intros p Hfar Hp. unfold not_dir.
    destruct (cleaned_lookup b t w2 p) as [-> | ->]; [|discriminate].
    rewrite (Hcs _ _ _ Hclean p Hfar). exact Hp. }
  split; apply Hkeep; try assumption.
  - apply header_far, Hlayout.
  - apply readme_far, Hlayout.
Qed.

End DesktopBuild.

(** X18: a successful build of one desktop target, end to end.  With
    [cargo] found, on a file system that is and stays a tree in which the
    output directory and the output directory of the triple are not
    regular files, when the build tool exits 0 for the target, leaves its
    library as a file, leaves header and README regular files if they
    exist and does not touch the output directory, [build] returns success
    for the target and the output directory then holds exactly the archive
    of the target: what it held before is gone, and so is the staging
    directory. *)
Theorem desktop_build_delivers_archive h b n t w :
  cargo_found h = true -> layout b ->
  dict_get TARGETS n = Some t -> is_desktop t = true ->
  sane b t (fs w) ->
  (forall cmd cwd env f, sane b t f -> sane b t (run_process h cmd cwd env f).2) ->
  (forall env f, f !! output_dir b = Some Dir -> docs_regular b f ->
     let out := run_process h (cargo_cmd b t) (project_root b) env f in
     out.1 = Some 0 /\ out.2 !! lib_path b t = Some File /\
     docs_regular b out.2 /\
     forall q, output_dir b `prefix_of` q -> out.2 !! q = f !! q) ->
  exists w',
    build h b [n] w = (Ok {[ n := true ]}, w') /\
    forall q, output_dir b `prefix_of` q ->
      fs w' !! q = if decide (q = output_dir b) then Some Dir
                   else if decide (q = desktop_archive b t) then Some File
                   else None.
Proof.
  intros Hcargo Hl Hn Hdesk Hsane Hkeep Htool.
  assert (Hna : platform t <> ANDROID /\ platform t <> IOS).
  { unfold is_desktop, is_android, is_ios in Hdesk.
    apply negb_true_iff, orb_false_iff in Hdesk as [H1 H2].
    apply bool_decide_eq_false in H1, H2. split; assumption. }
  destruct Hna as [Hna Hni].
  rewrite build_unfold.
  destruct (setup_rust_environment_spec h b (sane b t) w Hkeep Hsane)
    as (w1 & d1 & Hsetup & _ & _ & _ & (Htree1 & _ & _ & Hdocs1) & _).
  rewrite (bind_ok _ _ _ _ _ Hsetup), Hcargo. cbn [negb].
  destruct (clean_step_empty b Hl w1 Htree1) as (w2 & Hclean & Hdir & Hempty).
  rewrite (bind_ok _ _ _ _ _ Hclean).
  rewrite valid_names_filter.
  2:{ intros m Hm. apply list_elem_of_singleton in Hm as ->. eexists. exact Hn. }
  cbn [nonempty for_fold]. unfold build_body. rewrite Hn.
  destruct (Htool (tool_env h (environ h)) (fs (cleaned b t w2)))
    as (Hcode & Hfile & _ & Hout).
  { rewrite (cleaned_output b Hl); [exact Hdir|reflexivity]. }
  { exact (docs_regular_cleaned b Hl t w1 w2 Hdocs1 Hclean). }
  assert (Hlib : is_Some
            ((run_process h (cargo_cmd b t) (project_root b) (tool_env h (environ h))
                (fs (cleaned b t w2))).2 !! lib_path b t))
    by (rewrite Hfile; eexists; reflexivity).
  set (out := run_process h (cargo_cmd b t) (project_root b) (tool_env h (environ h))
                (fs (cleaned b t w2))) in *.
  set (w3 := emit (EvRun (cargo_cmd b t) (tool_env h (environ h)) out.1) out.2
               (cleaned b t w2)).
  assert (Hbt : _build_target h b t w2 = (Ok true, w3)).
  { rewrite build_target_eq. destruct (decide (platform t = ANDROID)); [contradiction|].
    unfold run_build. fold out. fold w3. f_equal. f_equal.
    rewrite (bool_decide_eq_true_2 _ Hcode). unfold exists_.
    rewrite (bool_decide_eq_true_2 _ Hlib). reflexivity. }
  assert (Hw3 : forall q, output_dir b `prefix_of` q -> fs w3 !! q = fs w2 !! q).
  { intros q Hq. unfold w3. rewrite fs_emit, (Hout q Hq).
    apply (cleaned_output b Hl), Hq. }
  assert (Hst : output_dir b </> ("rvpnse-" +:+ name t) <> output_dir b).
  { intros H. apply (f_equal List.length) in H. rewrite length_joinpath in H. lia. }
  destruct (package_target_run b t w3) as (w4 & d4 & Hpk & _ & _ & _ & Hfs).
  { apply (dict_get_elem TARGETS n). exact Hn. }
  { rewrite Hw3 by reflexivity. exact Hdir. }
  { rewrite Hw3 by under_output. rewrite Hempty; [discriminate|under_output|exact Hst]. }
  { unfold w3. rewrite fs_emit. apply bool_decide_eq_true. exact Hlib. }
  exists w4. split.
  - rewrite !bind_assoc, (bind_ok _ _ _ _ _ Hbt). cbv beta iota.
    destruct (decide (platform t = ANDROID)); [contradiction|].
    destruct (decide (platform t = IOS)); [contradiction|].
    rewrite !bind_assoc, (bind_ok _ _ _ _ _ Hpk).
    unfold bind, ret, android_step, ios_step. cbn [android_targets ios_targets nonempty
      results]. rewrite insert_empty. reflexivity.
  - intros q Hq. rewrite Hfs.
    assert (Har : desktop_archive b t <> output_dir b).
    { intros H. apply (f_equal List.length) in H. unfold desktop_archive in H.
      rewrite length_joinpath in H. lia. }
    destruct (decide (_ `prefix_of` q)) as [Hp|Hnp].
    + rewrite decide_False.
      * rewrite decide_False; [reflexivity|].
        intros ->. unfold desktop_archive in Hp. apply joinpath_prefix_sibling in Hp.
        pose proof registry_staging_names as Hr. rewrite Forall_forall in Hr.
        destruct (Hr t (dict_get_elem TARGETS n t Hn)) as [Hz Hg].
        destruct (decide (platform t = WINDOWS)); [exact (Hz Hp)|exact (Hg Hp)].
      * intros ->. apply Hst. apply prefix_antisym_path; [exact Hp|under_output].
    + destruct (decide (q = desktop_archive b t)) as [->|Hqa].
      * rewrite decide_False by exact Har. reflexivity.
      * rewrite (Hw3 q Hq). destruct (decide (q = output_dir b)) as [->|Hqo].
        -- exact Hdir.
        -- apply Hempty; assumption.
Qed.

Lemma parent_prefix (p : Path) : parent p `prefix_of` p.
Proof.
  unfold parent. destruct (decide (p = [])) as [->|Hn]; [reflexivity|].
  exists [List.last p ""]. apply app_removelast_last. exact Hn.
Qed.

(** What the stub build tool writes, seen from a path [p] that is neither
    the library nor one of the directories above it. *)
Lemma stub_run_cargo_lookup triple rest f p :
  ~ p `prefix_of` Stub.cargo_output Stub.proj triple rest ->
  (<[Stub.cargo_output Stub.proj triple rest := File]>
     (mkdirs_fs (parent (Stub.cargo_output Stub.proj triple rest)) f)) !! p = f !! p.
Proof.
  intros Hp. rewrite lookup_insert_ne, mkdirs_fs_lookup.
  - destruct (f !! p); [reflexivity|].
    rewrite decide_False; [reflexivity|]. intros Hin.
    apply ancestors_and_self_prefix in Hin as [Hin _]. apply Hp.
    etrans; [exact Hin|]. apply parent_prefix.
  - intros <-. apply Hp. reflexivity.
Qed.

Lemma stub_run_cargo_sane :
  forall cmd cwd env f,
    sane (Stub.builder RELEASE) Stub.linux_x64 f ->
    sane (Stub.builder RELEASE) Stub.linux_x64
      (run_process (Stub.host Stub.run_cargo) cmd cwd env f).2.
Proof.
  intros cmd cwd env f (Ht & Ho & Hb & Hh & Hr).
  split; [apply stub_run_cargo_keeps_tree, Ht|].
  cbn [run_process Stub.host]. unfold Stub.run_cargo.
  destruct (bool_decide _) eqn:E; [|repeat split; assumption].
  apply bool_decide_eq_true in E as [_ ->]. cbv zeta. cbn [snd].
  set (triple := default "" (cmd !! 3%nat)). set (rest := drop 4 cmd).
  assert (Hout : forall p,
            ~ p `prefix_of` Stub.cargo_output Stub.proj triple rest \/
            List.length p = 4%nat ->
            not_file f p ->
            not_file (<[Stub.cargo_output Stub.proj triple rest := File]>
                        (mkdirs_fs (parent (Stub.cargo_output Stub.proj triple rest)) f))
              p).
  { intros p [Hp|Hlen] Hnf; unfold not_file.
    - rewrite stub_run_cargo_lookup by exact Hp. exact Hnf.
    - rewrite lookup_insert_ne, mkdirs_fs_lookup.
      + unfold not_file in Hnf. destruct (f !! p) eqn:Ep; [exact Hnf|].
        destruct (decide _); discriminate.
      + intros <-. unfold Stub.cargo_output in Hlen.
        rewrite !length_joinpath in Hlen. cbn in Hlen. lia. }
  split; [|split; [|split]].
  - apply Hout; [|exact Ho]. left. intros [k Hk]. cbn in Hk. congruence.
  - apply Hout; [|exact Hb]. right. reflexivity.
  - unfold not_dir. rewrite stub_run_cargo_lookup; [exact Hh|].
    intros [k Hk]. cbn in Hk. congruence.
  - unfold not_dir. rewrite stub_run_cargo_lookup; [exact Hr|].
    intros [k Hk]. cbn in Hk. congruence.
Qed.

Lemma desktop_build_delivers_archive_witness :
  let rw := build (Stub.host Stub.run_cargo) (Stub.builder RELEASE) ["linux-x64"]
              Stub.world in
  rw.1 = Ok {[ "linux-x64" := true ]} /\
  fs rw.2 !! (Stub.proj </> "dist" </> "rvpnse-linux-x64.tar.gz") = Some File /\
  fs rw.2 !! (Stub.proj </> "dist" </> "rvpnse-old.tar.gz") = None.
Proof.
  intros rw.
  destruct (desktop_build_delivers_archive (Stub.host Stub.run_cargo)
              (Stub.builder RELEASE) "linux-x64" Stub.linux_x64 Stub.world)
    as (w' & Hb & Hfs).
  - reflexivity.
  - split; reflexivity.
  - vm_compute. reflexivity.
  - reflexivity.
  - split; [exact stub_disk_tree|]. repeat split; vm_compute; discriminate.
  - exact stub_run_cargo_sane.
  - intros env f Hf [Hh Hr]. cbv zeta.
    change (run_process (Stub.host Stub.run_cargo)
              (cargo_cmd (Stub.builder RELEASE) Stub.linux_x64)
              (project_root (Stub.builder RELEASE)) env f)
      with (Some 0,
            <[Stub.cargo_output Stub.proj "x86_64-unknown-linux-gnu" ["--release"]
              := File]>
              (mkdirs_fs
                 (parent (Stub.cargo_output Stub.proj "x86_64-unknown-linux-gnu"
                            ["--release"])) f)).
    cbn [fst snd]. split; [reflexivity|].
    split; [apply lookup_insert_eq|]. split; [split|].
    + unfold not_dir. rewrite stub_run_cargo_lookup; [exact Hh|].
      intros [k Hk]. cbn in Hk. congruence.
    + unfold not_dir. rewrite stub_run_cargo_lookup; [exact Hr|].
      intros [k Hk]. cbn in Hk. congruence.
    + intros q [k ->]. apply stub_run_cargo_lookup.
      intros [k' Hk']. cbn in Hk'. congruence.
  - subst rw. rewrite Hb. cbn [fst snd]. split; [reflexivity|].
    split; (rewrite Hfs; [vm_compute; reflexivity|]);
      apply (bool_decide_unpack _); vm_compute; exact I.
Defined.
